(** * Tascade AI: the MCP command dispatcher, RPC client and context manager

    A shallow embedding of
    - [TascadeMCPServer.handleMessage] (the enhanced MCP server),
    - [MCPClient] (src/mcp/client.js),
    - [MCPContextManager] (src/mcp/context_manager.js),
    together with the properties their specification states about them. *)

From Stdlib Require Import ZArith String Ascii List Bool Lia.
From stdpp Require Import base option list gmap strings pretty.

Import ListNotations.
Set Warnings "-register-all".
Local Open Scope string_scope.
Local Open Scope Z_scope.

(** ** ECMAScript dates

    A [Date] holds a time value: milliseconds since the epoch, or NaN for an
    Invalid Date ([None]). *)
Module JSDate.

Abbreviation Date := (option Z).

Definition msPerDay : Z := 86400000.
Definition maxTime : Z := 8640000000000000.

(** TimeClip: a finite time value is kept when it is in range. *)
Definition TimeClip (t : Z) : Date :=
    if (- maxTime <=? t) && (t <=? maxTime) then Some t else None.

(** Year, month and day of a day number within its 400-year era; the day
      number [doe] counts from the 1st of March of a year divisible by 400. *)
Definition civil_of_doe (doe : Z) : Z * Z * Z :=
    let yoe := (doe - doe / 1460 + doe / 36524 - doe / 146096) / 365 in
    let doy := doe - (365 * yoe + yoe / 4 - yoe / 100) in
    let mp := (5 * doy + 2) / 153 in
    let d := doy - (153 * mp + 2) / 5 + 1 in
    let m := if mp <? 10 then mp + 3 else mp - 9 in
    (yoe, m, d).

Definition doe_of_civil (yoe m d : Z) : Z :=
    let mp := if 2 <? m then m - 3 else m + 9 in
    let doy := (153 * mp + 2) / 5 + d - 1 in
    yoe * 365 + yoe / 4 - yoe / 100 + doy.

(** YearFromTime, MonthFromTime (1-based) and DateFromTime of a day number. *)
Definition civil_of_days (days : Z) : Z * Z * Z :=
    let z := days + 719468 in
    let era := z / 146097 in
    let '(yoe, m, d) := civil_of_doe (z mod 146097) in
    (yoe + era * 400 + (if m <=? 2 then 1 else 0), m, d).

(** MakeDay for a calendar date. *)
Definition days_of_civil (y m d : Z) : Z :=
    let y' := if m <=? 2 then y - 1 else y in
    (y' / 400) * 146097 + doe_of_civil (y' mod 400) m d - 719468.

Definition digit (n : Z) : ascii := ascii_of_N (Z.to_N (48 + n)).

Definition digit_val (c : ascii) : option Z :=
    let n := Z.of_N (N_of_ascii c) in
    if (48 <=? n) && (n <=? 57) then Some (n - 48) else None.

(** [pad w n]: the last [w] decimal digits of [n], leading zeros included. *)
Fixpoint pad (w : nat) (n : Z) : string :=
    match w with
    | O => ""
    | S w' => String (digit (n / 10 ^ Z.of_nat w' mod 10)) (pad w' n)
    end.

(** [Date.prototype.toISOString]: [YYYY-MM-DDTHH:mm:ss.sssZ], the year
      written with a sign and six digits outside 0..9999.  The caller has
      checked the time value is finite. *)
Definition iso_of_time (t : Z) : string :=
    let '(y, m, d) := civil_of_days (t / msPerDay) in
    let r := t mod msPerDay in
    let year :=
      if (0 <=? y) && (y <=? 9999) then pad 4 y
      else if y <? 0 then "-" +:+ pad 6 (- y) else "+" +:+ pad 6 y in
    year +:+ "-" +:+ pad 2 m +:+ "-" +:+ pad 2 d +:+ "T"
      +:+ pad 2 (r / 3600000) +:+ ":" +:+ pad 2 (r / 60000 mod 60) +:+ ":"
      +:+ pad 2 (r / 1000 mod 60) +:+ "." +:+ pad 3 (r mod 1000) +:+ "Z".

(** [toISOString] throws a RangeError on an Invalid Date ([None]). *)
Definition toISOString (d : Date) : option string :=
    match d with
    | Some t => Some (iso_of_time t)
    | None => None
    end.

(** Reads exactly [w] decimal digits off the front of [s]. *)
Fixpoint read_digits (w : nat) (acc : Z) (s : string) : option (Z * string) :=
    match w with
    | O => Some (acc, s)
    | S w' =>
        match s with
        | String c r =>
            match digit_val c with
            | Some v => read_digits w' (10 * acc + v) r
            | None => None
            end
        | EmptyString => None
        end
    end.

Definition expect (c : ascii) (s : string) : option string :=
    match s with
    | String c' r => if Ascii.eqb c c' then Some r else None
    | EmptyString => None
    end.

Definition read_year (s : string) : option (Z * string) :=
    match s with
    | String "+" r => read_digits 6 0 r
    | String "-" r =>
        match read_digits 6 0 r with
        | Some (y, r') => if y =? 0 then None else Some (- y, r')
        | None => None
        end
    | _ => read_digits 4 0 s
    end.

(** [Date.parse] on the complete UTC form of the Date Time String Format
      (the form [toISOString] emits); a day of the month up to 31 runs over
      into the next month, as MakeDay does.  Any other text is read as NaN
      here: how a host treats other spellings is not fixed by the language. *)
Definition parse (s : string) : Date :=
    '(y, s) ← read_year s;
    s ← expect "-" s;
    '(m, s) ← read_digits 2 0 s;
    s ← expect "-" s;
    '(d, s) ← read_digits 2 0 s;
    s ← expect "T" s;
    '(h, s) ← read_digits 2 0 s;
    s ← expect ":" s;
    '(mi, s) ← read_digits 2 0 s;
    s ← expect ":" s;
    '(sec, s) ← read_digits 2 0 s;
    s ← expect "." s;
    '(ms, s) ← read_digits 3 0 s;
    s ← expect "Z" s;
    if negb (String.eqb s "") then None
    else if negb ((1 <=? m) && (m <=? 12) && (1 <=? d) && (d <=? 31)
                  && (mi <=? 59) && (sec <=? 59)
                  && ((h <=? 23) || ((h =? 24) && (mi + sec + ms =? 0)))) then None
    else TimeClip (days_of_civil y m d * msPerDay
                   + h * 3600000 + mi * 60000 + sec * 1000 + ms).

End JSDate.


(** ** JavaScript values

    The values the three components exchange.  [H] is the type of host
    objects a value may hold: none on the wire ([Empty_set], JSON has no
    dates), [Date] inside the context manager.  Numbers occur only as opaque
    payload, in truthiness tests and printed in messages, and are taken to
    be integers that JavaScript holds exactly (below 2^53 in magnitude),
    which it prints in plain decimal.

    An object is the list of its own enumerable properties in enumeration
    order: array-index keys in ascending numeric order first, then the other
    keys in the order they were created. *)
Module JS.

Inductive value (H : Type) : Type :=
  | VUndefined
  | VNull
  | VBool (b : bool)
  | VNum (n : Z)
  | VStr (s : string)
  | VHost (h : H)
  | VArr (elems : list (value H))
  | VObj (props : list (string * value H)).

Arguments VUndefined {H}.
Arguments VNull {H}.
Arguments VBool {H} b.
Arguments VNum {H} n.
Arguments VStr {H} s.
Arguments VHost {H} h.
Arguments VArr {H} elems.
Arguments VObj {H} props.

(** The outcome of evaluating code that may throw; [Throws] carries the
      message of the Error thrown. *)
Inductive result (A : Type) : Type :=
  | Returns (a : A)
  | Throws (message : string).

Arguments Returns {A} a.
Arguments Throws {A} message.

Definition bind {A B} (r : result A) (k : A -> result B) : result B :=
    match r with
    | Returns a => k a
    | Throws m => Throws m
    end.

Section Values.
Context {H : Type}.

(** ToBoolean. *)
Definition truthy (v : value H) : bool :=
      match v with
      | VUndefined | VNull => false
      | VBool b => b
      | VNum n => negb (n =? 0)
      | VStr s => negb (String.eqb s "")
      | VHost _ | VArr _ | VObj _ => true
      end.

(** [a || b]. *)
Definition or_else (a b : value H) : value H := if truthy a then a else b.

Definition lookup_prop (k : string) (o : list (string * value H)) : option (value H) :=
      snd <$> List.find (fun kv => String.eqb k (fst kv)) o.

Definition has_prop (k : string) (o : list (string * value H)) : bool :=
      bool_decide (is_Some (lookup_prop k o)).

(** [v.k] for the property names the code reads ([id], [command],
        [params], [message], [error], [timestamp], ...), none of which is a
        built-in property of strings, numbers, arrays or dates: reading them
        off a non-object gives undefined, and off null or undefined throws. *)
Definition get (v : value H) (k : string) : result (value H) :=
      match v with
      | VUndefined => Throws ("Cannot read properties of undefined (reading '" +:+ k +:+ "')")
      | VNull => Throws ("Cannot read properties of null (reading '" +:+ k +:+ "')")
      | VObj o => Returns (default VUndefined (lookup_prop k o))
      | _ => Returns VUndefined
      end.

(** The array index a property key denotes, if any: the canonical decimal
        spelling of an integer below 2^32 - 1. *)
Definition array_index (k : string) : option Z :=
      match k with
      | EmptyString => None
      | String c r =>
          if Ascii.eqb c "0" then (if String.eqb r "" then Some 0 else None)
          else
            match JSDate.read_digits (String.length k) 0 k with
            | Some (n, _) => if n <? 2 ^ 32 - 1 then Some n else None
            | None => None
            end
      end.

(** CreateDataProperty/Set on an ordinary object: an existing key keeps
        its place and takes the new value; a new array-index key goes in
        numeric order among the index keys; any other new key goes last. *)
Fixpoint define_prop (o : list (string * value H)) (k : string) (v : value H)
      : list (string * value H) :=
      match o with
      | [] => [(k, v)]
      | (k', v') :: r =>
          if String.eqb k k' then (k, v) :: r
          else
            match array_index k, array_index k' with
            | Some n, Some n' => if n <? n' then (k, v) :: o else (k', v') :: define_prop r k v
            | Some _, None => (k, v) :: o
            | None, _ => (k', v') :: define_prop r k v
            end
      end.

Fixpoint indexed (i : Z) (l : list (value H)) : list (string * value H) :=
      match l with
      | [] => []
      | x :: r => (pretty i, x) :: indexed (i + 1) r
      end.

Fixpoint chars (s : string) : list (value H) :=
      match s with
      | EmptyString => []
      | String c r => VStr (String c "") :: chars r
      end.

(** The own enumerable properties an object spread [...v] copies. *)
Definition own_props (v : value H) : list (string * value H) :=
      match v with
      | VObj o => o
      | VArr l => indexed 0 l
      | VStr s => indexed 0 (chars s)
      | _ => []
      end.

(** [{ ...target, ...v }]: the properties of [v] defined on [target] in
        enumeration order. *)
Definition spread (target : list (string * value H)) (v : value H)
      : list (string * value H) :=
      fold_left (fun o kv => define_prop o (fst kv) (snd kv)) (own_props v) target.

Definition keys (o : list (string * value H)) : list string := map fst o.

(** Enumeration order of the keys of an object. *)
Definition key_before (k1 k2 : string) : Prop :=
      match array_index k1, array_index k2 with
      | Some a, Some b => a < b
      | Some _, None => True
      | None, Some _ => False
      | None, None => True
      end.

Definition key_beforeb (k1 k2 : string) : bool :=
      match array_index k1, array_index k2 with
      | Some a, Some b => a <? b
      | Some _, None => true
      | None, Some _ => false
      | None, None => true
      end.

Fixpoint ordered_keys (ks : list string) : bool :=
      match ks with
      | [] => true
      | k :: r => forallb (fun k' => negb (String.eqb k k') && key_beforeb k k') r
                  && ordered_keys r
      end.

(** The representation invariant of an object: no key twice, keys in
        enumeration order. *)
Definition wf_props (o : list (string * value H)) : bool := ordered_keys (keys o).

Definition is_index (k : string) : bool :=
      match array_index k with Some _ => true | None => false end.

(** The properties of an object under array-index keys, and the others. *)
Definition index_props (o : list (string * value H)) : list (string * value H) :=
      List.filter (fun kv => is_index (fst kv)) o.

Definition named_props (o : list (string * value H)) : list (string * value H) :=
      List.filter (fun kv => negb (is_index (fst kv))) o.

End Values.

(** ToString completes on the value.  An object is converted by its
    [toString] method, which is that of [Object.prototype] unless the object
    has a [toString] property of its own; such a property holds a value of
    this type, not a function, [valueOf] then returns the object itself, and
    the conversion throws a TypeError.  An array is joined, its elements
    (undefined and null apart) converted in turn. *)
Fixpoint prints {H} (v : value H) : bool :=
    match v with
    | VArr l => forallb prints l
    | VObj o => negb (has_prop "toString" o)
    | _ => true
    end.

(** Values all of whose objects satisfy the invariant. *)
Fixpoint wf_value {H} (v : value H) : bool :=
    match v with
    | VArr l => forallb wf_value l
    | VObj o =>
        wf_props o
        && (fix go (o : list (string * value H)) : bool :=
              match o with
              | [] => true
              | (_, x) :: r => wf_value x && go r
              end) o
    | _ => true
    end.

End JS.

(** ** The wire

    Both ends exchange JSON texts.  A text frame is represented by what
    [JSON.parse] makes of it: the message of the SyntaxError it raises, or
    the value it denotes. *)
Module Wire.
Import JS.

Abbreviation json := (value Empty_set).

Inductive payload : Type :=
  | Malformed (syntax_error : string)
  | Text (v : json).

Definition JSON_parse (p : payload) : result json :=
    match p with
    | Malformed e => Throws e
    | Text v => Returns v
    end.

(** What [JSON.stringify] writes of a value: a property whose value is
      undefined is omitted, an undefined array element is written null. *)
Fixpoint jsonify (v : json) : json :=
    match v with
    | VArr l =>
        VArr (map (fun x => match x with VUndefined => VNull | _ => jsonify x end) l)
    | VObj o =>
        VObj ((fix go (o : list (string * json)) : list (string * json) :=
                 match o with
                 | [] => []
                 | (k, VUndefined) :: r => go r
                 | (k, x) :: r => (k, jsonify x) :: go r
                 end) o)
    | _ => v
    end.

Definition JSON_stringify (v : json) : payload := Text (jsonify v).

(** Values [JSON.parse] can produce: no undefined inside. *)
Fixpoint is_json (v : json) : bool :=
    match v with
    | VUndefined => false
    | VArr l => forallb is_json l
    | VObj o =>
        (fix go (o : list (string * json)) : bool :=
           match o with
           | [] => true
           | (_, x) :: r => is_json x && go r
           end) o
    | _ => true
    end.

(** [Array.prototype.join]: the elements are converted in turn by [print],
      undefined and null to the empty string, and put together with [sep]
      between them. *)
Section Join.
Variable print : json -> result string.
Variable sep : string.

Fixpoint join (l : list json) : result string :=
      match l with
      | [] => Returns ""
      | x :: r =>
          bind (match x with
                | VUndefined | VNull => Returns ""
                | _ => print x
                end) (fun sx =>
          match r with
          | [] => Returns sx
          | _ => bind (join r) (fun sr => Returns (sx +:+ sep +:+ sr))
          end)
      end.
End Join.

(** ToString, as a template literal, a concatenation or [new Error(v)]
      applies it.  An array is joined with commas.  An object is converted
      by its [toString] method, which is that of [Object.prototype] unless
      the object has a [toString] property of its own; in a value parsed
      from JSON such a property is not a function, [valueOf] then returns
      the object itself, and the conversion throws a TypeError. *)
Fixpoint to_string (v : json) : result string :=
    match v with
    | VUndefined => Returns "undefined"
    | VNull => Returns "null"
    | VBool true => Returns "true"
    | VBool false => Returns "false"
    | VNum n => Returns (pretty n)
    | VStr s => Returns s
    | VHost h => match h with end
    | VArr l => join to_string "," l
    | VObj o =>
        if has_prop "toString" o then Throws "Cannot convert object to primitive value"
        else Returns "[object Object]"
    end.

(** [typeof v === 'object']. *)
Definition typeof_object (v : json) : bool :=
    match v with
    | VNull | VArr _ | VObj _ => true
    | _ => false
    end.

End Wire.

(** ** Destructuring *)
Module Destructuring.
Import JS Wire.

(** [const { k } = v], where [what] is how the source writes [v]. *)
Definition destructure (what : string) (v : json) (k : string) : result json :=
  match v with
  | VUndefined =>
      Throws ("Cannot destructure property '" +:+ k +:+ "' of '" +:+ what
              +:+ "' as it is undefined.")
  | VNull =>
      Throws ("Cannot destructure property '" +:+ k +:+ "' of '" +:+ what
              +:+ "' as it is null.")
  | _ => get v k
  end.

(** A default value, of a parameter or in a destructuring pattern: [d]
    stands in for undefined. *)
Definition defaulted (v d : json) : json :=
  match v with VUndefined => d | _ => v end.

End Destructuring.

(** ** The command dispatcher: [TascadeMCPServer] *)
Module Server.
Import JS Wire.

(** A registered tool.  The handler is given the params and the client
      socket; it resolves with a value or fails with an Error. *)
Record tool : Type := {
    name : string;
    handler : json -> nat -> result json;
    schema : json
  }.

Record server : Type := {
    tools : gmap string tool;
    resources : gmap string json
  }.

(** [registerTool(name, handler, schema = {})]. *)
Definition registerTool (srv : server) (n : string)
      (h : json -> nat -> result json) (sch : json) : server :=
    {| tools := <[n := {| name := n; handler := h;
                          schema := match sch with VUndefined => VObj [] | _ => sch end |}]>
                  (tools srv);
       resources := resources srv |}.

Definition addResource (srv : server) (uri : string) (content : json) : server :=
    {| tools := tools srv; resources := <[uri := content]> (resources srv) |}.

(** [this.tools.has(c)] / [this.tools.get(c)]: the keys are strings, so a
      command that is not a string is never found. *)
Definition find_tool (srv : server) (c : json) : option tool :=
    match c with
    | VStr s => tools srv !! s
    | _ => None
    end.

(** [client.send(text)]. *)
Inductive effect : Type :=
  | Send (client : nat) (text : payload).

(** [new Date().toISOString()] at time [now]. *)
Definition timestamp (now : Z) : json := VStr (JSDate.iso_of_time now).

(** The object a successful command is answered with:
      [{ id: data.id, ...result, timestamp: new Date().toISOString() }]. *)
Definition success_response (id result : json) (now : Z) : list (string * json) :=
    define_prop (spread [("id", id)] result) "timestamp" (timestamp now).

(** The body of the outer [try] of [handleMessage].  [received] is the
      command as [console.log(`Received command: ${data.command}`)] prints
      it; the conversion can throw. *)
Definition handleMessage_try (srv : server) (now : Z) (client : nat)
      (message : payload) : result (list effect) :=
    bind (JSON_parse message) (fun data =>
    bind (get data "command") (fun command =>
    bind (get data "id") (fun id =>
    if negb (truthy command) then
      Returns [Send client (JSON_stringify (VObj
        [("id", id); ("error", VStr "Missing command"); ("timestamp", timestamp now)]))]
    else
      bind (to_string command) (fun received =>
      match find_tool srv command with
      | None =>
          Returns [Send client (JSON_stringify (VObj
            [("id", id);
             ("error", VObj [("code", VStr "unknown_command");
                             ("message", VStr ("Unknown command: " +:+ received))]);
             ("timestamp", timestamp now)]))]
      | Some t =>
          bind (get data "params") (fun params =>
          match handler t (or_else params (VObj [])) client with
          | Returns result =>
              Returns [Send client (JSON_stringify (VObj (success_response id result now)))]
          | Throws m =>
              Returns [Send client (JSON_stringify (VObj
                [("id", id); ("error", VStr ("Error executing command: " +:+ m));
                 ("timestamp", timestamp now)]))]
          end)
      end)))).

(** [handleMessage(client, message)]: whatever the body throws is caught
      and answered. *)
Definition handleMessage (srv : server) (now : Z) (client : nat)
      (message : payload) : list effect :=
    match handleMessage_try srv now client message with
    | Returns effects => effects
    | Throws m =>
        [Send client (JSON_stringify (VObj
           [("error", VStr ("Error parsing message: " +:+ m));
            ("timestamp", timestamp now)]))]
    end.

End Server.

(** ** The RPC client: [MCPClient] *)
Module Client.
Import JS Wire Destructuring.

(** An entry of [pendingCommands].  Its [resolve] and [reject]
      continuations are those of the promise [sendCommand] returned for the
      request id the entry is stored under. *)
Record pending : Type := {
    command : string;
    params : json;
    timeoutId : nat;
    sentAt : Z
  }.

(** The URL of the server, kept parsed: the host and the port connections
      go to, which is the port of the scheme when the URL names none. *)
Record url : Type := { host : string; port : Z }.

#[global] Instance url_eq_dec : EqDecision url.
Proof. solve_decision. Defined.

Record client : Type := {
    server_url : url;
    timeout : Z;
    maxReconnectAttempts : Z;
    reconnectDelay : Z;
    ws : option nat;
    connected : bool;
    reconnectAttempts : Z;
    intentionalClose : bool;
    pendingCommands : list (string * pending);
    contextId : option string;
    sequenceId : Z;
    availableResources : gmap string json
  }.

(** The message of an Error: a string, or the text [JSON.stringify]
      writes of a value. *)
Inductive text : Type :=
  | Str (s : string)
  | JsonText (v : json).

Inductive event : Type :=
  | welcome (response : json)
  | message (response : json)
  | error (msg : text)
  | disconnected (code : Z) (reason : string)
  | reconnecting (attempt max : Z)
  | reconnect_failed
  | reconnected
  | resources_listed (uris : json)
  | resource_retrieved (uri : string) (resource : json).

(** What a [setTimeout] callback of the client does when it fires. *)
Inductive callback : Type :=
  | command_timeout (commandId : string) (ms : Z)
  | reconnect_timer.

Inductive effect : Type :=
  | Emit (e : event)
  | Resolve (commandId : string) (response : json)
  | Reject (commandId : string) (msg : text)
  | SetTimeout (cb : callback) (delay : Z)
  | ClearTimeout (timer : nat)
  | WsSend (frame : payload)
  | WsClose (code : Z) (reason : string).

(** *** [Map] operations on [pendingCommands] (insertion-ordered) *)
Section PendingMap.
Context {V : Type}.

Definition map_get (k : string) (m : list (string * V)) : option V :=
      snd <$> List.find (fun kv => String.eqb k (fst kv)) m.

Definition map_has (k : string) (m : list (string * V)) : bool :=
      bool_decide (is_Some (map_get k m)).

Definition map_delete (k : string) (m : list (string * V)) : list (string * V) :=
      List.filter (fun kv => negb (String.eqb k (fst kv))) m.

Fixpoint map_set (k : string) (v : V) (m : list (string * V)) : list (string * V) :=
      match m with
      | [] => [(k, v)]
      | (k', v') :: r => if String.eqb k k' then (k, v) :: r else (k', v') :: map_set k v r
      end.
End PendingMap.

Definition set_pending (c : client) (p : list (string * pending)) : client :=
    {| server_url := server_url c; timeout := timeout c;
       maxReconnectAttempts := maxReconnectAttempts c;
       reconnectDelay := reconnectDelay c; ws := ws c; connected := connected c;
       reconnectAttempts := reconnectAttempts c;
       intentionalClose := intentionalClose c; pendingCommands := p;
       contextId := contextId c; sequenceId := sequenceId c;
       availableResources := availableResources c |}.

Definition set_connection (c : client) (w : option nat) (conn : bool)
      (attempts : Z) (intentional : bool) : client :=
    {| server_url := server_url c; timeout := timeout c;
       maxReconnectAttempts := maxReconnectAttempts c;
       reconnectDelay := reconnectDelay c; ws := w; connected := conn;
       reconnectAttempts := attempts;
       intentionalClose := intentional; pendingCommands := pendingCommands c;
       contextId := contextId c; sequenceId := sequenceId c;
       availableResources := availableResources c |}.

Definition set_context (c : client) (ctx : option string) (seq : Z) : client :=
    {| server_url := server_url c; timeout := timeout c;
       maxReconnectAttempts := maxReconnectAttempts c;
       reconnectDelay := reconnectDelay c; ws := ws c; connected := connected c;
       reconnectAttempts := reconnectAttempts c;
       intentionalClose := intentionalClose c; pendingCommands := pendingCommands c;
       contextId := ctx; sequenceId := seq;
       availableResources := availableResources c |}.

Definition set_resources (c : client) (r : gmap string json) : client :=
    {| server_url := server_url c; timeout := timeout c;
       maxReconnectAttempts := maxReconnectAttempts c;
       reconnectDelay := reconnectDelay c; ws := ws c; connected := connected c;
       reconnectAttempts := reconnectAttempts c;
       intentionalClose := intentionalClose c; pendingCommands := pendingCommands c;
       contextId := contextId c; sequenceId := sequenceId c;
       availableResources := r |}.

Definition set_url (c : client) (u : url) : client :=
    {| server_url := u; timeout := timeout c;
       maxReconnectAttempts := maxReconnectAttempts c;
       reconnectDelay := reconnectDelay c; ws := ws c; connected := connected c;
       reconnectAttempts := reconnectAttempts c;
       intentionalClose := intentionalClose c; pendingCommands := pendingCommands c;
       contextId := contextId c; sequenceId := sequenceId c;
       availableResources := availableResources c |}.

(** The constructor, with its defaults. *)
Definition new_client (u : url) : client :=
    {| server_url := u; timeout := 30000; maxReconnectAttempts := 3;
       reconnectDelay := 2000; ws := None; connected := false;
       reconnectAttempts := 0; intentionalClose := false;
       pendingCommands := []; contextId := None; sequenceId := 0;
       availableResources := ∅ |}.

(** *** [sendCommand], once the client is connected

      [sendCommand(command, params = {}, options = {})]: [commandId] is the
      uuid drawn for the request, [timer] the handle [setTimeout] returns,
      [now] the clock; [option_timeout] is [options.timeout], which stands
      aside for the client's timeout when it is missing or zero
      ([options.timeout || this.timeout]). *)
Definition sendCommand (c : client) (commandId : string) (timer : nat) (now : Z)
      (cmd : string) (prm : json) (option_timeout : option Z) : client * list effect :=
    let prm := defaulted prm (VObj []) in
    let ms := match option_timeout with
              | Some t => if t =? 0 then timeout c else t
              | None => timeout c
              end in
    let msg : json :=
      VObj [("id", VStr commandId); ("command", VStr cmd); ("params", prm);
            ("context", match contextId c with Some x => VStr x | None => VNull end);
            ("sequence", VNum (sequenceId c))] in
    let c1 := set_context c (contextId c) (sequenceId c + 1) in
    let c2 := set_pending c1
      (map_set commandId
         {| command := cmd; params := prm; timeoutId := timer; sentAt := now |}
         (pendingCommands c1)) in
    (c2, [SetTimeout (command_timeout commandId ms) ms; WsSend (JSON_stringify msg)]).

(** The timeout callback [sendCommand] installs. *)
Definition command_timed_out (c : client) (commandId : string) (ms : Z)
      : client * list effect :=
    if map_has commandId (pendingCommands c) then
      (set_pending c (map_delete commandId (pendingCommands c)),
       [Reject commandId (Str ("Command timed out after " +:+ pretty ms +:+ "ms"))])
    else (c, []).

(** *** [_handleMessage] *)

(** [s.includes(sub)]. *)
Fixpoint includes (s sub : string) : bool :=
    String.prefix sub s
    || match s with
       | EmptyString => false
       | String _ r => includes r sub
       end.

(** [response.message.includes('Welcome')] for a truthy [message]: a
      substring test on a string, a membership test on an array, and a
      TypeError on anything else (JSON holds no functions). *)
Definition message_includes_Welcome (m : json) : result bool :=
    match m with
    | VStr s => Returns (includes s "Welcome")
    | VArr l =>
        Returns (existsb (fun x => match x with
                                   | VStr s => String.eqb s "Welcome"
                                   | _ => false
                                   end) l)
    | _ => Throws "response.message.includes is not a function"
    end.

(** The message of the Error a response carrying [error] is rejected
      with: [new Error(typeof error === 'object' ? error.message ||
      JSON.stringify(error) : error)].  The constructor converts its argument
      to a string, which can throw. *)
Definition error_message (e : json) : result text :=
    if typeof_object e then
      bind (get e "message") (fun m =>
      if truthy m then bind (to_string m) (fun s => Returns (Str s))
      else Returns (JsonText (jsonify e)))
    else bind (to_string e) (fun s => Returns (Str s)).

(** What a block of code has done when it ends: the effects it has had,
      and the client it leaves or the message of the Error it threw. *)
Definition attempt : Type := list effect * result client.

(** A step of a block that has no effect of its own. *)
Definition eval {A} (r : result A) (k : A -> attempt) : attempt :=
    match r with
    | Returns a => k a
    | Throws m => ([], Throws m)
    end.

(** The effects [effs], then the rest of the block. *)
Definition after (effs : list effect) (rest : attempt) : attempt :=
    ((effs ++ fst rest)%list, snd rest).

(** How the promise of a pending command is settled by a response:
      [response.error] decides which way. *)
Definition settlement (commandId : string) (response err : json) : result effect :=
    if truthy err then bind (error_message err) (fun msg => Returns (Reject commandId msg))
    else Returns (Resolve commandId response).

(** Clears the timeout of a pending command, settles its promise and
      deletes its entry.  When building the Error throws, the timeout has
      been cleared and nothing else is done. *)
Definition settle (c : client) (commandId : string) (p : pending) (response err : json)
      : attempt :=
    after [ClearTimeout (timeoutId p)]
      (eval (settlement commandId response err) (fun outcome =>
       ([outcome], Returns (set_pending c (map_delete commandId (pendingCommands c)))))).

(** [this.pendingCommands.has(response.id)]/[get]: the keys are strings. *)
Definition pending_of_id (c : client) (id : json) : option (string * pending) :=
    match id with
    | VStr s => (fun p => (s, p)) <$> map_get s (pendingCommands c)
    | _ => None
    end.

(** The loop over [pendingCommands.entries()]: the first entry, in
      insertion order, whose command name equals [response.command]. *)
Definition pending_of_command (c : client) (name : json) : option (string * pending) :=
    match name with
    | VStr s => List.find (fun kv => String.eqb (command (snd kv)) s) (pendingCommands c)
    | _ => None
    end.

(** The body of the [try]; [uuid] is what [uuidv4()] would return. *)
Definition _handleMessage_try (c : client) (uuid : string) (data : payload) : attempt :=
    eval (JSON_parse data) (fun response =>
    eval (get response "message") (fun msg =>
    eval (if truthy msg then message_includes_Welcome msg else Returns false)
      (fun is_welcome =>
    if is_welcome then
      ([Emit (welcome response)],
       Returns (match contextId c with
                | Some _ => c
                | None => set_context c (Some uuid) (sequenceId c)
                end))
    else
      eval (get response "id") (fun id =>
      eval (get response "error") (fun err =>
      eval (get response "command") (fun name =>
      match (if truthy id then pending_of_id c id else None) with
      | Some (k, p) => settle c k p response err
      | None =>
          match (if truthy name then pending_of_command c name else None) with
          | Some (k, p) => settle c k p response err
          | None => ([Emit (message response)], Returns c)
          end
      end)))))).

(** [_handleMessage(data)]: whatever the body throws is caught and emitted
      as an [error] event, after the effects the body has had. *)
Definition _handleMessage (c : client) (uuid : string) (data : payload)
      : client * list effect :=
    match _handleMessage_try c uuid data with
    | (effs, Returns c') => (c', effs)
    | (effs, Throws m) =>
        (c, (effs ++ [Emit (error (Str ("Failed to parse server message: " +:+ m)))])%list)
    end.

(** *** Connection handling *)

Definition _attemptReconnect (c : client) : client * list effect :=
    if maxReconnectAttempts c <=? reconnectAttempts c then
      (c, [Emit reconnect_failed])
    else
      let n := reconnectAttempts c + 1 in
      let delay := reconnectDelay c * n in
      (set_connection c (ws c) (connected c) n (intentionalClose c),
       [Emit (reconnecting n (maxReconnectAttempts c)); SetTimeout reconnect_timer delay]).

Definition _handleError (c : client) (msg : string) : client * list effect :=
    if intentionalClose c then (c, [Emit (error (Str msg))])
    else
      let '(c', effs) := _attemptReconnect c in
      (c', Emit (error (Str msg)) :: effs).

Definition _handleClose (c : client) (code : Z) (reason : string) : client * list effect :=
    let c1 := set_connection c (ws c) false (reconnectAttempts c) (intentionalClose c) in
    if intentionalClose c1 then
      (set_connection c1 (ws c1) false (reconnectAttempts c1) false,
       [Emit (disconnected code reason)])
    else
      let '(c2, effs) := _attemptReconnect c1 in
      (c2, Emit (disconnected code reason) :: effs).

(** The loop of [disconnect] over [pendingCommands.entries()]: each entry
      has its timeout cleared, its promise rejected, and is deleted. *)
Definition reject_all (m : list (string * pending))
      : list (string * pending) * list effect :=
    fold_left
      (fun acc kv =>
         (map_delete (fst kv) (fst acc),
          (snd acc ++ [ClearTimeout (timeoutId (snd kv));
                       Reject (fst kv) (Str "Connection closed")])%list))
      m (m, []).

(** [disconnect(reason)]; [ready_open] tells whether the socket's
      [readyState] is OPEN. *)
Definition disconnect (c : client) (ready_open : bool) (reason : string)
      : client * list effect :=
    if negb (connected c) || negb (bool_decide (is_Some (ws c))) then (c, [])
    else
      let c1 := set_connection c (ws c) (connected c) (reconnectAttempts c) true in
      let '(m, effs) := reject_all (pendingCommands c1) in
      (set_pending c1 m,
       (effs ++ (if ready_open then [WsClose 1000 reason] else []))%list).

(** Effects that settle a pending request or touch its timer. *)
Definition settles (e : effect) : bool :=
  match e with
  | Resolve _ _ | Reject _ _ | ClearTimeout _ => true
  | _ => false
  end.

End Client.

(** ** Resource cache of the client: [listResources], [getResource]

    Both methods await [sendCommand]; each is split at the [await] into the
    part that runs before it and the part that runs on its outcome. *)
Module Resources.
Import JS Wire Destructuring Client.

(** What an async method does first: it returns at once, or it calls
      [sendCommand(cmd, params)] and waits for its promise. *)
Inductive first_step : Type :=
  | Return (v : json)
  | Await (cmd : string) (prm : json).

Definition is_array (v : json) : bool :=
    match v with VArr _ => true | _ => false end.

(** The loop of [listResources]: a URI not yet in the map gets a null
      placeholder.  The map is keyed by strings; an entry of the listing
      that is not a string can never be asked for by [getResource(uri)] and
      is left out. *)
Definition add_placeholders (uris : list json) (m : gmap string json) : gmap string json :=
    fold_left (fun m u =>
                 match u with
                 | VStr s => match m !! s with Some _ => m | None => <[s := VNull]> m end
                 | _ => m
                 end) uris m.

(** [listResources(options = {})] up to its [await]. *)
Definition listResources (options : json) : first_step :=
    Await "list-resources" (defaulted options (VObj [])).

(** [listResources] once [sendCommand] has settled with [outcome]. *)
Definition listResources_resume (c : client) (outcome : result json)
      : client * list effect * result json :=
    match outcome with
    | Throws m => (c, [], Throws m)
    | Returns response =>
        match get response "success", get response "resources" with
        | Returns success, Returns resources =>
            let '(c', effs) :=
              match resources with
              | VArr uris =>
                  if truthy success then
                    (set_resources c (add_placeholders uris (availableResources c)),
                     [Emit (resources_listed resources)])
                  else (c, [])
              | _ => (c, [])
              end in
            (c', effs, Returns (or_else resources (VArr [])))
        | Throws m, _ | _, Throws m => (c, [], Throws m)
        end
    end.

(** [getResource(uri)] up to its [await]: a cached content that is not the
      null placeholder is returned without asking the server. *)
Definition getResource (c : client) (uri : string) : first_step :=
    match availableResources c !! uri with
    | Some VNull | None => Await "get-resource" (VObj [("uri", VStr uri)])
    | Some content => Return content
    end.

(** [getResource(uri)] once [sendCommand] has settled with [outcome].  It
      throws [new Error(response.error || 'Failed to get resource')], or the
      TypeError of a [response.error] that cannot be converted to a string. *)
Definition getResource_resume (c : client) (uri : string) (outcome : result json)
      : client * list effect * result json :=
    match outcome with
    | Throws m => (c, [], Throws m)
    | Returns response =>
        match get response "success", get response "resource", get response "error" with
        | Returns success, Returns resource, Returns err =>
            if truthy success && truthy resource then
              (set_resources c (<[uri := resource]> (availableResources c)),
               [Emit (resource_retrieved uri resource)], Returns resource)
            else
              (c, [], bind (to_string (or_else err (VStr "Failed to get resource")))
                        (fun text => Throws text))
        | Throws m, _, _ | _, Throws m, _ | _, _, Throws m => (c, [], Throws m)
        end
    end.

(** *** The life of a client

    What can happen to a client, one event after the other. *)
Inductive op : Type :=
| op_sendCommand (commandId : string) (timer : nat) (now : Z) (cmd : string)
    (prm : json) (option_timeout : option Z)
| op_message (uuid : string) (data : payload)
| op_timeout (commandId : string) (ms : Z)
| op_error (msg : string)
| op_close (code : Z) (reason : string)
| op_disconnect (ready_open : bool) (reason : string)
| op_opened (sock : nat)
| op_listResources (outcome : result json)
| op_getResource (uri : string) (outcome : result json).

(** [op_opened]: a socket created by [connect] opens.  [op_listResources]
    and [op_getResource]: a call that went to the server is settled. *)
Definition step (c : client) (o : op) : client :=
  match o with
  | op_sendCommand k timer now cmd prm t => fst (sendCommand c k timer now cmd prm t)
  | op_message uuid data => fst (_handleMessage c uuid data)
  | op_timeout k ms => fst (command_timed_out c k ms)
  | op_error msg => fst (_handleError c msg)
  | op_close code reason => fst (_handleClose c code reason)
  | op_disconnect ready reason => fst (disconnect c ready reason)
  | op_opened sock => set_connection c (Some sock) true 0 (intentionalClose c)
  | op_listResources outcome => fst (fst (listResources_resume c outcome))
  | op_getResource uri outcome => fst (fst (getResource_resume c uri outcome))
  end.

Definition run (c : client) (ops : list op) : client := fold_left step ops c.


End Resources.

(** ** The context manager: [MCPContextManager] *)
Module Context.
Import JS.
Import JSDate.

(** Values held by the manager; its host objects are dates. *)
Abbreviation cvalue := (value Date).
Abbreviation props := (list (string * value Date)).

Record context : Type := {
    id : string;
    created : Date;
    updated : Date;
    data : props;
    history : list props;
    steps : list props
  }.

(** An entry of [contextHistory]. *)
Record tombstone : Type := {
    t_id : string;
    deleted : Date;
    t_data : context
  }.

Record manager : Type := {
    contexts : gmap string context;
    activeContext : option string;
    contextHistory : list tombstone;
    maxHistoryLength : nat
  }.

(** The constructor. *)
Definition new_manager : manager :=
    {| contexts := ∅; activeContext := None; contextHistory := [];
       maxHistoryLength := 10 |}.

(** A context id argument: a string, or [None] when it is left out.
      [falsy] is [!contextId]. *)
Definition falsy (cid : option string) : bool :=
    match cid with
    | None => true
    | Some s => String.eqb s ""
    end.

Definition set_contexts (m : manager) (cs : gmap string context) : manager :=
    {| contexts := cs; activeContext := activeContext m;
       contextHistory := contextHistory m; maxHistoryLength := maxHistoryLength m |}.

Definition set_active (m : manager) (a : option string) : manager :=
    {| contexts := contexts m; activeContext := a;
       contextHistory := contextHistory m; maxHistoryLength := maxHistoryLength m |}.

(** [getContext(contextId)]: the key it resolves to, then the context. *)
Definition resolve (m : manager) (cid : option string) : option string :=
    let cid' := if falsy cid && negb (falsy (activeContext m)) then activeContext m else cid in
    if falsy cid' then None else cid'.

Definition getContext (m : manager) (cid : option string) : option context :=
    k ← resolve m cid; contexts m !! k.

(** [array.push(x)] followed by [if (array.length > max) array.shift()]. *)
Definition push_bounded {A} (max : nat) (l : list A) (x : A) : list A :=
    let l' := (l ++ [x])%list in
    if (max <? length l')%nat then tl l' else l'.

(** The part of [updateContext] that runs on the context found under key
      [k]: the previous data is saved in the history, the data merged or
      replaced. *)
Definition update_found (m : manager) (now : Z) (k : string) (c : context)
      (new_data : cvalue) (merge : bool) : manager :=
    let snapshot : props :=
      [("timestamp", VHost (Some now)); ("data", VObj (spread [] (VObj (data c))))] in
    let c' :=
      {| id := id c; created := created c; updated := Some now;
         data := if merge then spread (spread [] (VObj (data c))) new_data
                 else spread [] new_data;
         history := push_bounded (maxHistoryLength m) (history c) snapshot;
         steps := steps c |} in
    set_contexts m (<[k := c']> (contexts m)).

(** [createContext(contextId, initialData)]; [rand] is the random suffix of
      a generated id.  An id that exists is updated instead. *)
Definition createContext (m : manager) (now : Z) (rand : string)
      (cid : option string) (initialData : cvalue) : manager * string :=
    let k := if falsy cid then "ctx_" +:+ pretty now +:+ "_" +:+ rand
             else default "" cid in
    match contexts m !! k with
    | Some c => (update_found m now k c initialData true, k)
    | None =>
        let c := {| id := k; created := Some now; updated := Some now;
                    data := spread [] initialData; history := []; steps := [] |} in
        (set_active (set_contexts m (<[k := c]> (contexts m))) (Some k), k)
    end.

(** [updateContext(contextId, data, merge)]; it returns its argument, or
      the id of the context it had to create. *)
Definition updateContext (m : manager) (now : Z) (rand : string)
      (cid : option string) (new_data : cvalue) (merge : bool)
      : manager * option string :=
    match resolve m cid with
    | Some k =>
        match contexts m !! k with
        | Some c => (update_found m now k c new_data merge, cid)
        | None => let '(m', k') := createContext m now rand cid new_data in (m', Some k')
        end
    | None => let '(m', k') := createContext m now rand cid new_data in (m', Some k')
    end.

(** A default value, of a parameter or in a destructuring pattern: [d]
      stands in for undefined. *)
Definition or_default (v d : cvalue) : cvalue :=
    match v with VUndefined => d | _ => v end.

(** [addStep(contextId, stepName, stepData = {})]: the step added, or
      null.  Once the step is added, its name is written to the log, which
      converts it to a string and can throw. *)
Definition addStep (m : manager) (now : Z) (cid : option string)
      (stepName stepData : cvalue) : manager * result cvalue :=
    match resolve m cid with
    | Some k =>
        match contexts m !! k with
        | Some c =>
            let step : props :=
              [("name", stepName); ("timestamp", VHost (Some now));
               ("data", or_default stepData (VObj []));
               ("index", VNum (Z.of_nat (length (steps c))))] in
            let c' := {| id := id c; created := created c; updated := Some now;
                         data := data c; history := history c;
                         steps := (steps c ++ [step])%list |} in
            (set_contexts m (<[k := c']> (contexts m)),
             if prints stepName then Returns (VObj step)
             else Throws "Cannot convert object to primitive value")
        | None => (m, Returns VNull)
        end
    | None => (m, Returns VNull)
    end.

(** [deleteContext(contextId)]: the session is moved to the bounded
    [contextHistory]; [true] when there was one. *)
Definition deleteContext (m : manager) (now : Z) (k : string) : manager * bool :=
  match contexts m !! k with
  | None => (m, false)
  | Some c =>
      ({| contexts := delete k (contexts m);
          activeContext := if bool_decide (activeContext m = Some k) then None
                           else activeContext m;
          contextHistory :=
            push_bounded (maxHistoryLength m) (contextHistory m)
              {| t_id := k; deleted := Some now; t_data := c |};
          maxHistoryLength := maxHistoryLength m |}, true)
  end.

(** [setActiveContext(contextId)]. *)
Definition setActiveContext (m : manager) (k : string) : manager * bool :=
  match contexts m !! k with
  | None => (m, false)
  | Some _ => (set_active m (Some k), true)
  end.

(** [x.timestamp.toISOString()]. *)
Definition timestamp_iso (item : props) : result string :=
    match lookup_prop "timestamp" item with
    | Some (VHost d) =>
        match toISOString d with
        | Some s => Returns s
        | None => Throws "Invalid time value"
        end
    | Some VNull =>
        Throws "Cannot read properties of null (reading 'toISOString')"
    | Some VUndefined | None =>
        Throws "Cannot read properties of undefined (reading 'toISOString')"
    | Some _ => Throws "timestamp.toISOString is not a function"
    end.

(** [{ ...item, timestamp: item.timestamp.toISOString() }]. *)
Definition export_item (item : props) : result cvalue :=
    bind (timestamp_iso item) (fun s =>
    Returns (VObj (define_prop (spread [] (VObj item)) "timestamp" (VStr s)))).

Fixpoint mapM {A B} (f : A -> result B) (l : list A) : result (list B) :=
    match l with
    | [] => Returns []
    | x :: r => bind (f x) (fun y => bind (mapM f r) (fun ys => Returns (y :: ys)))
    end.

Definition date_iso (d : Date) : result string :=
    match toISOString d with
    | Some s => Returns s
    | None => Throws "Invalid time value"
    end.

(** [exportContext(contextId)]. *)
Definition exportContext (m : manager) (cid : option string) : result cvalue :=
    match getContext m cid with
    | None => Returns VNull
    | Some c =>
        bind (date_iso (created c)) (fun cr =>
        bind (date_iso (updated c)) (fun up =>
        bind (mapM export_item (steps c)) (fun ss =>
        bind (mapM export_item (history c)) (fun hs =>
        Returns (VObj [("id", VStr (id c)); ("created", VStr cr); ("updated", VStr up);
                       ("data", VObj (data c)); ("steps", VArr ss);
                       ("history", VArr hs)])))))
    end.

(** [new Date(v)].  A string is parsed, a number clipped, a date copied.
      An array or an object is first converted to a string, which throws
      when [prints] turns it down; the text of an object is no date, and
      that of an array is taken not to be one. *)
Definition new_Date (v : cvalue) : result Date :=
    match v with
    | VUndefined => Returns None
    | VNull => Returns (Some 0)
    | VBool b => Returns (Some (if b then 1 else 0))
    | VNum n => Returns (TimeClip n)
    | VStr s => Returns (parse s)
    | VHost (Some t) => Returns (TimeClip t)
    | VHost None => Returns None
    | VArr _ | VObj _ =>
        if prints v then Returns None
        else Throws "Cannot convert object to primitive value"
    end.

(** [{ ...item, timestamp: new Date(item.timestamp) }]. *)
Definition import_item (item : cvalue) : result props :=
    bind (get item "timestamp") (fun ts =>
    bind (new_Date ts) (fun d =>
    Returns (define_prop (spread [] item) "timestamp" (VHost d)))).

(** [xs.map(f)], which fails on what is not an array. *)
Definition array_map {B} (what : string) (f : cvalue -> result B) (xs : cvalue)
      : result (list B) :=
    match xs with
    | VArr l => mapM f l
    | VUndefined | VNull =>
        Throws ("Cannot read properties of " +:+
                (match xs with VNull => "null" | _ => "undefined" end)
                +:+ " (reading 'map')")
    | _ => Throws (what +:+ ".map is not a function")
    end.

Definition set_meta (c : context) (cr up : Date) : context :=
    {| id := id c; created := cr; updated := up; data := data c;
       history := history c; steps := steps c |}.

Definition set_steps (c : context) (s : list props) : context :=
    {| id := id c; created := created c; updated := updated c; data := data c;
       history := history c; steps := s |}.

Definition set_history (c : context) (h : list props) : context :=
    {| id := id c; created := created c; updated := updated c; data := data c;
       history := h; steps := steps c |}.

(** [importContext(serializedContext)]: the manager it leaves, and the id
      it returns (null for an invalid argument) or the Error it throws; what
      it has assigned before it throws stays assigned.  The id of a context
      is a string; a serialized id that is not one is treated as missing. *)
Definition importContext (m : manager) (now : Z) (rand : string) (ser : cvalue)
      : manager * result cvalue :=
    match ser with
    | VObj o =>
        match lookup_prop "id" o with
        | Some (VStr k) =>
            if String.eqb k "" then (m, Returns VNull)
            else
              let field f := default VUndefined (lookup_prop f o) in
              let '(m1, _) :=
                createContext m now rand (Some k) (or_default (field "data") (VObj [])) in
              match contexts m1 !! k with
              | None => (m1, Throws "Cannot set properties of undefined")
              | Some c =>
                  match (if truthy (field "created") then new_Date (field "created")
                         else Returns (created c)) with
                  | Throws e => (m1, Throws e)
                  | Returns cr =>
                  match (if truthy (field "updated") then new_Date (field "updated")
                         else Returns (updated c)) with
                  | Throws e =>
                      (set_contexts m1 (<[k := set_meta c cr (updated c)]> (contexts m1)),
                       Throws e)
                  | Returns up =>
                  let c1 := set_meta c cr up in
                  match array_map "steps" import_item (or_default (field "steps") (VArr [])) with
                  | Throws e => (set_contexts m1 (<[k := c1]> (contexts m1)), Throws e)
                  | Returns ss =>
                      let c2 := set_steps c1 ss in
                      match array_map "history" import_item
                              (or_default (field "history") (VArr [])) with
                      | Throws e => (set_contexts m1 (<[k := c2]> (contexts m1)), Throws e)
                      | Returns hs =>
                          (set_contexts m1 (<[k := set_history c2 hs]> (contexts m1)),
                           Returns (VStr k))
                      end
                  end
                  end
                  end
              end
        | _ => (m, Returns VNull)
        end
    | _ => (m, Returns VNull)
    end.

(** *** Sequences of updates, and what their history should be *)

(** A call [updateContext(id, data, merge)] made at time [u_now]. *)
Record update : Type := { u_now : Z; u_data : cvalue; u_merge : bool }.

Definition apply_update (rand cid : string) (m : manager) (u : update) : manager :=
  fst (updateContext m (u_now u) rand (Some cid) (u_data u) (u_merge u)).

Definition run_updates (rand cid : string) (m : manager) (us : list update) : manager :=
  fold_left (apply_update rand cid) us m.

(** The data of a session after an update. *)
Definition updated_data (d : props) (u : update) : props :=
  if u_merge u then spread (spread [] (VObj d)) (u_data u) else spread [] (u_data u).

(** The snapshots a sequence of updates takes of a session whose data is
    [d]: the data before each update, with the time of the update. *)
Fixpoint snapshots (d : props) (us : list update) : list props :=
  match us with
  | [] => []
  | u :: r =>
      [("timestamp", VHost (Some (u_now u))); ("data", VObj (spread [] (VObj d)))]
        :: snapshots (updated_data d u) r
  end.

(** The last [n] elements of a list. *)
Definition last_n {A} (n : nat) (l : list A) : list A := drop (length l - n) l.

(** *** Sessions as the manager builds them *)

(** A call of the manager's interface. *)
Inductive call : Type :=
| call_createContext (now : Z) (rand : string) (cid : option string) (initialData : cvalue)
| call_updateContext (now : Z) (rand : string) (cid : option string) (new_data : cvalue)
    (merge : bool)
| call_addStep (now : Z) (cid : option string) (stepName stepData : cvalue)
| call_deleteContext (now : Z) (k : string)
| call_setActiveContext (k : string)
| call_importContext (now : Z) (rand : string) (ser : cvalue).

Definition perform (m : manager) (c : call) : manager :=
  match c with
  | call_createContext now rand cid d => fst (createContext m now rand cid d)
  | call_updateContext now rand cid d merge => fst (updateContext m now rand cid d merge)
  | call_addStep now cid n d => fst (addStep m now cid n d)
  | call_deleteContext now k => fst (deleteContext m now k)
  | call_setActiveContext k => fst (setActiveContext m k)
  | call_importContext now rand ser => fst (importContext m now rand ser)
  end.

Definition run_calls (m : manager) (cs : list call) : manager := fold_left perform cs m.

Definition in_range (t : Z) : bool := (- maxTime <=? t) && (t <=? maxTime).

(** The clock shows a time a [Date] can hold. *)
Definition clock_ok (c : call) : bool :=
  match c with
  | call_createContext now _ _ _ | call_updateContext now _ _ _ _
  | call_addStep now _ _ _ | call_deleteContext now _
  | call_importContext now _ _ => in_range now
  | call_setActiveContext _ => true
  end.

Definition is_import (c : call) : bool :=
  match c with call_importContext _ _ _ => true | _ => false end.

(** A [Date] holds NaN or a time value in range. *)
Definition date_ok (d : Date) : bool :=
  match d with
  | Some t => in_range t
  | None => true
  end.

Definition valid_date (d : Date) : bool :=
  match d with
  | Some t => in_range t
  | None => false
  end.

(** A step or history entry: an object with a date as [timestamp]; the
    date is valid in the second. *)
Definition item_with (ok : Date -> bool) (item : props) : bool :=
  wf_props item
  && match lookup_prop "timestamp" item with
     | Some (VHost d) => ok d
     | _ => false
     end.

Definition rep_item : props -> bool := item_with date_ok.
Definition wf_item : props -> bool := item_with valid_date.

(** A session as the manager keeps it: stored under its own id, which is
    not empty, with dates, and with data, steps and history entries that are
    objects. *)
Definition context_with (ok : Date -> bool) (k : string) (c : context) : bool :=
  String.eqb (id c) k && negb (String.eqb k "")
  && ok (created c) && ok (updated c)
  && wf_props (data c) && forallb (item_with ok) (steps c)
  && forallb (item_with ok) (history c).

Definition rep_context : string -> context -> bool := context_with date_ok.

Definition manager_with (ok : Date -> bool) (m : manager) : Prop :=
  forall k c, contexts m !! k = Some c -> context_with ok k c = true.

(** A session all of whose dates are valid: one [exportContext] can write. *)
Definition wf_context : string -> context -> bool := context_with valid_date.

(** No session holds more history entries than [maxHistoryLength]. *)
Definition history_bounded (m : manager) : Prop :=
  forall k c, contexts m !! k = Some c -> (length (history c) <= maxHistoryLength m)%nat.

End Context.

(** ** The client on its event loop: sockets, timers and reconnection

    [connect] creates a socket and registers on it, in this order, a
    one-time [open] listener and a one-time [error] listener, which settle
    the promise [connect] returns, and the lasting listeners
    [_handleMessage], [_handleError] and [_handleClose].  An [error] event
    of a socket therefore runs the one-time listener (if it has not run yet)
    and [_handleError], one after the other.  The environment decides which
    ports accept a connection and how long an attempt takes. *)
Module EventLoop.
Import JS Wire Client.

Record environment : Type := {
    accepts : Z -> bool;       (* a server listens on the port *)
    latency : Z;               (* time for a connection attempt to open or fail *)
    close_follows_error : bool; (* a failed socket emits [close] after [error] *)
    scheme_port : Z            (* the default port of the scheme of the client's
                                  URL: 80 for ws:, 443 for wss: *)
  }.

(** A socket created by [connect] from the reconnection timer. *)
Record socket : Type := {
    once_error_armed : bool;
    once_open_armed : bool;
    promise_pending : bool
  }.

Inductive task : Type :=
  | Fire (cb : callback)
  | SocketFails (sock : nat)
  | SocketOpens (sock : nat)
  | ProbesDone (found : url).

Inductive observation : Type :=
  | Emitted (e : event)
  | Connecting (u : url).

Record world : Type := {
    cl : client;
    clock : Z;
    agenda : list (Z * task);
    sockets : list socket;
    trace : list (Z * observation)
  }.

(** Tasks are run in order of their time, first scheduled first. *)
Fixpoint schedule (at_time : Z) (t : task) (a : list (Z * task)) : list (Z * task) :=
    match a with
    | [] => [(at_time, t)]
    | (t', x) :: r =>
        if at_time <? t' then (at_time, t) :: a else (t', x) :: schedule at_time t r
    end.

(** [setTimeout] takes a delay below 1 ms or above 2^31 - 1 ms for 1 ms. *)
Definition timer_delay (delay : Z) : Z :=
    if (1 <=? delay) && (delay <=? 2147483647) then delay else 1.

(** The effects of a handler, carried out at the current time. *)
Fixpoint perform (w : world) (effs : list effect) : world :=
    match effs with
    | [] => w
    | Emit e :: r =>
        perform {| cl := cl w; clock := clock w; agenda := agenda w;
                   sockets := sockets w;
                   trace := (trace w ++ [(clock w, Emitted e)])%list |} r
    | SetTimeout cb delay :: r =>
        perform {| cl := cl w; clock := clock w;
                   agenda := schedule (clock w + timer_delay delay) (Fire cb) (agenda w);
                   sockets := sockets w; trace := trace w |} r
    | _ :: r => perform w r
    end.

Definition with_client (w : world) (ce : client * list effect) : world :=
    perform {| cl := fst ce; clock := clock w; agenda := agenda w;
               sockets := sockets w; trace := trace w |} (snd ce).

(** [parseInt(new URL(this.url).port, 10)].  A URL object keeps no port
    when the URL names none or names the default port of its scheme; its
    [port] is then the empty string, which [parseInt] reads as NaN
    ([None]). *)
Definition currentPort (e : environment) (u : url) : option Z :=
    if port u =? scheme_port e then None else Some (port u).

(** The ports pushed on [portsToTry]; NaN plus a number is NaN. *)
Definition portsToTry (current : option Z) : list (option Z) :=
    ([Some 8766; Some 8767; Some 8770; Some 8765]
     ++ map (fun i => (fun p => p + i) <$> current) [1; 2; 3; 4; 5])%list.

(** [[...new Set(ports)]]: first occurrences, in order; a [Set] holds NaN
    once. *)
Fixpoint unique (seen l : list (option Z)) : list (option Z) :=
    match l with
    | [] => []
    | x :: r =>
        if bool_decide (x ∈ seen) then unique seen r else x :: unique (x :: seen) r
    end.

(** [port !== currentPort]: NaN differs from every number and from
    itself. *)
Definition differs (p current : option Z) : bool :=
    match p, current with
    | Some a, Some b => negb (a =? b)
    | _, _ => true
    end.

Definition uniquePorts (current : option Z) : list (option Z) :=
    List.filter (fun p => differs p current) (unique [] (portsToTry current)).

(** [testUrl.port = port.toString()] on a copy of the URL: the setter
    leaves the URL as it is when the text is not a number (NaN) or the
    number is above 65535. *)
Definition with_port (u : url) (p : option Z) : url :=
    match p with
    | Some n => if (0 <=? n) && (n <=? 65535) then {| host := host u; port := n |} else u
    | None => u
    end.

(** One probe of [_tryAlternativePorts]: a test socket is opened and given
    1000 ms to open; the probe takes as long as the attempt does, or 1000 ms
    when it times out. *)
Definition probe_time (e : environment) : Z := Z.min (latency e) 1000.

Definition probe_succeeds (e : environment) (p : Z) : bool :=
  accepts e p && (latency e <? 1000).

(** [_tryAlternativePorts]: the ports are probed one after the other; the
    URL of the first that accepts is returned, else the current URL.  The
    second component is the number of probes made. *)
Fixpoint probe (e : environment) (u : url) (ports : list (option Z)) (n : Z) : url * Z :=
    match ports with
    | [] => (u, n)
    | p :: r =>
        let testUrl := with_port u p in
        if probe_succeeds e (port testUrl) then (testUrl, n + 1)
        else probe e u r (n + 1)
    end.

Definition _tryAlternativePorts (e : environment) (c : client) : url * Z :=
    probe e (server_url c) (uniquePorts (currentPort e (server_url c))) 0.

(** [connect()] called from the reconnection timer, with
      [.then(() => this.emit('reconnected')).catch(() => this._attemptReconnect())]
      on the promise it returns. *)
Definition connect (e : environment) (w : world) : world :=
    let c := cl w in
    if connected c && bool_decide (is_Some (ws c)) then
      perform w [Emit reconnected]
    else
      let n := length (sockets w) in
      let c' := set_connection c (Some n) (connected c) (reconnectAttempts c)
                  (intentionalClose c) in
      {| cl := c'; clock := clock w;
         agenda := schedule (clock w + latency e)
                     (if accepts e (port (server_url c)) then SocketOpens n else SocketFails n)
                     (agenda w);
         sockets := (sockets w ++ [{| once_error_armed := true; once_open_armed := true;
                                      promise_pending := true |}])%list;
         trace := (trace w ++ [(clock w, Connecting (server_url c))])%list |}.

Definition update_socket (w : world) (n : nat) (s : socket) : world :=
    {| cl := cl w; clock := clock w; agenda := agenda w;
       sockets := <[n := s]> (sockets w); trace := trace w |}.

(** The callback [_attemptReconnect] passes to [setTimeout]. *)
Definition reconnect_timer_fired (e : environment) (w : world) : world :=
    let c := cl w in
    if connected c then w
    else if 1 <? reconnectAttempts c then
      let '(found, probes) := _tryAlternativePorts e c in
      {| cl := c; clock := clock w;
         agenda := schedule (clock w + probes * probe_time e) (ProbesDone found) (agenda w);
         sockets := sockets w; trace := trace w |}
    else connect e w.

(** The socket [n] emits [error] (and then [close]); afterwards the
      rejection of the promise of [connect] reaches its [catch]. *)
Definition socket_fails (e : environment) (w : world) (n : nat) : world :=
    match sockets w !! n with
    | None => w
    | Some s =>
        let rejected := once_error_armed s && promise_pending s in
        let w1 := update_socket w n
                    {| once_error_armed := false; once_open_armed := once_open_armed s;
                       promise_pending := promise_pending s && negb (once_error_armed s) |} in
        let w2 := with_client w1 (_handleError (cl w1) "connect ECONNREFUSED") in
        let w3 := if close_follows_error e
                  then with_client w2 (_handleClose (cl w2) 1006 "") else w2 in
        if rejected then with_client w3 (_attemptReconnect (cl w3)) else w3
    end.

(** The socket [n] emits [open]. *)
Definition socket_opens (w : world) (n : nat) : world :=
    match sockets w !! n with
    | None => w
    | Some s =>
        if once_open_armed s then
          let w1 := update_socket w n
                      {| once_error_armed := once_error_armed s; once_open_armed := false;
                         promise_pending := false |} in
          let c := cl w1 in
          let w2 := with_client w1
                      (set_connection c (ws c) true 0 (intentionalClose c), []) in
          if promise_pending s then perform w2 [Emit reconnected] else w2
        else w
    end.

Definition run_task (e : environment) (w : world) (t : task) : world :=
    match t with
    | Fire reconnect_timer => reconnect_timer_fired e w
    | Fire (command_timeout k ms) => with_client w (command_timed_out (cl w) k ms)
    | SocketFails n => socket_fails e w n
    | SocketOpens n => socket_opens w n
    | ProbesDone found =>
        let c := cl w in
        let c' := if bool_decide (found = server_url c) then c else set_url c found in
        connect e {| cl := c'; clock := clock w; agenda := agenda w;
                     sockets := sockets w; trace := trace w |}
    end.

(** Runs the loop until no task is left (or the fuel is spent). *)
Fixpoint run (e : environment) (fuel : nat) (w : world) : world :=
    match fuel with
    | O => w
    | S fuel' =>
        match agenda w with
        | [] => w
        | (t, x) :: rest =>
            run e fuel' (run_task e {| cl := cl w; clock := t; agenda := rest;
                                       sockets := sockets w; trace := trace w |} x)
        end
    end.

(** A connected client whose connection is closed by the other side at
      time 0. *)
Definition connection_lost (c : client) : world :=
    with_client {| cl := c; clock := 0; agenda := []; sockets := []; trace := [] |}
      (_handleClose c 1006 "").

End EventLoop.

(** ** Scenarios

    Concrete servers, clients and sessions the properties below are tried
    on. *)
Module Scenarios.
Import JS Wire.

Section ServerSide.
Import Server.

(** The echo command of the end-to-end scenario, and a tool that stamps its
    own result, as [list-tools] does. *)
Definition echo_server : server :=
  registerTool
    (registerTool {| tools := ∅; resources := ∅ |} "echo"
       (fun prm _ => bind (get prm "value") (fun v => Returns (VObj [("value", v)])))
       (VObj []))
    "list-tools"
    (fun _ _ => Returns (VObj [("success", VBool true); ("tools", VArr []);
                               ("timestamp", VStr "2025-05-21T00:00:00.000Z")]))
    (VObj [("description", VStr "List available tools"); ("parameters", VObj [])]).

End ServerSide.

Section ClientSide.
Import Client EventLoop Resources.

(** A connected client with two requests for the same command outstanding. *)
Definition connected_client : client :=
  set_connection (new_client {| host := "localhost"; port := 8765 |}) (Some 0%nat) true 0 false.

Definition busy_client : client :=
  fst (sendCommand
         (fst (sendCommand connected_client "req-1" 1%nat 1000 "generate-tasks" (VObj []) None))
         "req-2" 2%nat 2000 "generate-tasks" (VObj []) None).

(** No server accepts a connection; a refused attempt fails after 10 ms. *)
Definition nobody_listens (close_too : bool) : environment :=
  {| accepts := fun _ => false; latency := 10; close_follows_error := close_too;
     scheme_port := 80 |}.

(** A client that has fetched one resource, and what happens to it next: a
    listing that names the resource again, a request, an unrelated push and
    a lost connection. *)
Definition readme_response : json :=
  VObj [("id", VStr "req-1"); ("success", VBool true); ("resource", VStr "# Tascade AI");
        ("timestamp", VStr "2025-05-21T00:00:00.123Z")].

Definition later_events : list op :=
  [op_listResources
     (Returns (VObj [("success", VBool true);
                     ("resources", VArr [VStr "docs://readme"; VStr "docs://api"])]));
   op_sendCommand "req-2" 2%nat 5000 "list-tools" (VObj []) None;
   op_message "ctx" (Text (VObj [("notice", VStr "resource changed")]));
   op_close 1006 ""].

End ClientSide.

Section Sessions.
Import Context.

(** A session with two updates and two steps. *)
Definition sample_calls : list call :=
  [call_createContext 1747785600000 "r4nd0m1" (Some "s1") (VObj [("goal", VStr "ship")]);
   call_updateContext 1747785601000 "r4nd0m1" (Some "s1") (VObj [("stage", VNum 2)]) true;
   call_addStep 1747785602000 (Some "s1") (VStr "plan") (VObj [("tasks", VNum 3)]);
   call_addStep 1747785603000 (Some "s1") (VStr "build") (VObj []);
   call_updateContext 1747785604000 "r4nd0m1" (Some "s1") (VObj [("done", VBool true)]) false].

Definition sample_manager : manager := run_calls new_manager sample_calls.

(** Fifteen updates, the [i]-th setting [n] to [i]. *)
Definition numbered_update (i : Z) : update :=
  {| u_now := 1000 + i; u_data := VObj [("n", VNum i)]; u_merge := true |}.

Definition fifteen_updates : list update :=
  map numbered_update (seqZ 0 15).

(** A serialized session with eleven history entries. *)
Definition long_history : cvalue :=
  VObj [("id", VStr "s1"); ("data", VObj [("n", VNum 0)]);
        ("history",
         VArr (map (fun i => VObj [("timestamp", VStr (JSDate.iso_of_time i));
                                   ("data", VObj [("n", VNum (i - 11))])])
                   (seqZ 0 11)))].

End Sessions.

End Scenarios.

(** ** The context manager: its queries *)
Module ContextQueries.
Import JS JSDate Context.

(** [getSteps(contextId)]. *)
Definition getSteps (m : manager) (cid : option string) : list props :=
  match getContext m cid with
  | Some c => steps c
  | None => []
  end.

(** [getLastStep(contextId)]: [steps[steps.length - 1]], or null. *)
Definition getLastStep (m : manager) (cid : option string) : cvalue :=
  match last (getSteps m cid) with
  | Some s => VObj s
  | None => VNull
  end.

(** [getActiveContext()]. *)
Definition getActiveContext (m : manager) : option context :=
  if falsy (activeContext m) then None else getContext m (activeContext m).

(** No session is kept under the empty id, and the active pointer names a
    session the manager holds. *)
Definition live (m : manager) : Prop :=
  (forall k c, contexts m !! k = Some c -> k <> "")
  /\ (forall k, activeContext m = Some k -> is_Some (contexts m !! k)).

(** The steps of a session are numbered from 0 in the order they have. *)
Definition steps_indexed (c : context) : Prop :=
  forall i s, steps c !! i = Some s ->
    lookup_prop "index" s = Some (VNum (Z.of_nat i)).

(** What a call other than an import does to the steps of a session: it
    leaves them, or appends one step numbered with their count; a session
    that is new has none. *)
Definition steps_change (before : option context) (c' : context) : Prop :=
  match before with
  | Some c =>
      id c' = id c /\ created c' = created c
      /\ (steps c' = steps c
          \/ exists s, steps c' = (steps c ++ [s])%list
                       /\ lookup_prop "index" s = Some (VNum (Z.of_nat (length (steps c)))))
  | None => steps c' = []
  end.

(** A serialized context [importContext] turns down: null, or anything
    without a truthy [id]. *)
Definition no_id (ser : cvalue) : bool :=
  match ser with
  | VObj o => negb (truthy (default VUndefined (lookup_prop "id" o)))
  | _ => true
  end.

(** A session with three steps, then deleted and created again. *)
Definition step_calls : list call :=
  [call_createContext 1747785600000 "r4nd0m1" None (VObj [("goal", VStr "ship")]);
   call_addStep 1747785601000 None (VStr "plan") (VObj []);
   call_addStep 1747785602000 None (VStr "build") (VObj [("tasks", VNum 3)]);
   call_updateContext 1747785603000 "r4nd0m1" None (VObj [("stage", VNum 2)]) true;
   call_addStep 1747785604000 None (VStr "check") VNull].

(** A session updated fifteen times, with a step added half way. *)
Definition update_calls : list call :=
  (call_createContext 999 "r4nd0m1" (Some "s1") (VObj [])
   :: map (fun i => call_updateContext (1000 + i) "r4nd0m1" (Some "s1")
                      (VObj [("n", VNum i)]) true) (seqZ 0 8)
   ++ call_addStep 1008 (Some "s1") (VStr "half") (VObj [])
   :: map (fun i => call_updateContext (1009 + i) "r4nd0m1" None
                      (VObj [("n", VNum i)]) false) (seqZ 8 7))%list.

End ContextQueries.

(** ** The client: its constructor and the methods built on [sendCommand] *)
Module ClientMethods.
Import JS Wire Client Destructuring.

(** The options of the constructor that are numbers or the URL. *)
Record options : Type := {
    opt_url : option url;
    opt_timeout : option Z;
    opt_maxReconnectAttempts : option Z;
    opt_reconnectDelay : option Z
  }.

(** [n || d] for an optional number. *)
Definition or_number (n : option Z) (d : Z) : Z :=
  match n with
  | Some x => if x =? 0 then d else x
  | None => d
  end.

(** [new MCPClient(options)]. *)
Definition constructor (o : options) : client :=
  {| server_url := default {| host := "localhost"; port := 8765 |} (opt_url o);
     timeout := or_number (opt_timeout o) 30000;
     maxReconnectAttempts := or_number (opt_maxReconnectAttempts o) 3;
     reconnectDelay := or_number (opt_reconnectDelay o) 2000;
     ws := None; connected := false; reconnectAttempts := 0; intentionalClose := false;
     pendingCommands := []; contextId := None; sequenceId := 0;
     availableResources := ∅ |}.

(** *** [generateTasks] *)

(** What a method that returns a promise of [sendCommand] does: it returns
    a rejected promise, or it sends a command. *)
Inductive started : Type :=
  | Rejected (msg : string)
  | Sent (cmd : string) (prm : json).

(** [generateTasks(options)].  It throws when there are no options to
    destructure. *)
Definition generateTasks (opts : json) : result started :=
  bind (destructure "options" opts "inputFile") (fun inputFile =>
  bind (destructure "options" opts "outputFile") (fun outputFile =>
  bind (destructure "options" opts "numTasks") (fun numTasks =>
  bind (destructure "options" opts "provider") (fun provider =>
  bind (destructure "options" opts "priority") (fun priority =>
  bind (destructure "options" opts "force") (fun force =>
  if negb (truthy inputFile) then Returns (Rejected "Input file is required")
  else if negb (truthy outputFile) then Returns (Rejected "Output file is required")
  else
    Returns (Sent "generate-tasks"
               (VObj [("input_file", inputFile); ("output_file", outputFile);
                      ("num_tasks", defaulted numTasks (VNum 5));
                      ("provider", defaulted provider (VStr "perplexity"));
                      ("priority", defaulted priority (VStr "medium"));
                      ("force", defaulted force (VBool false))])))))))).

(** *** [batchCommands]

    [send i command params] is how the [i]-th [sendCommand] of the batch
    settles: with the response, or with the message of the Error it is
    rejected with. *)
Section Batch.
Variable send : nat -> json -> json -> result json.

(** The [try] block of the loop: the command is written to the log, which
    converts it to a string, and then sent. *)
Definition attempt_command (i : nat) (command params : json) : result json :=
  bind (to_string command) (fun _ => send i command params).

(** The loop, from index [i] on; [sent] are the commands sent so far and
    [results] the results pushed so far. *)
Fixpoint batch_loop (stop : bool) (i : nat) (commands : list json)
    (sent : list (json * json)) (results : list json)
    : list (json * json) * result (list json) :=
  match commands with
  | [] => (sent, Returns results)
  | entry :: rest =>
      match destructure "commands[i]" entry "command",
            destructure "commands[i]" entry "params" with
      | Returns command, Returns params =>
          let params := defaulted params (VObj []) in
          let sent := match to_string command with
                      | Returns _ => (sent ++ [(command, params)])%list
                      | Throws _ => sent
                      end in
          match attempt_command i command params with
          | Returns result => batch_loop stop (S i) rest sent (results ++ [result])%list
          | Throws m =>
              let results := (results ++ [VObj [("error", VStr m)]])%list in
              if stop then (sent, Returns results)
              else batch_loop stop (S i) rest sent results
          end
      | Throws m, _ | _, Throws m => (sent, Throws m)
      end
  end.

(** [const { stopOnError = true } = options], with [options = {}]: the
    property is read off the options, which throws when they are null. *)
Definition stopOnError (opts : json) : result bool :=
  bind (get (defaulted opts (VObj [])) "stopOnError") (fun s =>
  Returns (truthy (defaulted s (VBool true)))).

(** [batchCommands(commands, options = {})] on an array of commands: the
    commands it has sent, and the results it resolves with or the message
    of the Error it throws. *)
Definition batchCommands (commands : list json) (opts : json)
    : list (json * json) * result (list json) :=
  match stopOnError opts with
  | Throws m => ([], Throws m)
  | Returns stop => batch_loop stop 0 commands [] []
  end.

(** The [sendCommand(command, params)] call made for an entry that is an
    object, and the result pushed for it. *)
Definition call_of (entry : list (string * json)) : json * json :=
  (default VUndefined (lookup_prop "command" entry),
   defaulted (default VUndefined (lookup_prop "params" entry)) (VObj [])).

Definition result_of (i : nat) (entry : list (string * json)) : json :=
  match attempt_command i (fst (call_of entry)) (snd (call_of entry)) with
  | Returns r => r
  | Throws m => VObj [("error", VStr m)]
  end.

(** An entry whose command can be written to the log. *)
Definition is_logged (entry : list (string * json)) : bool :=
  match to_string (fst (call_of entry)) with
  | Returns _ => true
  | Throws _ => false
  end.

End Batch.

(** *** [discoverTools] *)

(** SameValueZero on what [JSON.parse] returns: primitives by value, while
    two arrays or objects of a parsed text are never the same object. *)
Definition same_key (a b : json) : bool :=
  match a, b with
  | VUndefined, VUndefined | VNull, VNull => true
  | VBool x, VBool y => Bool.eqb x y
  | VNum x, VNum y => x =? y
  | VStr x, VStr y => String.eqb x y
  | _, _ => false
  end.

(** [availableTools.set(k, v)]. *)
Fixpoint tools_set (k v : json) (m : list (json * json)) : list (json * json) :=
  match m with
  | [] => [(k, v)]
  | (k', v') :: r => if same_key k k' then (k', v) :: r else (k', v') :: tools_set k v r
  end.

Definition tools_get (k : json) (m : list (json * json)) : option json :=
  snd <$> List.find (fun kv => same_key k (fst kv)) m.

Record discovery : Type := {
    availableTools : list (json * json);
    toolsDiscovered : bool
  }.

(** The loop of [discoverTools] over [response.tools]: it stops at the
    first element that has no properties to read. *)
Fixpoint add_tools (tools : list json) (m : list (json * json))
    : list (json * json) * option string :=
  match tools with
  | [] => (m, None)
  | tool :: rest =>
      match get tool "name", get tool "description", get tool "parameters" with
      | Returns n, Returns d, Returns p =>
          add_tools rest
            (tools_set n (VObj [("name", n); ("description", d); ("parameters", p)]) m)
      | Throws e, _, _ | _, Throws e, _ | _, _, Throws e => (m, Some e)
      end
  end.

(** [discoverTools()] once its [sendCommand('list-tools')] has settled:
    the tools it leaves, the values it emits with [tools_discovered], and
    the map it resolves with or the message of the Error it throws. *)
Definition discoverTools_resume (d : discovery) (outcome : result json)
    : discovery * option (list json) * result (list (json * json)) :=
  match outcome with
  | Throws m => (d, None, Throws m)
  | Returns response =>
      match get response "success", get response "tools" with
      | Returns success, Returns (VArr tools) =>
          if truthy success then
            match add_tools tools [] with
            | (m, None) =>
                ({| availableTools := m; toolsDiscovered := true |},
                 Some (map snd m), Returns m)
            | (m, Some e) =>
                ({| availableTools := m; toolsDiscovered := toolsDiscovered d |},
                 None, Throws e)
            end
          else (d, None, Returns (availableTools d))
      | Returns _, Returns _ => (d, None, Returns (availableTools d))
      | Throws m, _ | _, Throws m => (d, None, Throws m)
      end
  end.

End ClientMethods.

(** ** The server's registry: default tools, resources and connections

    [this.tools] and [this.resources] are [Map]s, enumerated in insertion
    order by [list-tools] and [list-resources]; they are kept here as the
    lists of their entries.  The handlers of the default tools are closures
    over the server: they read its maps when they run. *)
Module Registry.
Import JS Wire Server Destructuring.

(** A handler: one of the four default tools, or a function the caller
    registered. *)
Inductive behaviour : Type :=
  | generate_tasks
  | list_tools
  | list_resources
  | get_resource
  | custom (h : json -> nat -> result json).

Record entry : Type := { e_handler : behaviour; e_schema : json }.

Record mcp : Type := {
    options_name : string;
    options_version : string;
    tool_map : list (string * entry);
    resource_map : list (string * json);
    clients : list nat
  }.

(** What [runCommand] resolves with: the exit code (null when the process
    was killed by a signal) and what it wrote. *)
Record outcome : Type := { code : option Z; stdout : string; stderr : string }.

(** The process and file system [generate-tasks] works with: the path of
    the CLI script, [runCommand('node', args, ...)] and
    [JSON.parse(fs.readFileSync(output_file, 'utf-8'))]. *)
Record host : Type := {
    script : string;
    runCommand : list json -> result outcome;
    readTasks : json -> result json
  }.

(** [registerTool(name, handler, schema = {})]. *)
Definition registerTool (st : mcp) (n : string) (b : behaviour) (sch : json) : mcp :=
  {| options_name := options_name st; options_version := options_version st;
     tool_map := Client.map_set n
                   {| e_handler := b;
                      e_schema := match sch with VUndefined => VObj [] | _ => sch end |}
                   (tool_map st);
     resource_map := resource_map st; clients := clients st |}.

(** [addResource(uri, content)]. *)
Definition addResource (st : mcp) (uri : string) (content : json) : mcp :=
  {| options_name := options_name st; options_version := options_version st;
     tool_map := tool_map st;
     resource_map := Client.map_set uri content (resource_map st);
     clients := clients st |}.

Definition parameter (type description : string) : json :=
  VObj [("type", VStr type); ("description", VStr description)].

(** [registerDefaultTools()]. *)
Definition registerDefaultTools (st : mcp) : mcp :=
  let st1 := registerTool st "generate-tasks" generate_tasks
    (VObj [("description", VStr "Generate tasks from a PRD file");
           ("parameters",
            VObj [("input_file", parameter "string" "Path to the PRD file");
                  ("output_file", parameter "string" "Path to save the generated tasks");
                  ("num_tasks", parameter "number" "Number of tasks to generate");
                  ("provider", parameter "string" "AI provider to use");
                  ("priority", parameter "string" "Default priority for tasks");
                  ("force", parameter "boolean" "Force overwrite of existing output file")])]) in
  let st2 := registerTool st1 "list-tools" list_tools
    (VObj [("description", VStr "List available tools"); ("parameters", VObj [])]) in
  let st3 := registerTool st2 "list-resources" list_resources
    (VObj [("description", VStr "List available resources"); ("parameters", VObj [])]) in
  registerTool st3 "get-resource" get_resource
    (VObj [("description", VStr "Get a resource");
           ("parameters", VObj [("uri", parameter "string" "Resource URI")])]).

(** [a || b] on option strings ([undefined] or a string). *)
Definition or_string (a : option string) (b : string) : string :=
  match a with
  | Some s => if String.eqb s "" then b else s
  | None => b
  end.

(** The constructor; [package_version] is the version [package.json]
    gives. *)
Definition new_mcp (name version package_version : option string) : mcp :=
  registerDefaultTools
    {| options_name := or_string name "Tascade AI MCP Server";
       options_version := or_string version (or_string package_version "1.0.0");
       tool_map := []; resource_map := []; clients := [] |}.

(** *** The default tools *)

(** [v.toString()] for a truthy [v]: an object parsed from JSON may have a
    [toString] property of its own, which is not a function. *)
Definition toString (what : string) (v : json) : result string :=
  match v with
  | VObj o =>
      if has_prop "toString" o then Throws (what +:+ ".toString is not a function")
      else Returns "[object Object]"
  | _ => to_string v
  end.

Definition error_object (fields : list (string * json)) (now : Z) : json :=
  VObj (fields ++ [("command", VStr "generate-tasks"); ("timestamp", timestamp now)])%list.

(** The arguments [generate-tasks] runs [node] with. *)
Definition command_line (h : host)
    (input_file output_file num_tasks provider priority force : json)
    : result (list json) :=
  bind (if truthy num_tasks
        then bind (toString "num_tasks" num_tasks) (fun s =>
             Returns [VStr "--num-tasks"; VStr s])
        else Returns []) (fun num_args =>
  Returns ([VStr (script h); VStr "generate"; VStr "--input"; input_file;
            VStr "--output"; output_file]
           ++ num_args
           ++ (if truthy provider then [VStr "--provider"; provider] else [])
           ++ (if truthy priority then [VStr "--priority"; priority] else [])
           ++ (if truthy force then [VStr "--force"] else []))%list).

(** What [generate-tasks] returns once [runCommand] has settled. *)
Definition after_run (h : host) (now : Z) (output_file : json) (ran : result outcome)
    : json :=
  match ran with
  | Throws m => error_object [("error", VStr ("Failed to run command: " +:+ m))] now
  | Returns r =>
      if bool_decide (code r = Some 0) then
        match bind (readTasks h output_file) (fun tasks =>
              bind (get tasks "tasks") (fun ts =>
              bind (get tasks "metadata") (fun md =>
              Returns (VObj [("success", VBool true); ("command", VStr "generate-tasks");
                             ("tasks", ts); ("metadata", or_else md (VObj []));
                             ("message", VStr "Tasks generated successfully");
                             ("timestamp", timestamp now)])))) with
        | Returns answer => answer
        | Throws m =>
            error_object [("error", VStr ("Failed to read generated tasks: " +:+ m))] now
        end
      else
        VObj [("error",
               VStr ("Command failed with code "
                     +:+ match code r with Some n => pretty n | None => "null" end
                     +:+ ": " +:+ stderr r));
              ("stdout", VStr (stdout r)); ("stderr", VStr (stderr r))]
  end.

(** The handler of [generate-tasks].  Before it runs the command it writes
    [cmd.join(' ')] to the log, which converts every argument to a string. *)
Definition generate_tasks_handler (h : host) (now : Z) (params : json) : result json :=
  bind (destructure "params" params "input_file") (fun input_file =>
  bind (destructure "params" params "output_file") (fun output_file =>
  bind (destructure "params" params "num_tasks") (fun num_tasks =>
  bind (destructure "params" params "provider") (fun provider =>
  bind (destructure "params" params "priority") (fun priority =>
  bind (destructure "params" params "force") (fun force =>
  if negb (truthy input_file) then
    Returns (VObj [("error", VStr "Missing required parameter: input_file")])
  else if negb (truthy output_file) then
    Returns (VObj [("error", VStr "Missing required parameter: output_file")])
  else
    bind (command_line h input_file output_file
            (defaulted num_tasks (VNum 5)) (defaulted provider (VStr "perplexity"))
            (defaulted priority (VStr "medium")) (defaulted force (VBool false)))
      (fun cmd =>
    bind (join to_string " " cmd) (fun _ =>
    Returns (after_run h now output_file (runCommand h cmd)))))))))).

(** One element of the listing of [list-tools]. *)
Definition describe (n : string) (sch : json) : result json :=
  bind (get sch "description") (fun d =>
  bind (get sch "parameters") (fun p =>
  Returns (VObj [("name", VStr n); ("description", or_else d (VStr ""));
                 ("parameters", or_else p (VObj []))]))).

(** What [describe] returns for a schema that has properties to read. *)
Definition listing_of (n : string) (sch : json) : json :=
  let property k := match get sch k with Returns x => x | Throws _ => VUndefined end in
  VObj [("name", VStr n); ("description", or_else (property "description") (VStr ""));
        ("parameters", or_else (property "parameters") (VObj []))].

Definition list_tools_handler (st : mcp) (now : Z) : result json :=
  bind (Context.mapM (fun kv => describe (fst kv) (e_schema (snd kv))) (tool_map st))
    (fun tools =>
  Returns (VObj [("success", VBool true); ("tools", VArr tools);
                 ("timestamp", timestamp now)])).

Definition list_resources_handler (st : mcp) (now : Z) : result json :=
  Returns (VObj [("success", VBool true);
                 ("resources", VArr (map (fun kv => VStr (fst kv)) (resource_map st)));
                 ("timestamp", timestamp now)]).

(** [this.resources.has(uri)]/[get(uri)]: the keys are strings. *)
Definition find_resource (st : mcp) (uri : json) : option json :=
  match uri with
  | VStr u => Client.map_get u (resource_map st)
  | _ => None
  end.

Definition get_resource_handler (st : mcp) (now : Z) (params : json) : result json :=
  bind (destructure "params" params "uri") (fun uri =>
  if negb (truthy uri) then
    Returns (VObj [("error", VStr "Missing required parameter: uri")])
  else
    match find_resource st uri with
    | None =>
        bind (to_string uri) (fun text =>
        Returns (VObj [("error", VStr ("Resource not found: " +:+ text))]))
    | Some content =>
        Returns (VObj [("success", VBool true); ("resource", content);
                       ("timestamp", timestamp now)])
    end).

(** What a registered handler does when it is called at time [now_h]. *)
Definition run_handler (h : host) (st : mcp) (now_h : Z) (b : behaviour)
    : json -> nat -> result json :=
  match b with
  | generate_tasks => fun params _ => generate_tasks_handler h now_h params
  | list_tools => fun _ _ => list_tools_handler st now_h
  | list_resources => fun _ _ => list_resources_handler st now_h
  | get_resource => fun params _ => get_resource_handler st now_h params
  | custom f => f
  end.

(** The server as [handleMessage] sees it when a message arrives. *)
Definition serve (h : host) (st : mcp) (now_h : Z) : server :=
  {| tools :=
       list_to_map
         (map (fun kv => (fst kv, {| name := fst kv;
                                     handler := run_handler h st now_h (e_handler (snd kv));
                                     schema := e_schema (snd kv) |}))
              (tool_map st));
     resources := list_to_map (resource_map st) |}.

(** [handleMessage(client, message)] on the server [st]: the handler runs
    at [now_h], the answer is sent at [now]. *)
Definition dispatch (h : host) (st : mcp) (now_h now : Z) (client : nat)
    (message : payload) : list effect :=
  handleMessage (serve h st now_h) now client message.

(** *** Connections *)

Definition welcome_message (st : mcp) (now : Z) : json :=
  VObj [("message", VStr ("Welcome to " +:+ options_name st +:+ " v" +:+ options_version st));
        ("timestamp", timestamp now)].

(** [handleConnection(ws, request)]: the socket joins [this.clients] (a
    [Set]) and is sent the welcome message. *)
Definition handleConnection (st : mcp) (now : Z) (ws : nat) : mcp * list effect :=
  ({| options_name := options_name st; options_version := options_version st;
      tool_map := tool_map st; resource_map := resource_map st;
      clients := if bool_decide (ws ∈ clients st) then clients st
                 else (clients st ++ [ws])%list |},
   [Send ws (JSON_stringify (welcome_message st now))]).

(** The [close] and [error] listeners [handleConnection] installs. *)
Definition connection_closed (st : mcp) (ws : nat) : mcp :=
  {| options_name := options_name st; options_version := options_version st;
     tool_map := tool_map st; resource_map := resource_map st;
     clients := List.filter (fun w => negb (bool_decide (w = ws))) (clients st) |}.

(** A host on which nothing can be run. *)
Definition no_host : host :=
  {| script := "/opt/tascade/bin/tascade-ai.js";
     runCommand := fun _ => Throws "spawn node ENOENT";
     readTasks := fun _ => Throws "ENOENT: no such file or directory" |}.

(** The server of the package, with one resource. *)
Definition docs_server : mcp :=
  addResource (new_mcp None None (Some "0.3.1")) "docs://readme" (VStr "# Tascade AI").

End Registry.

(** * Properties *)

(** ** Dates: the ISO text of a time value reads back as that time value *)
Module JSDateFacts.
Import JSDate.

Lemma digit_val_digit (n : Z) : 0 <= n <= 9 -> digit_val (digit n) = Some n.
Proof.
  intros Hn. rewrite <- (Z2Nat.id n) by lia.
  assert (Z.to_nat n < 10)%nat as Hlt by lia.
  revert Hlt. generalize (Z.to_nat n). intros d Hd.
  do 10 (destruct d as [|d]; [reflexivity|]). lia.
Qed.

Lemma digit_val_range (c : ascii) (d : Z) : digit_val c = Some d -> 0 <= d <= 9.
Proof.
  unfold digit_val. destruct (_ && _) eqn:Hc; [|done].
  intros [= <-]. apply andb_true_iff in Hc as [? ?]. lia.
Qed.

Lemma digit_val_inj (c1 c2 : ascii) (d : Z) :
  digit_val c1 = Some d -> digit_val c2 = Some d -> c1 = c2.
Proof.
  unfold digit_val. destruct (_ && _); [|done]. destruct (_ && _); [|done].
  intros [= H1] [= H2].
  rewrite <- (ascii_N_embedding c1), <- (ascii_N_embedding c2). f_equal. lia.
Qed.

(** What [read_digits] returns: the digits read, after those of [acc]. *)
Lemma read_digits_value (w : nat) (acc n : Z) (s r : string) :
  read_digits w acc s = Some (n, r) ->
  exists v, n = acc * 10 ^ Z.of_nat w + v /\ 0 <= v < 10 ^ Z.of_nat w.
Proof.
  revert acc s. induction w as [|w IH]; intros acc s.
  - simpl. intros [= <- _]. exists 0. lia.
  - cbn [read_digits]. destruct s as [|c s]; [done|].
    destruct (digit_val c) as [d|] eqn:Hd; [|done].
    intros Hr. destruct (IH _ _ Hr) as (v & -> & Hv).
    apply digit_val_range in Hd.
    rewrite Nat2Z.inj_succ, Z.pow_succ_r by lia.
    exists (d * 10 ^ Z.of_nat w + v). split; [ring|]. nia.
Qed.

(** Two texts of the same width that read as the same number are equal. *)
Lemma read_digits_inj (w : nat) (acc n : Z) (s1 s2 r1 r2 : string) :
  read_digits w acc s1 = Some (n, r1) -> read_digits w acc s2 = Some (n, r2) ->
  String.length s1 = w -> String.length s2 = w -> s1 = s2.
Proof.
  revert acc s1 s2. induction w as [|w IH]; intros acc s1 s2.
  - intros _ _. by destruct s1, s2.
  - cbn [read_digits]. destruct s1 as [|c1 s1]; [done|]. destruct s2 as [|c2 s2]; [done|].
    destruct (digit_val c1) as [d1|] eqn:Hd1; [|done].
    destruct (digit_val c2) as [d2|] eqn:Hd2; [|done].
    intros H1 H2 [= Hl1] [= Hl2].
    destruct (read_digits_value _ _ _ _ _ H1) as (v1 & Hn1 & Hv1).
    destruct (read_digits_value _ _ _ _ _ H2) as (v2 & Hn2 & Hv2).
    assert (d1 = d2) as <-.
    { assert (10 * acc + d1 = 10 * acc + d2); [|lia].
      rewrite (Z.div_unique n (10 ^ Z.of_nat w) (10 * acc + d1) v1) by lia.
      rewrite (Z.div_unique n (10 ^ Z.of_nat w) (10 * acc + d2) v2) at 1 by lia. done. }
    f_equal; [by apply (digit_val_inj _ _ d1) | by apply (IH (10 * acc + d1))].
Qed.

Lemma read_digits_pad (w : nat) (n acc : Z) (s : string) :
  read_digits w acc (pad w n +:+ s) = Some (acc * 10 ^ Z.of_nat w + n mod 10 ^ Z.of_nat w, s).
Proof.
  revert acc. induction w as [|w IH]; intros acc.
  - simpl. rewrite Z.mod_1_r. do 2 f_equal. lia.
  - change (pad (S w) n +:+ s) with (String (digit (n / 10 ^ Z.of_nat w mod 10)) (pad w n +:+ s)).
    cbn [read_digits].
    rewrite digit_val_digit
      by (pose proof (Z.mod_pos_bound (n / 10 ^ Z.of_nat w) 10); lia).
    rewrite IH. do 2 f_equal.
    rewrite Nat2Z.inj_succ, Z.pow_succ_r by lia.
    assert (0 < 10 ^ Z.of_nat w) as Hpos by (apply Z.pow_pos_nonneg; lia).
    rewrite (Z.mul_comm 10 (10 ^ Z.of_nat w)), Z.rem_mul_r by lia. ring.
Qed.

Lemma read_digits_pad_small (w : nat) (n : Z) (s : string) :
  0 <= n < 10 ^ Z.of_nat w ->
  read_digits w 0 (pad w n +:+ s) = Some (n, s).
Proof. intros Hn. rewrite read_digits_pad, Z.mod_small by done. do 2 f_equal. Qed.

Lemma read_year_digit (k : Z) (r : string) :
  0 <= k <= 9 -> read_year (String (digit k) r) = read_digits 4 0 (String (digit k) r).
Proof.
  intros Hk. rewrite <- (Z2Nat.id k) by lia.
  assert (Z.to_nat k < 10)%nat as Hlt by lia.
  revert Hlt. generalize (Z.to_nat k). intros d Hd.
  do 10 (destruct d as [|d]; [reflexivity|]). lia.
Qed.

(** The calendar date of a day number, and MakeDay back. *)
Lemma civil_of_days_spec (days y m d : Z) :
  civil_of_days days = (y, m, d) ->
  1 <= m <= 12 /\ 1 <= d <= 31 /\ days_of_civil y m d = days.
Proof.
  unfold civil_of_days, civil_of_doe, days_of_civil, doe_of_civil.
  set (z := days + 719468).
  set (doe := z mod 146097).
  set (yoe := (doe - doe / 1460 + doe / 36524 - doe / 146096) / 365).
  set (doy := doe - (365 * yoe + yoe / 4 - yoe / 100)).
  set (mp := (5 * doy + 2) / 153).
  intros [= <- <- <-].
  assert (0 <= doe < 146097) as Hdoe by (apply Z.mod_pos_bound; lia).
  assert (0 <= yoe <= 399) as Hyoe by (subst yoe; Z.div_mod_to_equations; lia).
  assert (0 <= doy <= 365) as Hdoy by (subst doy yoe; Z.div_mod_to_equations; lia).
  assert (0 <= mp <= 11) as Hmp by (subst mp; Z.div_mod_to_equations; lia).
  assert (1 <= doy - (153 * mp + 2) / 5 + 1 <= 31) as Hd
    by (subst mp; Z.div_mod_to_equations; lia).
  assert (z = 146097 * (z / 146097) + doe) as Hz by (apply Z.div_mod; lia).
  destruct (Z.ltb_spec mp 10) as [Hlt|Hge].
  - assert ((mp + 3 <=? 2) = false) as -> by lia.
    assert ((2 <? mp + 3) = true) as -> by lia.
    split; [lia|]. split; [lia|].
    replace (mp + 3 - 3) with mp by lia.
    replace ((yoe + z / 146097 * 400 + 0) / 400) with (z / 146097)
      by (Z.div_mod_to_equations; lia).
    replace ((yoe + z / 146097 * 400 + 0) mod 400) with yoe
      by (Z.div_mod_to_equations; lia).
    subst doy. lia.
  - assert ((mp - 9 <=? 2) = true) as -> by lia.
    assert ((2 <? mp - 9) = false) as -> by lia.
    split; [lia|]. split; [lia|].
    replace (mp - 9 + 9) with mp by lia.
    replace ((yoe + z / 146097 * 400 + 1 - 1) / 400) with (z / 146097)
      by (Z.div_mod_to_equations; lia).
    replace ((yoe + z / 146097 * 400 + 1 - 1) mod 400) with yoe
      by (Z.div_mod_to_equations; lia).
    subst doy. lia.
Qed.

Lemma civil_of_days_year (days y m d : Z) :
  - 100000000 <= days <= 100000000 ->
  civil_of_days days = (y, m, d) -> - 999999 <= y <= 999999.
Proof.
  unfold civil_of_days, civil_of_doe.
  set (z := days + 719468).
  set (doe := z mod 146097).
  set (yoe := (doe - doe / 1460 + doe / 36524 - doe / 146096) / 365).
  intros Hdays [= <- _ _].
  assert (0 <= doe < 146097) as Hdoe by (apply Z.mod_pos_bound; lia).
  assert (0 <= yoe <= 399) as Hyoe by (subst yoe; Z.div_mod_to_equations; lia).
  assert (- 700 <= z / 146097 <= 700) by (subst z; Z.div_mod_to_equations; lia).
  destruct (_ <=? 2); lia.
Qed.

Lemma append_cons (c : ascii) (r s : string) : String c r +:+ s = String c (r +:+ s).
Proof. reflexivity. Qed.

Lemma append_nil (s : string) : "" +:+ s = s.
Proof. reflexivity. Qed.

Lemma expect_cons (c : ascii) (r : string) : expect c (String c r) = Some r.
Proof. unfold expect. by rewrite Ascii.eqb_refl. Qed.

(** Reading back a text laid out as [toISOString] lays it out. *)
Lemma parse_layout (Y : string) (y m d h mi sec ms : Z) :
  (forall s, read_year (Y +:+ s) = Some (y, s)) ->
  0 <= m < 100 -> 0 <= d < 100 -> 0 <= h < 100 -> 0 <= mi < 100 ->
  0 <= sec < 100 -> 0 <= ms < 1000 ->
  parse (Y +:+ "-" +:+ pad 2 m +:+ "-" +:+ pad 2 d +:+ "T"
           +:+ pad 2 h +:+ ":" +:+ pad 2 mi +:+ ":"
           +:+ pad 2 sec +:+ "." +:+ pad 3 ms +:+ "Z") =
  if negb ((1 <=? m) && (m <=? 12) && (1 <=? d) && (d <=? 31)
           && (mi <=? 59) && (sec <=? 59)
           && ((h <=? 23) || ((h =? 24) && (mi + sec + ms =? 0)))) then None
  else TimeClip (days_of_civil y m d * msPerDay
                 + h * 3600000 + mi * 60000 + sec * 1000 + ms).
Proof.
  intros HY Hm Hd Hh Hmi Hsec Hms. unfold parse.
  rewrite HY. cbn [mbind option_bind].
  rewrite !append_cons, !append_nil, expect_cons. cbn [mbind option_bind].
  rewrite read_digits_pad_small by (simpl; lia). cbn [mbind option_bind].
  rewrite expect_cons. cbn [mbind option_bind].
  rewrite read_digits_pad_small by (simpl; lia). cbn [mbind option_bind].
  rewrite expect_cons. cbn [mbind option_bind].
  rewrite read_digits_pad_small by (simpl; lia). cbn [mbind option_bind].
  rewrite expect_cons. cbn [mbind option_bind].
  rewrite read_digits_pad_small by (simpl; lia). cbn [mbind option_bind].
  rewrite expect_cons. cbn [mbind option_bind].
  rewrite read_digits_pad_small by (simpl; lia). cbn [mbind option_bind].
  rewrite expect_cons. cbn [mbind option_bind].
  rewrite read_digits_pad_small by (simpl; lia). cbn [mbind option_bind].
  rewrite expect_cons. cbn [mbind option_bind].
  done.
Qed.

Lemma read_year_pad4 (y : Z) (s : string) :
  0 <= y <= 9999 -> read_year (pad 4 y +:+ s) = Some (y, s).
Proof.
  intros Hy.
  change (pad 4 y +:+ s) with (String (digit (y / 10 ^ 3 mod 10)) (pad 3 y +:+ s)).
  rewrite read_year_digit by (pose proof (Z.mod_pos_bound (y / 10 ^ 3) 10); lia).
  change (String (digit (y / 10 ^ 3 mod 10)) (pad 3 y +:+ s)) with (pad 4 y +:+ s).
  apply read_digits_pad_small. simpl. lia.
Qed.

(** [new Date(d.toISOString())] is [d] again, for every valid date. *)
Lemma parse_iso_of_time (t : Z) :
  - maxTime <= t <= maxTime -> parse (iso_of_time t) = Some t.
Proof.
  intros Ht. unfold iso_of_time, maxTime in *.
  destruct (civil_of_days (t / msPerDay)) as [[y m] d] eqn:E.
  assert (- 100000000 <= t / msPerDay <= 100000000) as Hdays
    by (unfold msPerDay; Z.div_mod_to_equations; lia).
  pose proof (civil_of_days_year _ _ _ _ Hdays E) as Hy.
  apply civil_of_days_spec in E as (Hm & Hd & Hback).
  set (r := t mod msPerDay).
  assert (0 <= r < 86400000) as Hr by (apply Z.mod_pos_bound; done).
  assert (t = msPerDay * (t / msPerDay) + r) as Hsplit by (apply Z.div_mod; done).
  set (Y := if (0 <=? y) && (y <=? 9999) then pad 4 y
            else if y <? 0 then "-" +:+ pad 6 (- y) else "+" +:+ pad 6 y).
  rewrite (parse_layout Y y).
  - rewrite Hback.
    assert ((1 <=? m) && (m <=? 12) && (1 <=? d) && (d <=? 31)
            && (r / 60000 mod 60 <=? 59) && (r / 1000 mod 60 <=? 59)
            && ((r / 3600000 <=? 23)
                || ((r / 3600000 =? 24)
                    && (r / 60000 mod 60 + r / 1000 mod 60 + r mod 1000 =? 0))) = true)
      as ->.
    { assert ((r / 3600000 <=? 23) = true) as -> by (Z.div_mod_to_equations; lia).
      rewrite orb_true_l, !andb_true_iff.
      repeat split; try lia; Z.div_mod_to_equations; lia. }
    cbn [negb].
    replace (t / msPerDay * msPerDay + r / 3600000 * 3600000
             + r / 60000 mod 60 * 60000 + r / 1000 mod 60 * 1000 + r mod 1000)
      with t by (unfold msPerDay in *; Z.div_mod_to_equations; lia).
    unfold TimeClip, maxTime.
    rewrite !(proj2 (Z.leb_le _ _)) by lia. done.
  - intros s. subst Y.
    destruct (Z.leb_spec 0 y), (Z.leb_spec y 9999); cbn [andb].
    + by apply read_year_pad4.
    + assert ((y <? 0) = false) as -> by lia.
      rewrite !append_cons, append_nil. cbn [read_year].
      apply read_digits_pad_small. simpl. lia.
    + assert ((y <? 0) = true) as -> by lia.
      rewrite !append_cons, append_nil. cbn [read_year].
      rewrite read_digits_pad_small by (simpl; lia).
      assert ((- y =? 0) = false) as -> by lia. do 2 f_equal. lia.
    + lia.
  - lia.
  - lia.
  - Z.div_mod_to_equations; lia.
  - pose proof (Z.mod_pos_bound (r / 60000) 60). lia.
  - pose proof (Z.mod_pos_bound (r / 1000) 60). lia.
  - pose proof (Z.mod_pos_bound r 1000). lia.
Qed.

End JSDateFacts.

(** ** Objects: enumeration order and spread *)
Module JSFacts.
Import JS JSDate JSDateFacts.

(** A key that is an array index other than ["0"] starts with a digit
    from 1 to 9 and reads as its number. *)
Lemma array_index_Some (k : string) (n : Z) :
  array_index k = Some n ->
  (k = "0" /\ n = 0)
  \/ (10 ^ (Z.of_nat (String.length k) - 1) <= n < 10 ^ Z.of_nat (String.length k)
      /\ String.length k <> 0%nat
      /\ exists r, read_digits (String.length k) 0 k = Some (n, r)).
Proof.
  unfold array_index. destruct k as [|c k]; [done|].
  destruct (Ascii.eqb_spec c "0") as [->|Hc].
  - destruct (String.eqb_spec k "") as [->|]; [|done]. intros [= <-]. by left.
  - destruct (read_digits _ 0 _) as [[n' r]|] eqn:Hr; [|done].
    destruct (n' <? 2 ^ 32 - 1); [|done]. intros [= ->]. right.
    split; [|split; [done | by exists r]].
    cbn [String.length read_digits] in *.
    destruct (digit_val c) as [d|] eqn:Hd; [|done].
    destruct (read_digits_value _ _ _ _ _ Hr) as (v & -> & Hv).
    assert (d <> 0) as Hd0.
    { intros ->. apply Hc. by apply (digit_val_inj _ _ 0). }
    apply digit_val_range in Hd.
    rewrite Nat2Z.inj_succ, Z.pow_succ_r by lia.
    replace (Z.succ (Z.of_nat (String.length k)) - 1) with (Z.of_nat (String.length k)) by lia.
    nia.
Qed.

Lemma array_index_inj (k1 k2 : string) (n : Z) :
  array_index k1 = Some n -> array_index k2 = Some n -> k1 = k2.
Proof.
  intros H1 H2.
  apply array_index_Some in H1 as [[-> ->] | (Hn1 & Hl1 & r1 & Hr1)];
    apply array_index_Some in H2 as [[-> Hn] | (Hn2 & Hl2 & r2 & Hr2)]; try done.
  - assert (0 < 10 ^ (Z.of_nat (String.length k2) - 1)) by (apply Z.pow_pos_nonneg; lia). lia.
  - subst n. assert (0 < 10 ^ (Z.of_nat (String.length k1) - 1))
      by (apply Z.pow_pos_nonneg; lia). lia.
  - assert (String.length k1 = String.length k2) as Hlen.
    { destruct (Nat.lt_trichotomy (String.length k1) (String.length k2)) as [Hlt|[?|Hlt]];
        [|done|].
      - assert (10 ^ Z.of_nat (String.length k1) <= 10 ^ (Z.of_nat (String.length k2) - 1))
          by (apply Z.pow_le_mono_r; lia). lia.
      - assert (10 ^ Z.of_nat (String.length k2) <= 10 ^ (Z.of_nat (String.length k1) - 1))
          by (apply Z.pow_le_mono_r; lia). lia. }
    rewrite Hlen in Hr1. by apply (read_digits_inj _ _ _ _ _ _ _ Hr1 Hr2).
Qed.

Section Objects.
Context {H : Type}.
Implicit Types (o acc : list (string * value H)) (k : string) (v : value H).

Lemma eqb_false_iff k k' : String.eqb k k' = false <-> k <> k'.
Proof. apply String.eqb_neq. Qed.

Lemma ordered_keys_app (l1 l2 : list string) :
  ordered_keys (l1 ++ l2) = true <->
  ordered_keys l1 = true /\ ordered_keys l2 = true /\
  (forall a b, In a l1 -> In b l2 -> a <> b /\ key_beforeb a b = true).
Proof.
  induction l1 as [|x l1 IH]; simpl.
  - split; [intros Hl; repeat split; [done | contradiction | contradiction] | tauto].
  - rewrite !andb_true_iff, forallb_app, andb_true_iff, IH, !forallb_forall.
    split.
    + intros [[Hx1 Hx2] (Ho1 & Ho2 & Hc)].
      split; [done|]. split; [done|].
      intros a b [<- | Ha] Hb; [|by apply Hc].
      specialize (Hx2 b Hb). apply andb_true_iff in Hx2 as [Hne ?].
      apply negb_true_iff, eqb_false_iff in Hne. done.
    + intros ([Hx1 Ho1] & Ho2 & Hc).
      split; [split; [done|]|].
      * intros b Hb. destruct (Hc x b) as [Hne Hb']; [by left | done |].
        apply andb_true_iff. split; [|done].
        by apply negb_true_iff, eqb_false_iff.
      * split; [done|]. split; [done|].
        intros a b Ha Hb. apply Hc; [by right | done].
Qed.

Lemma ordered_keys_NoDup (l : list string) : ordered_keys l = true -> List.NoDup l.
Proof.
  induction l as [|x l IH]; simpl; [constructor|].
  rewrite andb_true_iff, forallb_forall. intros [Hx Hl]. constructor; [|by apply IH].
  intros Hin. specialize (Hx x Hin). apply andb_true_iff in Hx as [Hne _].
  apply negb_true_iff, eqb_false_iff in Hne. done.
Qed.

(** A key that comes later in enumeration order is looked for further on. *)
Lemma define_prop_skip k' v' o k v :
  k' <> k -> key_beforeb k' k = true ->
  define_prop ((k', v') :: o) k v = (k', v') :: define_prop o k v.
Proof.
  intros Hne Hb. simpl.
  assert (String.eqb k k' = false) as -> by (apply eqb_false_iff; congruence).
  unfold key_beforeb in Hb.
  destruct (array_index k) as [n|], (array_index k') as [n'|]; try done.
  assert ((n <? n') = false) as -> by lia. done.
Qed.

Lemma define_prop_snoc acc k v :
  ordered_keys (keys (acc ++ [(k, v)])) = true ->
  define_prop acc k v = (acc ++ [(k, v)])%list.
Proof.
  induction acc as [|[k' v'] acc IH]; [done|].
  intros Hwf. unfold keys in Hwf. rewrite map_app in Hwf. simpl in Hwf.
  change (ordered_keys ([k'] ++ (map fst acc ++ [k])) = true) in Hwf.
  apply ordered_keys_app in Hwf as (_ & Hrest & Hc).
  destruct (Hc k' k) as [Hne Hb]; [by left | apply in_or_app; right; by left |].
  rewrite define_prop_skip by done. simpl. f_equal. apply IH.
  unfold keys. by rewrite map_app.
Qed.

(** Redefining an existing key changes its value in place. *)
Lemma define_prop_replace o1 o2 k v0 v :
  wf_props (o1 ++ (k, v0) :: o2) = true ->
  define_prop (o1 ++ (k, v0) :: o2) k v = (o1 ++ (k, v) :: o2)%list.
Proof.
  induction o1 as [|[k' v'] o1 IH]; intros Hwf.
  - simpl. by rewrite String.eqb_refl.
  - unfold wf_props, keys in Hwf. simpl in Hwf.
    change (ordered_keys ([k'] ++ map fst (o1 ++ (k, v0) :: o2)) = true) in Hwf.
    apply ordered_keys_app in Hwf as (_ & Hrest & Hc).
    destruct (Hc k' k) as [Hne Hb]; [by left | |].
    { rewrite map_app. apply in_or_app. right. by left. }
    change (((k', v') :: o1) ++ (k, v0) :: o2)%list
      with ((k', v') :: (o1 ++ (k, v0) :: o2))%list.
    rewrite define_prop_skip by done. simpl. f_equal. by apply IH.
Qed.

Lemma define_prop_same o k v :
  wf_props o = true -> In (k, v) o -> define_prop o k v = o.
Proof.
  intros Hwf Hin. apply in_split in Hin as (o1 & o2 & ->).
  by apply define_prop_replace.
Qed.

Lemma fold_define_app acc o :
  wf_props (acc ++ o) = true ->
  fold_left (fun a kv => define_prop a (fst kv) (snd kv)) o acc = (acc ++ o)%list.
Proof.
  revert acc. induction o as [|[k v] o IH]; intros acc Hwf; simpl.
  - by rewrite app_nil_r.
  - assert (wf_props ((acc ++ [(k, v)]) ++ o) = true) as Hwf'.
    { by rewrite <- app_assoc. }
    rewrite define_prop_snoc.
    + rewrite IH by done. by rewrite <- app_assoc.
    + unfold wf_props, keys in Hwf'. rewrite map_app in Hwf'.
      by apply ordered_keys_app in Hwf' as (? & _).
Qed.

(** [{ ...o }] is a copy of [o]. *)
Lemma spread_copy o : wf_props o = true -> spread [] (VObj o) = o.
Proof. intros Hwf. unfold spread. simpl. by rewrite fold_define_app. Qed.

(** [{ ...o, ...o }] is [o] again. *)
Lemma spread_self o : wf_props o = true -> spread o (VObj o) = o.
Proof.
  intros Hwf. unfold spread. simpl.
  assert (forall l, (forall x, In x l -> In x o) ->
            fold_left (fun a kv => define_prop a (fst kv) (snd kv)) l o = o) as Hl.
  { induction l as [|[k v] l IH]; intros Hin; simpl; [done|].
    rewrite define_prop_same; [|done|apply Hin; by left].
    apply IH. intros x Hx. apply Hin. by right. }
  by apply Hl.
Qed.

Lemma lookup_prop_cons k k' v o :
  lookup_prop k ((k', v) :: o) = if String.eqb k k' then Some v else lookup_prop k o.
Proof. unfold lookup_prop. simpl. by destruct (String.eqb k k'). Qed.

Lemma lookup_define_prop o k v k' :
  lookup_prop k' (define_prop o k v) = if String.eqb k' k then Some v else lookup_prop k' o.
Proof.
  induction o as [|[k0 v0] o IH]; simpl.
  - rewrite lookup_prop_cons. by destruct (String.eqb k' k).
  - destruct (String.eqb k k0) eqn:Hk0.
    + apply String.eqb_eq in Hk0 as <-. rewrite !lookup_prop_cons.
      by destruct (String.eqb k' k).
    + destruct (array_index k) as [n|], (array_index k0) as [n0|];
        try destruct (n <? n0);
        rewrite ?lookup_prop_cons, ?IH; try done;
        destruct (String.eqb k' k) eqn:Hk; try done;
        apply String.eqb_eq in Hk as ->; by rewrite Hk0.
Qed.

Lemma lookup_prop_None k o : lookup_prop k o = None <-> ~ In k (keys o).
Proof.
  induction o as [|[k0 v0] o IH]; simpl.
  - unfold lookup_prop. simpl. tauto.
  - rewrite lookup_prop_cons. destruct (String.eqb k k0) eqn:Hk.
    + apply String.eqb_eq in Hk as ->. split; [done | tauto].
    + apply eqb_false_iff in Hk. rewrite IH. split; [intros ? [?|?]; [congruence|done] | tauto].
Qed.

(** A property spread over a target keeps its value. *)
Lemma lookup_spread target o k :
  wf_props o = true ->
  lookup_prop k (spread target (VObj o)) =
    match lookup_prop k o with
    | Some v => Some v
    | None => lookup_prop k target
    end.
Proof.
  unfold spread. simpl. revert target.
  induction o as [|[k0 v0] o IH]; intros target Hwf; simpl; [done|].
  assert (wf_props o = true /\ ~ In k0 (keys o)) as [Hwf' Hnin].
  { unfold wf_props in *. simpl in Hwf. apply andb_true_iff in Hwf as [Hx Ho].
    split; [done|]. intros Hin. rewrite forallb_forall in Hx.
    specialize (Hx _ Hin). apply andb_true_iff in Hx as [Hx _].
    by rewrite String.eqb_refl in Hx. }
  rewrite IH by done. rewrite lookup_prop_cons, lookup_define_prop.
  destruct (String.eqb k k0) eqn:Hk; [|done].
  apply String.eqb_eq in Hk as ->.
  by apply lookup_prop_None in Hnin as ->.
Qed.

Lemma key_beforeb_named a k : array_index k = None -> key_beforeb a k = true.
Proof. intros Hk. unfold key_beforeb. rewrite Hk. by destruct (array_index a). Qed.

Lemma keys_named_props o k : In k (keys (named_props o)) -> array_index k = None.
Proof.
  unfold keys, named_props. rewrite in_map_iff. intros ([k' v] & <- & Hin).
  apply filter_In in Hin as [_ Hk]. simpl in *. unfold is_index in Hk.
  by destruct (array_index k').
Qed.

Lemma keys_index_props o k : In k (keys (index_props o)) -> is_Some (array_index k).
Proof.
  unfold keys, index_props. rewrite in_map_iff. intros ([k' v] & <- & Hin).
  apply filter_In in Hin as [_ Hk]. simpl in *. unfold is_index in Hk.
  by destruct (array_index k').
Qed.

Lemma props_all_named o :
  (forall k, In k (keys o) -> is_index k = false) ->
  index_props o = [] /\ named_props o = o.
Proof.
  unfold index_props, named_props.
  induction o as [|[k v] o IH]; intros Hall; [done|]. simpl.
  rewrite (Hall k) by (by left). simpl.
  destruct IH as [-> ->]; [|done].
  intros k' Hk'. apply Hall. by right.
Qed.

(** The array-index keys of an object come first. *)
Lemma wf_split o : wf_props o = true -> o = (index_props o ++ named_props o)%list.
Proof.
  unfold wf_props.
  induction o as [|[k v] o IH]; [done|]. simpl.
  rewrite andb_true_iff, forallb_forall. intros [Hk Ho].
  unfold index_props, named_props. simpl.
  destruct (is_index k) eqn:Hik; simpl.
  - f_equal. by apply IH.
  - destruct (props_all_named o) as [Hi Hn].
    { intros k' Hk'. specialize (Hk k' Hk'). apply andb_true_iff in Hk as [_ Hb].
      unfold key_beforeb, is_index in *.
      by destruct (array_index k), (array_index k'). }
    unfold index_props, named_props in Hi, Hn. by rewrite Hi, Hn.
Qed.

(** A new key that is not an array index may be put anywhere after the
    array-index keys. *)
Lemma ordered_insert_named (l1 l2 : list string) k :
  ordered_keys (l1 ++ l2) = true -> array_index k = None ->
  ~ In k l1 -> ~ In k l2 -> (forall b, In b l2 -> array_index b = None) ->
  ordered_keys (l1 ++ k :: l2) = true.
Proof.
  intros Hwf Hk Hn1 Hn2 Hl2.
  apply ordered_keys_app in Hwf as (Ho1 & Ho2 & Hc).
  apply ordered_keys_app. split; [done|]. split.
  - change (k :: l2) with ([k] ++ l2)%list. apply ordered_keys_app.
    split; [done|]. split; [done|].
    intros a b [<-|[]] Hb. split; [by intros ->|].
    apply key_beforeb_named. by apply Hl2.
  - intros a b Ha [<-|Hb]; [|by apply Hc].
    split; [by intros ->|]. by apply key_beforeb_named.
Qed.

(** Defining a new array-index key on an object that ends with a key that is
    not one. *)
Lemma define_prop_before_named acc k0 v0 k v :
  is_Some (array_index k) -> array_index k0 = None ->
  ordered_keys (keys (acc ++ [(k, v)])) = true ->
  define_prop (acc ++ [(k0, v0)]) k v = (acc ++ [(k, v); (k0, v0)])%list.
Proof.
  intros [n Hn] Hk0.
  induction acc as [|[k' v'] acc IH]; intros Hwf.
  - simpl. rewrite Hn, Hk0.
    assert (String.eqb k k0 = false) as ->; [|done].
    apply eqb_false_iff. intros ->. congruence.
  - unfold keys in Hwf. rewrite map_app in Hwf. simpl in Hwf.
    change (ordered_keys ([k'] ++ (map fst acc ++ [k])) = true) in Hwf.
    apply ordered_keys_app in Hwf as (_ & Hrest & Hc).
    destruct (Hc k' k) as [Hne Hb]; [by left | apply in_or_app; right; by left |].
    change (((k', v') :: acc) ++ [(k0, v0)])%list with ((k', v') :: (acc ++ [(k0, v0)]))%list.
    rewrite define_prop_skip by done. simpl. f_equal. apply IH.
    unfold keys. by rewrite map_app.
Qed.

Lemma fold_define_before_named idx acc k0 v0 :
  (forall k, In k (keys idx) -> is_Some (array_index k)) -> array_index k0 = None ->
  wf_props (acc ++ idx) = true ->
  fold_left (fun a kv => define_prop a (fst kv) (snd kv)) idx (acc ++ [(k0, v0)])%list
  = (acc ++ idx ++ [(k0, v0)])%list.
Proof.
  intros Hidx Hk0. revert acc.
  induction idx as [|[k v] idx IH]; intros acc Hwf; [done|]. simpl.
  assert (wf_props ((acc ++ [(k, v)]) ++ idx) = true) as Hwf' by (by rewrite <- app_assoc).
  rewrite define_prop_before_named; [| apply Hidx; by left | done |].
  - change (acc ++ [(k, v); (k0, v0)])%list with (acc ++ [(k, v)] ++ [(k0, v0)])%list.
    rewrite app_assoc, IH; [by rewrite <- app_assoc | | done].
    intros k' Hk'. apply Hidx. by right.
  - unfold wf_props, keys in Hwf'. rewrite map_app in Hwf'.
    by apply ordered_keys_app in Hwf' as (? & _).
Qed.

Lemma keys_define_prop o k v x :
  In x (keys (define_prop o k v)) -> x = k \/ In x (keys o).
Proof.
  unfold keys. induction o as [|[k0 v0] o IH]; cbn [define_prop].
  - intros [<-|[]]. by left.
  - destruct (String.eqb_spec k k0) as [->|Hne]; [simpl; intuition|].
    destruct (array_index k) as [n|], (array_index k0) as [n0|];
      try destruct (n <? n0); simpl in *; intuition.
Qed.

Lemma define_prop_has_key o k v : In k (keys (define_prop o k v)).
Proof.
  unfold keys. induction o as [|[k0 v0] o IH]; cbn [define_prop]; [by left|].
  destruct (String.eqb k k0); [by left|].
  destruct (array_index k) as [n|], (array_index k0) as [n0|];
    try destruct (n <? n0); simpl in *; intuition.
Qed.

Lemma ordered_keys_cons k (ks : list string) :
  ordered_keys (k :: ks) = true <->
  (forall x, In x ks -> k <> x /\ key_beforeb k x = true) /\ ordered_keys ks = true.
Proof.
  simpl. rewrite andb_true_iff, forallb_forall. split.
  - intros [Hk Hks]. split; [|done]. intros x Hx. specialize (Hk x Hx).
    apply andb_true_iff in Hk as [Hne ?]. split; [|done].
    by apply eqb_false_iff, negb_true_iff.
  - intros [Hk Hks]. split; [|done]. intros x Hx. destruct (Hk x Hx) as [Hne ?].
    apply andb_true_iff. split; [|done]. by apply negb_true_iff, eqb_false_iff.
Qed.

(** Defining a property keeps the keys of an object in enumeration order. *)
Lemma define_prop_wf o k v : wf_props o = true -> wf_props (define_prop o k v) = true.
Proof.
  unfold wf_props. induction o as [|[k0 v0] o IH]; [done|].
  intros Hwf. change (keys ((k0, v0) :: o)) with (k0 :: keys o) in Hwf.
  apply ordered_keys_cons in Hwf as [Hk0 Ho]. cbn [define_prop].
  destruct (String.eqb_spec k k0) as [->|Hne].
  { change (keys ((k0, v) :: o)) with (k0 :: keys o). by apply ordered_keys_cons. }
  assert (ordered_keys (k0 :: keys (define_prop o k v)) = true
          <-> key_beforeb k0 k = true) as Hskip.
  { rewrite ordered_keys_cons. split.
    - intros [Hall _]. by apply Hall, define_prop_has_key.
    - intros Hb. split; [|by apply IH].
      intros x Hx. apply keys_define_prop in Hx as [->|Hx]; [|by apply Hk0].
      split; [congruence | done]. }
  destruct (array_index k) as [n|] eqn:Hn, (array_index k0) as [n0|] eqn:Hn0.
  - destruct (Z.ltb_spec n n0) as [Hlt|Hge].
    + change (keys ((k, v) :: (k0, v0) :: o)) with (k :: k0 :: keys o).
      apply ordered_keys_cons. split; [|by apply ordered_keys_cons].
      intros x [<-|Hx].
      * split; [done|]. unfold key_beforeb. rewrite Hn, Hn0. lia.
      * destruct (Hk0 x Hx) as [_ Hb]. unfold key_beforeb in *. rewrite Hn0 in Hb.
        rewrite Hn. split.
        -- intros <-. rewrite Hn in Hb. lia.
        -- destruct (array_index x); [lia | done].
    + change (keys ((k0, v0) :: define_prop o k v)) with (k0 :: keys (define_prop o k v)).
      apply Hskip. unfold key_beforeb. rewrite Hn, Hn0.
      assert (n <> n0); [|lia]. intros ->. apply Hne. by apply (array_index_inj _ _ n0).
  - change (keys ((k, v) :: (k0, v0) :: o)) with (k :: k0 :: keys o).
    apply ordered_keys_cons. split; [|by apply ordered_keys_cons].
    assert (forall x, In x (k0 :: keys o) -> array_index x = None) as Hnamed.
    { intros x [<-|Hx]; [done|]. destruct (Hk0 x Hx) as [_ Hb].
      unfold key_beforeb in Hb. rewrite Hn0 in Hb. by destruct (array_index x). }
    intros x Hx. specialize (Hnamed x Hx). split; [congruence|].
    unfold key_beforeb. by rewrite Hn, Hnamed.
  - change (keys ((k0, v0) :: define_prop o k v)) with (k0 :: keys (define_prop o k v)).
    apply Hskip. by apply key_beforeb_named.
  - change (keys ((k0, v0) :: define_prop o k v)) with (k0 :: keys (define_prop o k v)).
    apply Hskip. by apply key_beforeb_named.
Qed.

(** An object spread over an object is an object. *)
Lemma spread_wf target (v : value H) : wf_props target = true -> wf_props (spread target v) = true.
Proof.
  unfold spread. generalize (own_props v). intros l. revert target.
  induction l as [|[k x] l IH]; intros target Hwf; [done|]. simpl.
  by apply IH, define_prop_wf.
Qed.

End Objects.
End JSFacts.


(** ** JSON texts *)
Module WireFacts.
Import JS Wire JSFacts.

Lemma is_json_obj (o : list (string * json)) :
  is_json (VObj o) = forallb (fun kv => is_json (snd kv)) o.
Proof. induction o as [|[k x] o IH]; simpl in *; [done|]. by rewrite IH. Qed.

(** A value [JSON.parse] produced is written back as it is. *)
Lemma jsonify_json : forall v : json, is_json v = true -> jsonify v = v.
Proof.
  fix IH 1. intros [ | | b | n | s | h | l | o] Hj; try done.
  - simpl in *. f_equal. induction l as [|x l IHl]; [done|].
    simpl in Hj. apply andb_true_iff in Hj as [Hx Hl]. simpl. f_equal; [|by apply IHl].
    rewrite (IH x Hx). by destruct x.
  - simpl in *. f_equal. induction o as [|[k x] o IHo]; [done|].
    apply andb_true_iff in Hj as [Hx Ho].
    rewrite (IHo Ho), (IH x Hx). by destruct x.
Qed.

Lemma is_json_lookup (o : list (string * json)) k v :
  is_json (VObj o) = true -> lookup_prop k o = Some v -> is_json v = true.
Proof.
  rewrite is_json_obj. induction o as [|[k0 v0] o IH]; [done|].
  simpl. rewrite lookup_prop_cons, andb_true_iff. intros [H0 Ho].
  destruct (String.eqb k k0); [by intros [= <-] | by apply IH].
Qed.

(** A parameter that was given keeps its value. *)
Lemma defaulted_json (v d : json) : is_json v = true -> Destructuring.defaulted v d = v.
Proof. by destruct v. Qed.

Lemma JSON_stringify_json (v : json) : is_json v = true -> JSON_stringify v = Text v.
Proof. intros Hj. unfold JSON_stringify. by rewrite jsonify_json. Qed.

Lemma is_json_define_prop (o : list (string * json)) k v :
  is_json (VObj o) = true -> is_json v = true -> is_json (VObj (define_prop o k v)) = true.
Proof.
  rewrite !is_json_obj. intros Ho Hv.
  induction o as [|[k0 v0] o IH]; simpl in *.
  - by rewrite Hv.
  - apply andb_true_iff in Ho as [H0 Ho].
    destruct (String.eqb k k0); simpl; [by rewrite Hv, Ho|].
    destruct (array_index k) as [n|], (array_index k0) as [n0|];
      try destruct (n <? n0); simpl; rewrite ?Hv, ?H0, ?Ho, ?IH; done.
Qed.

Lemma is_json_spread (t o : list (string * json)) :
  is_json (VObj t) = true -> is_json (VObj o) = true ->
  is_json (VObj (spread t (VObj o))) = true.
Proof.
  unfold spread. cbn [own_props]. revert t.
  induction o as [|[k v] o IH]; intros t Ht Ho; cbn [fold_left fst snd]; [done|].
  rewrite is_json_obj in Ho. simpl in Ho. apply andb_true_iff in Ho as [Hv Ho].
  apply IH; [by apply is_json_define_prop | by rewrite is_json_obj].
Qed.

(** ToString throws on the values [prints] turns down, and on no
    others. *)
Lemma join_prints (print : json -> result string) (sep : string) (l : list json) :
  (forall x, In x l -> prints x = true <-> exists s, print x = Returns s) ->
  forallb prints l = true <-> exists s, join print sep l = Returns s.
Proof.
  induction l as [|x l IH]; intros Hl; [split; [by eexists | done]|].
  cbn [forallb join]. rewrite andb_true_iff.
  assert (prints x = true <->
          exists s, match x with
                    | VUndefined | VNull => Returns ""
                    | _ => print x
                    end = Returns s) as Hx.
  { destruct x; try (apply Hl; by left); split; try done; by eexists. }
  rewrite Hx, IH by (intros y Hy; apply Hl; by right). split.
  - intros [[sx ->] [sr Hr]]. cbn [bind]. destruct l; [by eexists|]. rewrite Hr. by eexists.
  - intros [s Hs].
    destruct (match x with VUndefined | VNull => Returns "" | _ => print x end) as [sx|];
      [|done].
    split; [by eexists|]. cbn [bind] in Hs. destruct l as [|y l]; [by eexists|].
    destruct (join print sep (y :: l)); [by eexists | done].
Qed.

Lemma to_string_prints : forall v : json, prints v = true <-> exists s, to_string v = Returns s.
Proof.
  fix IH 1. intros [ | | []| n | s | [] | l | o]; cbn [prints to_string];
    try (split; [by eexists | done]).
  - apply join_prints. induction l as [|x l IHl]; [intros y []|].
    intros y [<-|Hy]; [apply IH | exact (IHl y Hy)].
  - destruct (has_prop "toString" o); cbn [negb]; split; try done;
      [by intros [? ?] | by eexists].
Qed.

End WireFacts.

(** ** The dispatcher *)
Module ServerFacts.
Import JS Wire Server JSFacts WireFacts Scenarios.

Lemma keys_app {H} (a b : list (string * value H)) : keys (a ++ b) = (keys a ++ keys b)%list.
Proof. unfold keys. apply map_app. Qed.

(** The answer to a command whose result has no [id] and no [timestamp] of
    its own: the result, with the request id before its named properties
    and the timestamp after them. *)
Lemma success_response_shape (idv : json) (r : list (string * json)) (now : Z) :
  wf_props r = true ->
  lookup_prop "id" r = None -> lookup_prop "timestamp" r = None ->
  success_response idv (VObj r) now
  = (index_props r ++ ("id", idv) :: named_props r ++ [("timestamp", timestamp now)])%list.
Proof.
  intros Hwf Hid Hts.
  apply lookup_prop_None in Hid. apply lookup_prop_None in Hts.
  pose proof (wf_split r Hwf) as Hsplit.
  set (idx := index_props r) in *. set (named := named_props r) in *.
  assert (wf_props (idx ++ named) = true) as Hwf' by (by rewrite <- Hsplit).
  assert (keys r = (keys idx ++ keys named)%list) as Hkeys by (by rewrite Hsplit at 1; apply keys_app).
  rewrite Hkeys in Hid, Hts.
  assert (ordered_keys (keys idx ++ "id" :: keys named) = true) as Hord.
  { apply ordered_insert_named; [by rewrite <- keys_app | done | | | ].
    - intros ?. apply Hid, in_or_app. by left.
    - intros ?. apply Hid, in_or_app. by right.
    - intros b Hb. by apply (keys_named_props r). }
  unfold success_response, spread. cbn [own_props].
  replace (fold_left (fun o kv => define_prop o kv.1 kv.2) r [("id", idv)])
    with (idx ++ ("id", idv) :: named)%list.
  - rewrite define_prop_snoc.
    + by rewrite <- app_assoc.
    + rewrite !keys_app. simpl. rewrite <- app_assoc. simpl.
      replace (keys idx ++ "id" :: keys named ++ ["timestamp"])%list
        with ((keys idx ++ "id" :: keys named) ++ "timestamp" :: [])%list
        by (by rewrite <- app_assoc).
      apply ordered_insert_named; [by rewrite app_nil_r | done | | by intros [] | by intros ? []].
      intros Hin. apply in_app_or in Hin as [Hin | [Hin | Hin]]; [| done |].
      * apply Hts, in_or_app. by left.
      * apply Hts, in_or_app. by right.
  - rewrite Hsplit at 1. rewrite fold_left_app.
    change [("id", idv)] with ([] ++ [("id", idv)])%list.
    rewrite (fold_define_before_named idx [] "id" idv); [| | done |].
    + simpl. rewrite fold_define_app.
      * by rewrite <- app_assoc.
      * unfold wf_props. rewrite !keys_app, <- app_assoc. done.
    + intros k Hk. by apply (keys_index_props r).
    + unfold wf_props in *. rewrite keys_app in Hwf'.
      by apply ordered_keys_app in Hwf' as (? & _).
Qed.

(** Whatever the result holds, its properties other than [timestamp] keep
    their values, the timestamp is the dispatcher's, and the request id
    stands unless the result has an [id] of its own. *)
Lemma success_response_lookup (idv : json) (r : list (string * json)) (now : Z) k :
  wf_props r = true ->
  lookup_prop k (success_response idv (VObj r) now) =
    if String.eqb k "timestamp" then Some (timestamp now)
    else match lookup_prop k r with
         | Some v => Some v
         | None => if String.eqb k "id" then Some idv else None
         end.
Proof.
  intros Hwf. unfold success_response.
  rewrite lookup_define_prop, lookup_spread by done.
  destruct (String.eqb k "timestamp"); [done|].
  destruct (lookup_prop k r); [done|].
  by rewrite lookup_prop_cons.
Qed.

Lemma handleMessage_command (srv : server) (now : Z) (client : nat)
    (o : list (string * json)) (C : string) (t : tool) :
  lookup_prop "command" o = Some (VStr C) -> C <> "" -> tools srv !! C = Some t ->
  handleMessage srv now client (Text (VObj o)) =
    match handler t (or_else (default VUndefined (lookup_prop "params" o)) (VObj [])) client with
    | Returns result =>
        [Send client (JSON_stringify (VObj
           (success_response (default VUndefined (lookup_prop "id" o)) result now)))]
    | Throws m =>
        [Send client (JSON_stringify (VObj
           [("id", default VUndefined (lookup_prop "id" o));
            ("error", VStr ("Error executing command: " +:+ m));
            ("timestamp", timestamp now)]))]
    end.
Proof.
  intros Hc HC Ht. unfold handleMessage, handleMessage_try.
  cbn [JSON_parse bind get]. rewrite Hc. cbn [default from_option id truthy find_tool].
  apply eqb_false_iff in HC. rewrite HC. cbn [negb]. rewrite Ht.
  by destruct (handler t _ client).
Qed.

(** C1, as stated, fails: a dispatched command whose handler returns its
    own [timestamp] (as [list-tools] does) is answered without that field of
    the result, the dispatcher's timestamp standing in its place. *)
Lemma dispatch_overwrites_handler_timestamp :
  let result := [("success", VBool true); ("tools", VArr []);
                 ("timestamp", VStr "2025-05-21T00:00:00.000Z")] in
  let response := [("id", VStr "r1"); ("success", VBool true); ("tools", VArr []);
                   ("timestamp", VStr "2025-05-21T00:00:00.123Z")] in
  (exists t, tools echo_server !! "list-tools" = Some t
             /\ handler t (VObj []) 7%nat = Returns (VObj result))
  /\ handleMessage echo_server 1747785600123 7
       (Text (VObj [("id", VStr "r1"); ("command", VStr "list-tools"); ("params", VObj [])]))
     = [Send 7%nat (Text (VObj response))]
  /\ In ("timestamp", VStr "2025-05-21T00:00:00.000Z") result
  /\ ~ In ("timestamp", VStr "2025-05-21T00:00:00.000Z") response.
Proof.
  split; [eexists; split; vm_compute; reflexivity|].
  split; [vm_compute; reflexivity|].
  split; [right; right; by left|].
  intros [H|[H|[H|[H|[]]]]]; discriminate H.
Qed.

(** C1 (amended).  Dispatching a message that names a registered command
    whose handler returns the object [r] sends one response, built as
    [{ id, ...r, timestamp }]: its [timestamp] is the dispatcher's; every
    other property of [r] is in it with its value; the request id is echoed
    unless [r] has an [id] of its own; and when [r] has neither [id] nor
    [timestamp], the response is exactly [r] with the id and the timestamp
    added, no property lost or moved (the id ahead of the named properties,
    array-index keys enumerating first as in any object).  JSON data is
    written as it is. *)
Theorem dispatch_success_response (srv : server) (now : Z) (client : nat)
    (o r : list (string * json)) (C : string) (t : tool) :
  lookup_prop "command" o = Some (VStr C) -> C <> "" ->
  tools srv !! C = Some t ->
  handler t (or_else (default VUndefined (lookup_prop "params" o)) (VObj [])) client
    = Returns (VObj r) ->
  wf_props r = true ->
  let id := default VUndefined (lookup_prop "id" o) in
  let response := success_response id (VObj r) now in
  handleMessage srv now client (Text (VObj o)) = [Send client (JSON_stringify (VObj response))]
  /\ lookup_prop "timestamp" response = Some (timestamp now)
  /\ (forall k v, k <> "timestamp" -> lookup_prop k r = Some v ->
                  lookup_prop k response = Some v)
  /\ (lookup_prop "id" r = None -> lookup_prop "id" response = Some id)
  /\ (lookup_prop "id" r = None -> lookup_prop "timestamp" r = None ->
      response = (index_props r ++ ("id", id) :: named_props r
                    ++ [("timestamp", timestamp now)])%list
      /\ r = (index_props r ++ named_props r)%list
      /\ (index_props r = [] -> response = (("id", id) :: r ++ [("timestamp", timestamp now)])%list))
  /\ (is_json id = true -> is_json (VObj r) = true ->
      JSON_stringify (VObj response) = Text (VObj response)).
Proof.
  intros Hc HC Ht Hh Hwf id response.
  split. { rewrite (handleMessage_command srv now client o C t) by done. by rewrite Hh. }
  split. { unfold response. by rewrite success_response_lookup. }
  split.
  { intros k v Hk Hv. unfold response. rewrite success_response_lookup by done.
    apply eqb_false_iff in Hk. by rewrite Hk, Hv. }
  split. { intros Hid. unfold response. by rewrite success_response_lookup, Hid. }
  split.
  { intros Hid Hts. pose proof (wf_split r Hwf) as Hsplit.
    split; [by apply success_response_shape|]. split; [done|].
    intros Hidx. unfold response. rewrite success_response_shape by done.
    rewrite Hidx in *. simpl in *. by rewrite <- Hsplit. }
  intros Hid Hr. apply JSON_stringify_json. unfold response, success_response.
  apply is_json_define_prop; [|done].
  apply is_json_spread; [|done]. simpl. by rewrite Hid.
Qed.

(** The echo scenario: [echo] with [value: 42] is answered with the value,
    the request id and a timestamp, and no [error]. *)
Lemma dispatch_success_response_witness :
  handleMessage echo_server 1747785600123 7
    (Text (VObj [("id", VStr "r1"); ("command", VStr "echo");
                 ("params", VObj [("value", VNum 42)])]))
  = [Send 7%nat (Text (VObj [("id", VStr "r1"); ("value", VNum 42);
                             ("timestamp", VStr "2025-05-21T00:00:00.123Z")]))].
Proof.
  destruct (dispatch_success_response echo_server 1747785600123 7
              [("id", VStr "r1"); ("command", VStr "echo");
               ("params", VObj [("value", VNum 42)])]
              [("value", VNum 42)] "echo"
              {| name := "echo";
                 handler := fun prm _ =>
                   bind (get prm "value") (fun v => Returns (VObj [("value", v)]));
                 schema := VObj [] |})
    as (Hsend & _); [reflexivity | discriminate | reflexivity | reflexivity | reflexivity |].
  exact Hsend.
Defined.



(** What the dispatcher answers to a command it does not know, and can
    print. *)
Lemma handleMessage_unknown (srv : server) (now : Z) (client : nat)
    (o : list (string * json)) (cmd : json) (received : string) :
  lookup_prop "command" o = Some cmd -> truthy cmd = true -> find_tool srv cmd = None ->
  to_string cmd = Returns received ->
  handleMessage srv now client (Text (VObj o)) =
    [Send client (JSON_stringify (VObj
       [("id", default VUndefined (lookup_prop "id" o));
        ("error", VObj [("code", VStr "unknown_command");
                        ("message", VStr ("Unknown command: " +:+ received))]);
        ("timestamp", timestamp now)]))].
Proof.
  intros Hc Ht Hf Hs. unfold handleMessage, handleMessage_try.
  cbn [JSON_parse bind get]. rewrite Hc. cbn [default from_option id].
  by rewrite Ht, Hs, Hf.
Qed.

End ServerFacts.

(** ** The client *)
Module ClientFacts.
Import JS Wire Client JSFacts WireFacts Scenarios.

Section PendingMap.
Context {V : Type}.
Implicit Types (m : list (string * V)) (k : string) (v : V).

Lemma map_get_cons k k' v m :
  map_get k ((k', v) :: m) = if String.eqb k k' then Some v else map_get k m.
Proof. unfold map_get. simpl. by destruct (String.eqb k k'). Qed.

Lemma map_get_set k v m : map_get k (map_set k v m) = Some v.
Proof.
  induction m as [|[k' v'] m IH]; simpl.
  - by rewrite map_get_cons, String.eqb_refl.
  - destruct (String.eqb k k') eqn:Hk; rewrite map_get_cons; [by rewrite String.eqb_refl|].
    by rewrite Hk.
Qed.

Lemma map_get_delete k m : map_get k (map_delete k m) = None.
Proof.
  induction m as [|[k' v'] m IH]; [done|]. unfold map_delete in *. simpl.
  destruct (String.eqb k k') eqn:Hk; simpl; [done|]. by rewrite map_get_cons, Hk.
Qed.

Lemma map_get_delete_ne k k' m : k <> k' -> map_get k (map_delete k' m) = map_get k m.
Proof.
  intros Hne. induction m as [|[k0 v0] m IH]; [done|]. unfold map_delete in *. simpl.
  destruct (String.eqb k' k0) eqn:Hk; simpl; rewrite !map_get_cons.
  - apply String.eqb_eq in Hk as <-. apply eqb_false_iff in Hne. by rewrite Hne.
  - by rewrite IH.
Qed.

Lemma map_has_delete k m : map_has k (map_delete k m) = false.
Proof. unfold map_has. rewrite map_get_delete. by apply bool_decide_eq_false_2, is_Some_None. Qed.

Lemma map_has_get k m : map_has k m = true <-> is_Some (map_get k m).
Proof. unfold map_has. apply bool_decide_eq_true. Qed.

End PendingMap.

Lemma filter_delete (ks : list string) (k : string) (m : list (string * pending)) :
  List.filter (fun kv => negb (existsb (String.eqb (fst kv)) ks)) (map_delete k m)
  = List.filter (fun kv => negb (existsb (String.eqb (fst kv)) (k :: ks))) m.
Proof.
  unfold map_delete. induction m as [|[k' p'] m IH]; [done|].
  cbn [List.filter existsb fst]. rewrite (String.eqb_sym k' k).
  destruct (String.eqb k k'); cbn [negb orb]; [done|].
  cbn [List.filter fst]. by rewrite IH.
Qed.

Lemma filter_known_keys (ks : list string) (m : list (string * pending)) :
  (forall kv, In kv m -> In (fst kv) ks) ->
  List.filter (fun kv => negb (existsb (String.eqb (fst kv)) ks)) m = [].
Proof.
  induction m as [|[k p] m IH]; intros Hin; [done|]. cbn [List.filter fst].
  assert (existsb (String.eqb k) ks = true) as ->.
  { apply existsb_exists. exists k. split; [apply (Hin (k, p)); by left|].
    apply String.eqb_refl. }
  cbn [negb]. apply IH. intros kv Hkv. apply Hin. by right.
Qed.

(** The loop of [disconnect] visits every entry and leaves none. *)
Lemma reject_all_spec (m : list (string * pending)) :
  reject_all m =
    ([], flat_map (fun kv => [ClearTimeout (timeoutId (snd kv));
                              Reject (fst kv) (Str "Connection closed")]) m).
Proof.
  unfold reject_all.
  assert (forall es m' effs,
            fold_left
              (fun (acc : list (string * pending) * list effect) (kv : string * pending) =>
                 (map_delete (fst kv) (fst acc),
                  (snd acc ++ [ClearTimeout (timeoutId (snd kv));
                               Reject (fst kv) (Str "Connection closed")])%list))
              es (m', effs) =
              (List.filter (fun kv => negb (existsb (String.eqb (fst kv)) (map fst es))) m',
               (effs ++ flat_map (fun kv : string * pending =>
                                    [ClearTimeout (timeoutId (snd kv));
                                     Reject (fst kv) (Str "Connection closed")]) es)%list))
    as Hfold.
  { induction es as [|[k p] es IH]; intros m' effs.
    - simpl. rewrite app_nil_r. f_equal. induction m' as [|x m' IHm]; [done|].
      simpl. by rewrite <- IHm.
    - cbn [fold_left fst snd]. rewrite IH. f_equal.
      + apply filter_delete.
      + simpl. by rewrite <- app_assoc. }
  rewrite Hfold. f_equal. apply filter_known_keys.
  intros kv Hkv. by apply in_map.
Qed.

(** C5.  [disconnect()] on a connected client rejects every pending request
    with a connection-closed error, clears each of their timeouts and
    empties the pending map; the close event that follows attempts no
    reconnection and resets the intentional flag, so that the close after
    that one is handled as unintended again. *)
Theorem disconnect_rejects_all_without_reconnect (c : client) (ready_open : bool)
    (reason : string) (code : Z) (why : string) :
  connected c = true -> is_Some (ws c) ->
  let c1 := fst (disconnect c ready_open reason) in
  let c2 := fst (_handleClose c1 code why) in
  pendingCommands c1 = []
  /\ snd (disconnect c ready_open reason) =
       (flat_map (fun kv => [ClearTimeout (timeoutId (snd kv));
                             Reject (fst kv) (Str "Connection closed")]) (pendingCommands c)
        ++ (if ready_open then [WsClose 1000 reason] else []))%list
  /\ intentionalClose c1 = true
  /\ snd (_handleClose c1 code why) = [Emit (disconnected code why)]
  /\ reconnectAttempts c2 = reconnectAttempts c
  /\ connected c2 = false
  /\ intentionalClose c2 = false
  /\ snd (_handleClose c2 code why) =
       Emit (disconnected code why) :: snd (_attemptReconnect c2).
Proof.
  intros Hconn Hws. unfold disconnect. rewrite Hconn.
  rewrite (bool_decide_eq_true_2 _ Hws). cbn [negb orb].
  cbn [pendingCommands set_connection]. rewrite reject_all_spec.
  cbn [fst snd]. repeat split.
  unfold _handleClose. cbn [set_pending set_connection intentionalClose fst snd
                           ws reconnectAttempts connected].
  by destruct (_attemptReconnect _).
Qed.

Lemma disconnect_rejects_all_without_reconnect_witness :
  fst (disconnect busy_client true "done") = set_pending
        (set_connection busy_client (Some 0%nat) true 0 true) []
  /\ snd (disconnect busy_client true "done") =
       [ClearTimeout 1%nat; Reject "req-1" (Str "Connection closed");
        ClearTimeout 2%nat; Reject "req-2" (Str "Connection closed");
        WsClose 1000 "done"]
  /\ snd (_handleClose (fst (disconnect busy_client true "done")) 1000 "done") =
       [Emit (disconnected 1000 "done")].
Proof.
  destruct (disconnect_rejects_all_without_reconnect busy_client true "done" 1000 "done")
    as (_ & Heffs & _ & Hclose & _); [reflexivity | by eexists |].
  split; [reflexivity|]. split; [exact Heffs | exact Hclose].
Defined.

(** C3: the close and error handlers do not clean up.  A connected
    client has two requests pending when its connection closes, or when its
    socket reports an error: both requests stay in the pending map, no
    promise is rejected and no timeout cleared; the handlers only announce
    the event and schedule a reconnection.  [disconnect()], called on the
    same client instead, does what the claim describes: it clears every
    timeout, rejects every request with [Connection closed] and empties the
    map.  Called after the close it is of no use: the client is no longer
    connected, and it returns at once. *)
Theorem close_leaves_request_pending :
  let c := busy_client in
  let closed := fst (_handleClose c 1006 "") in
  map fst (pendingCommands c) = ["req-1"; "req-2"]
  /\ pendingCommands closed = pendingCommands c
  /\ snd (_handleClose c 1006 "") =
       [Emit (disconnected 1006 ""); Emit (reconnecting 1 3); SetTimeout reconnect_timer 2000]
  /\ pendingCommands (fst (_handleError c "read ECONNRESET")) = pendingCommands c
  /\ snd (_handleError c "read ECONNRESET") =
       [Emit (error (Str "read ECONNRESET")); Emit (reconnecting 1 3);
        SetTimeout reconnect_timer 2000]
  /\ pendingCommands (fst (disconnect c true "bye")) = []
  /\ snd (disconnect c true "bye") =
       [ClearTimeout 1%nat; Reject "req-1" (Str "Connection closed");
        ClearTimeout 2%nat; Reject "req-2" (Str "Connection closed");
        WsClose 1000 "bye"]
  /\ disconnect closed true "bye" = (closed, []).
Proof. repeat split. Qed.

Lemma attemptReconnect_pending (c : client) :
  pendingCommands (fst (_attemptReconnect c)) = pendingCommands c
  /\ forallb (fun e => negb (settles e)) (snd (_attemptReconnect c)) = true.
Proof. unfold _attemptReconnect. by destruct (_ <=? _). Qed.

(** Whatever the state of the client, handling a close or an error event
    of the transport leaves the pending map as it is and settles no
    request: no promise is resolved or rejected and no timeout cleared.  A
    request pending at that time is still rejected by its own timeout, if
    that fires next. *)
Lemma close_and_error_keep_pending (c : client) (code : Z) (reason msg : string) :
  pendingCommands (fst (_handleClose c code reason)) = pendingCommands c
  /\ forallb (fun e => negb (settles e)) (snd (_handleClose c code reason)) = true
  /\ pendingCommands (fst (_handleError c msg)) = pendingCommands c
  /\ forallb (fun e => negb (settles e)) (snd (_handleError c msg)) = true
  /\ (forall k ms, map_has k (pendingCommands c) = true -> Z.abs ms < 2 ^ 53 ->
        command_timed_out (fst (_handleClose c code reason)) k ms =
          (set_pending (fst (_handleClose c code reason))
             (map_delete k (pendingCommands c)),
           [Reject k (Str ("Command timed out after " +:+ pretty ms +:+ "ms"))])).
Proof.
  assert (pendingCommands (fst (_handleClose c code reason)) = pendingCommands c) as Hclose.
  { unfold _handleClose. cbn [intentionalClose set_connection].
    destruct (intentionalClose c); [done|].
    pose proof (attemptReconnect_pending
                  (set_connection c (ws c) false (reconnectAttempts c) false)) as [Hp _].
    by destruct (_attemptReconnect _). }
  split; [done|]. split.
  { unfold _handleClose. cbn [intentionalClose set_connection].
    destruct (intentionalClose c); [done|].
    pose proof (attemptReconnect_pending
                  (set_connection c (ws c) false (reconnectAttempts c) false)) as [_ Hp].
    by destruct (_attemptReconnect _). }
  split.
  { unfold _handleError. destruct (intentionalClose c); [done|].
    pose proof (attemptReconnect_pending c) as [Hp _]. by destruct (_attemptReconnect _). }
  split.
  { unfold _handleError. destruct (intentionalClose c); [done|].
    pose proof (attemptReconnect_pending c) as [_ Hp]. by destruct (_attemptReconnect _). }
  intros k ms Hk _. unfold command_timed_out. by rewrite Hclose, Hk.
Qed.

Lemma close_and_error_keep_pending_witness :
  let c := fst (sendCommand connected_client "req-1" 1%nat 1000 "list-tools" (VObj []) None) in
  snd (command_timed_out (fst (_handleClose c 1006 "")) "req-1" 30000)
  = [Reject "req-1" (Str "Command timed out after 30000ms")].
Proof.
  intros c.
  destruct (close_and_error_keep_pending c 1006 "" "") as (_ & _ & _ & _ & Htimeout).
  by rewrite (Htimeout "req-1" 30000 eq_refl eq_refl).
Defined.

(** *** Matching a response to its request *)

(** A response that is not a welcome, seen through the fields
    [_handleMessage] reads: the pending command it finds has its timeout
    cleared; it is then settled and deleted, unless the Error to reject it
    with cannot be built, which is emitted as an [error]. *)
Lemma handleMessage_response (c : client) (uuid : string) (o : list (string * json)) :
  truthy (default VUndefined (lookup_prop "message" o)) = false ->
  let field k := default VUndefined (lookup_prop k o) in
  let settled (k : string) (p : pending) :=
    match settlement k (VObj o) (field "error") with
    | Returns outcome =>
        (set_pending c (map_delete k (pendingCommands c)),
         [ClearTimeout (timeoutId p); outcome])
    | Throws m =>
        (c, [ClearTimeout (timeoutId p);
             Emit (error (Str ("Failed to parse server message: " +:+ m)))])
    end in
  _handleMessage c uuid (Text (VObj o)) =
    match (if truthy (field "id") then pending_of_id c (field "id") else None) with
    | Some (k, p) => settled k p
    | None =>
        match (if truthy (field "command") then pending_of_command c (field "command")
               else None) with
        | Some (k, p) => settled k p
        | None => (c, [Emit (message (VObj o))])
        end
    end.
Proof.
  intros Hmsg field settled. unfold _handleMessage, _handleMessage_try.
  cbn [JSON_parse eval get]. rewrite Hmsg. cbn [eval]. fold (field "id").
  fold (field "command"). fold (field "error").
  assert (forall k p,
            match settle c k p (VObj o) (field "error") with
            | (effs, Returns c') => (c', effs)
            | (effs, Throws m) =>
                (c, (effs ++ [Emit (error (Str ("Failed to parse server message: " +:+ m)))])%list)
            end = settled k p) as Hsettle.
  { intros k p. unfold settle, settled, after, eval.
    by destruct (settlement k (VObj o) (field "error")). }
  destruct (if truthy (field "id") then _ else _) as [[k p]|]; [apply Hsettle|].
  destruct (if truthy (field "command") then _ else _) as [[k p]|]; [apply Hsettle | done].
Qed.

Lemma find_In {A} (f : A -> bool) (l : list A) (x : A) :
  List.find f l = Some x -> In x l.
Proof. intros Hx. by apply find_some in Hx as [? _]. Qed.

Lemma map_get_In {V} (k : string) (m : list (string * V)) (v : V) :
  map_get k m = Some v -> In (k, v) m.
Proof.
  unfold map_get. destruct (List.find _ m) as [[k' v']|] eqn:Hfind; [|done].
  intros [= <-]. apply find_some in Hfind as [Hin Hk]. cbn in Hk.
  by apply String.eqb_eq in Hk as ->.
Qed.

Lemma settlement_outcome (k : string) (response err : json) (outcome : effect) :
  settlement k response err = Returns outcome ->
  outcome = Resolve k response \/ exists msg, outcome = Reject k msg.
Proof.
  unfold settlement. destruct (truthy err); [|intros [= <-]; by left].
  destruct (error_message err) as [msg|]; [|done]. intros [= <-]. right. by eexists.
Qed.

(** The five ways [_handleMessage] can go: a welcome; a pending command
    settled and deleted; a pending command whose timeout is cleared and
    whose rejection fails; a message for the listeners; a failure before
    any pending command was touched. *)
Lemma handleMessage_cases (c : client) (uuid : string) (data : payload) :
  (exists response,
     _handleMessage c uuid data
     = (match contextId c with
        | Some _ => c
        | None => set_context c (Some uuid) (sequenceId c)
        end, [Emit (welcome response)]))
  \/ (exists k p outcome,
        In (k, p) (pendingCommands c)
        /\ _handleMessage c uuid data
           = (set_pending c (map_delete k (pendingCommands c)),
              [ClearTimeout (timeoutId p); outcome])
        /\ ((exists response, outcome = Resolve k response)
            \/ exists msg, outcome = Reject k msg))
  \/ (exists k p m,
        In (k, p) (pendingCommands c)
        /\ _handleMessage c uuid data
           = (c, [ClearTimeout (timeoutId p);
                  Emit (error (Str ("Failed to parse server message: " +:+ m)))]))
  \/ (exists response, _handleMessage c uuid data = (c, [Emit (message response)]))
  \/ (exists m,
        _handleMessage c uuid data
        = (c, [Emit (error (Str ("Failed to parse server message: " +:+ m)))])).
Proof.
  assert (forall k p response err,
            In (k, p) (pendingCommands c) ->
            (exists k0 p0 outcome,
               In (k0, p0) (pendingCommands c)
               /\ match settle c k p response err with
                  | (effs, Returns c') => (c', effs)
                  | (effs, Throws m) =>
                      (c, (effs ++ [Emit (error (Str ("Failed to parse server message: "
                                                      +:+ m)))])%list)
                  end
                  = (set_pending c (map_delete k0 (pendingCommands c)),
                     [ClearTimeout (timeoutId p0); outcome])
               /\ ((exists response, outcome = Resolve k0 response)
                   \/ exists msg, outcome = Reject k0 msg))
            \/ (exists k0 p0 m,
                  In (k0, p0) (pendingCommands c)
                  /\ match settle c k p response err with
                     | (effs, Returns c') => (c', effs)
                     | (effs, Throws m) =>
                         (c, (effs ++ [Emit (error (Str ("Failed to parse server message: "
                                                         +:+ m)))])%list)
                     end
                     = (c, [ClearTimeout (timeoutId p0);
                            Emit (error (Str ("Failed to parse server message: " +:+ m)))])))
    as Hsettle.
  { intros k p response err Hin. unfold settle, after, eval.
    destruct (settlement k response err) as [outcome|m] eqn:Hs.
    - left. exists k, p, outcome. split; [done|]. split; [done|].
      destruct (settlement_outcome _ _ _ _ Hs) as [->|[msg ->]]; [left|right]; by eexists.
    - right. by exists k, p, m. }
  unfold _handleMessage, _handleMessage_try, eval.
  destruct (JSON_parse data) as [response|m]; [|by do 4 right; exists m].
  destruct (get response "message") as [msg|m]; [|by do 4 right; exists m].
  destruct (if truthy msg then message_includes_Welcome msg else Returns false)
    as [[]|m]; [by left; exists response | | by do 4 right; exists m].
  destruct (get response "id") as [i|m]; [|by do 4 right; exists m].
  destruct (get response "error") as [e|m]; [|by do 4 right; exists m].
  destruct (get response "command") as [n|m]; [|by do 4 right; exists m].
  destruct (if truthy i then pending_of_id c i else None) as [[k p]|] eqn:Hid.
  { right. assert (In (k, p) (pendingCommands c)) as Hin.
    { destruct (truthy i); [|done]. destruct i; try done. cbn in Hid.
      destruct (map_get s (pendingCommands c)) as [p'|] eqn:Hp; [|done].
      cbn in Hid. injection Hid as <- <-. by apply map_get_In. }
    destruct (Hsettle k p response e Hin) as [H|H]; [by left | by right; left]. }
  destruct (if truthy n then pending_of_command c n else None) as [[k p]|] eqn:Hname;
    [|by do 3 right; left; exists response].
  right. assert (In (k, p) (pendingCommands c)) as Hin.
  { destruct (truthy n); [|done]. destruct n; try done. cbn in Hname.
    by apply find_In in Hname. }
  destruct (Hsettle k p response e Hin) as [H|H]; [by left | by right; left].
Qed.

(** The Error a response is rejected with, for the errors the dispatcher
    writes: a text, or an object with a text as [message]. *)
Lemma settlement_resolves (k : string) (response err : json) :
  truthy err = false -> settlement k response err = Returns (Resolve k response).
Proof. intros Herr. unfold settlement. by rewrite Herr. Qed.

Lemma settlement_text (k : string) (response : json) (text : string) :
  text <> "" -> settlement k response (VStr text) = Returns (Reject k (Str text)).
Proof.
  intros Htext. unfold settlement. cbn [truthy].
  by rewrite (proj2 (eqb_false_iff text "") Htext).
Qed.

Lemma settlement_structured (k : string) (response : json) (e : list (string * json))
    (text : string) :
  lookup_prop "message" e = Some (VStr text) -> text <> "" ->
  settlement k response (VObj e) = Returns (Reject k (Str text)).
Proof.
  intros Hmsg Htext. unfold settlement, error_message. cbn [truthy typeof_object get bind].
  rewrite Hmsg. cbn [default from_option id truthy].
  by rewrite (proj2 (eqb_false_iff text "") Htext).
Qed.

(** The by-name fallback takes the first pending request, in insertion
    order, that was sent for the named command: it clears its timeout,
    settles it and removes it (or, when the Error to reject it with cannot
    be built, emits an [error] and leaves it); a response that matches no
    pending request by id or by name settles nothing and is emitted as a
    [message] event. *)
Lemma fallback_by_command_name (c : client) (uuid name : string)
    (o : list (string * json)) (before after : list (string * pending)) k p :
  truthy (default VUndefined (lookup_prop "message" o)) = false ->
  lookup_prop "id" o = None ->
  lookup_prop "command" o = Some (VStr name) -> name <> "" ->
  pendingCommands c = (before ++ (k, p) :: after)%list ->
  command p = name ->
  (forall kv, In kv before -> command (snd kv) <> name) ->
  _handleMessage c uuid (Text (VObj o)) =
    match settlement k (VObj o) (default VUndefined (lookup_prop "error" o)) with
    | Returns outcome =>
        (set_pending c (map_delete k (pendingCommands c)),
         [ClearTimeout (timeoutId p); outcome])
    | Throws m =>
        (c, [ClearTimeout (timeoutId p);
             Emit (error (Str ("Failed to parse server message: " +:+ m)))])
    end.
Proof.
  intros Hmsg Hid Hcmd Hname Hpend Hp Hbefore.
  rewrite handleMessage_response by done. rewrite Hid, Hcmd.
  cbn [default from_option id truthy]. apply eqb_false_iff in Hname. rewrite Hname.
  cbn [negb pending_of_command]. rewrite Hpend.
  assert (List.find (fun kv : string * pending => String.eqb (command (snd kv)) name)
            (before ++ (k, p) :: after) = Some (k, p)) as ->; [|done].
  clear Hpend. induction before as [|x before IH].
  - simpl. by rewrite Hp, String.eqb_refl.
  - simpl. assert (String.eqb (command (snd x)) name = false) as ->.
    { apply eqb_false_iff, Hbefore. by left. }
    apply IH. intros kv Hkv. apply Hbefore. by right.
Qed.

Lemma unmatched_response_is_emitted (c : client) (uuid : string) (o : list (string * json)) :
  truthy (default VUndefined (lookup_prop "message" o)) = false ->
  pending_of_id c (default VUndefined (lookup_prop "id" o)) = None ->
  pending_of_command c (default VUndefined (lookup_prop "command" o)) = None ->
  _handleMessage c uuid (Text (VObj o)) = (c, [Emit (message (VObj o))]).
Proof.
  intros Hmsg Hid Hcmd. rewrite handleMessage_response by done. rewrite Hid, Hcmd.
  by destruct (truthy (default VUndefined (lookup_prop "id" o))),
             (truthy (default VUndefined (lookup_prop "command" o))).
Qed.

(** C2: the fallback also fires for a payload that has an [id].  The first
    of two [generate-tasks] requests has timed out; its response arrives
    late, carrying its id and, as the [generate-tasks] tool writes it, the
    command name.  The id matches nothing pending any more, and the response
    is handed to the second request. *)
Theorem late_response_settles_other_request :
  let c := fst (command_timed_out busy_client "req-1" 30000) in
  let response : json :=
    VObj [("id", VStr "req-1"); ("success", VBool true);
          ("command", VStr "generate-tasks"); ("tasks", VArr []);
          ("metadata", VObj []); ("message", VStr "Tasks generated successfully");
          ("timestamp", VStr "2025-05-21T00:00:00.123Z")] in
  map (fun kv => (fst kv, command (snd kv))) (pendingCommands c)
    = [("req-2", "generate-tasks")]
  /\ get response "id" = Returns (VStr "req-1")
  /\ _handleMessage c "ctx" (Text response)
     = (set_pending c [], [ClearTimeout 2%nat; Resolve "req-2" response]).
Proof. repeat split. Qed.

End ClientFacts.

(** ** Client and dispatcher together *)
Module EndToEnd.
Import JS Wire JSFacts WireFacts ClientFacts Scenarios.

(** C6.  A message naming a command that is not registered is answered with
    the request id and the structured error
    [{code: 'unknown_command', message: 'Unknown command: <name>'}]; and a
    client that sent the command with [sendCommand], on receiving that
    response, clears the timeout of the request, removes it from the
    pending map and rejects its promise with the message
    [Unknown command: <name>]. *)
Theorem unknown_command_is_rejected (srv : Server.server) (now : Z) (sock : nat)
    (c : Client.client) (commandId uuid name : string) (timer : nat) (sent : Z)
    (prm : json) (option_timeout : option Z) (o : list (string * json)) :
  name <> "" -> commandId <> "" -> Server.tools srv !! name = None ->
  lookup_prop "command" o = Some (VStr name) ->
  let answer (id : json) : list (string * json) :=
    [("id", id);
     ("error", VObj [("code", VStr "unknown_command");
                     ("message", VStr ("Unknown command: " +:+ name))]);
     ("timestamp", Server.timestamp now)] in
  let c1 := fst (Client.sendCommand c commandId timer sent name prm option_timeout) in
  Server.handleMessage srv now sock (Text (VObj o))
    = [Server.Send sock (JSON_stringify (VObj (answer (default VUndefined (lookup_prop "id" o)))))]
  /\ (exists frame,
        (exists ms,
           snd (Client.sendCommand c commandId timer sent name prm option_timeout)
           = [Client.SetTimeout (Client.command_timeout commandId ms) ms;
              Client.WsSend frame])
        /\ Server.handleMessage srv now sock frame
           = [Server.Send sock (Text (VObj (answer (VStr commandId))))])
  /\ Client._handleMessage c1 uuid (Text (VObj (answer (VStr commandId))))
     = (Client.set_pending c1 (Client.map_delete commandId (Client.pendingCommands c1)),
        [Client.ClearTimeout timer;
         Client.Reject commandId (Client.Str ("Unknown command: " +:+ name))])
  /\ Client.map_has commandId
       (Client.pendingCommands
          (fst (Client._handleMessage c1 uuid (Text (VObj (answer (VStr commandId)))))))
     = false.
Proof.
  intros Hname Hid Htool Hcmd answer c1.
  assert (String.eqb name "" = false) as Hname' by (by apply eqb_false_iff).
  assert (String.eqb commandId "" = false) as Hid' by (by apply eqb_false_iff).
  assert (Client.map_get commandId (Client.pendingCommands c1)
          = Some {| Client.command := name;
                    Client.params := Destructuring.defaulted prm (VObj []);
                    Client.timeoutId := timer; Client.sentAt := sent |}) as Hp
    by apply map_get_set.
  assert (Client._handleMessage c1 uuid (Text (VObj (answer (VStr commandId))))
          = (Client.set_pending c1 (Client.map_delete commandId (Client.pendingCommands c1)),
             [Client.ClearTimeout timer;
              Client.Reject commandId (Client.Str ("Unknown command: " +:+ name))])) as Hclient.
  { clearbody c1. rewrite handleMessage_response by done.
    cbn [answer lookup_prop List.find fst snd String.eqb Ascii.eqb Bool.eqb fmap option_fmap
         option_map default from_option id truthy].
    rewrite Hid'. cbn [negb Client.pending_of_id].
    rewrite Hp. cbn [fmap option_fmap option_map].
    unfold Client.settle. cbn [truthy Client.timeoutId]. do 3 f_equal. }
  split.
  { rewrite (ServerFacts.handleMessage_unknown srv now sock o (VStr name) name); try done.
    simpl. by rewrite Hname'. }
  split.
  { eexists. split; [eexists; reflexivity|].
    assert (exists rest,
              JSON_stringify (VObj
                [("id", VStr commandId); ("command", VStr name);
                 ("params", Destructuring.defaulted prm (VObj []));
                 ("context", match Client.contextId c with
                             | Some x => VStr x
                             | None => VNull
                             end);
                 ("sequence", VNum (Client.sequenceId c))])
              = Text (VObj (("id", VStr commandId) :: ("command", VStr name) :: rest)))
      as [rest ->] by (eexists; reflexivity).
    rewrite (ServerFacts.handleMessage_unknown srv now sock _ (VStr name) name).
    - reflexivity.
    - reflexivity.
    - simpl. by rewrite Hname'.
    - done.
    - done. }
  split; [done|].
  rewrite Hclient. cbn [fst Client.pendingCommands Client.set_pending].
  apply map_has_delete.
Qed.

Lemma unknown_command_is_rejected_witness :
  snd (Client._handleMessage
         (fst (Client.sendCommand connected_client "req-1" 1%nat 1000 "does-not-exist"
                 (VObj []) None))
         "ctx"
         (Text (VObj [("id", VStr "req-1");
                      ("error", VObj [("code", VStr "unknown_command");
                                      ("message", VStr "Unknown command: does-not-exist")]);
                      ("timestamp", VStr "2025-05-21T00:00:00.123Z")])))
  = [Client.ClearTimeout 1%nat;
     Client.Reject "req-1" (Client.Str "Unknown command: does-not-exist")].
Proof.
  destruct (unknown_command_is_rejected echo_server 1747785600123 7
              connected_client "req-1" "ctx" "does-not-exist" 1%nat 1000 (VObj []) None
              [("id", VStr "req-1"); ("command", VStr "does-not-exist"); ("params", VObj [])])
    as (_ & _ & Hclient & _); [discriminate | discriminate | reflexivity | reflexivity |].
  exact (f_equal snd Hclient).
Defined.

End EndToEnd.

(** ** Reconnection on the event loop *)
Module EventLoopFacts.
Import JS Wire Client EventLoop ClientFacts Scenarios.

(** One refused connection attempt runs [_attemptReconnect] three times:
    from [_handleError], from [_handleClose], and from the [catch] of the
    promise of [connect].  After the first attempt the counter is at its
    maximum of 3 and two timers are pending. *)
Lemma refused_attempt_counts_thrice :
  let w0 := connection_lost connected_client in
  let w1 := run (nobody_listens true) 1 w0 in
  let w2 := run (nobody_listens true) 1 w1 in
  reconnectAttempts (cl w0) = 1
  /\ agenda w0 = [(2000, Fire reconnect_timer)]
  /\ agenda w1 = [(2010, SocketFails 0)]
  /\ reconnectAttempts (cl w2) = 3
  /\ agenda w2 = [(6010, Fire reconnect_timer); (8010, Fire reconnect_timer)]
  /\ trace w2 =
       [(0, Emitted (disconnected 1006 "")); (0, Emitted (reconnecting 1 3));
        (2000, Connecting {| host := "localhost"; port := 8765 |});
        (2010, Emitted (error (Str "connect ECONNREFUSED")));
        (2010, Emitted (reconnecting 2 3));
        (2010, Emitted (disconnected 1006 ""));
        (2010, Emitted (reconnecting 3 3));
        (2010, Emitted reconnect_failed)].
Proof. vm_compute. repeat split. Qed.

(** C4: with [maxReconnectAttempts = 3], [reconnectDelay = 2000] and no
    server listening, the client does make three attempts, but not one
    after the other: attempts 2 and 3 are both scheduled when attempt 1 fails
    (2000 x 2 and 2000 x 3 after that moment), [reconnect_failed] is emitted
    right then, before attempts 2 and 3 are made, and again at each later
    failure.  The run ends with no task left. *)
Theorem reconnect_failed_before_last_attempts :
  let w := run (nobody_listens true) 100 (connection_lost connected_client) in
  agenda w = []
  /\ trace w =
       [(0, Emitted (disconnected 1006 "")); (0, Emitted (reconnecting 1 3));
        (2000, Connecting {| host := "localhost"; port := 8765 |});
        (2010, Emitted (error (Str "connect ECONNREFUSED")));
        (2010, Emitted (reconnecting 2 3));
        (2010, Emitted (disconnected 1006 ""));
        (2010, Emitted (reconnecting 3 3));
        (2010, Emitted reconnect_failed);
        (6060, Connecting {| host := "localhost"; port := 8765 |});
        (6070, Emitted (error (Str "connect ECONNREFUSED")));
        (6070, Emitted reconnect_failed);
        (6070, Emitted (disconnected 1006 ""));
        (6070, Emitted reconnect_failed);
        (6070, Emitted reconnect_failed);
        (8060, Connecting {| host := "localhost"; port := 8765 |});
        (8070, Emitted (error (Str "connect ECONNREFUSED")));
        (8070, Emitted reconnect_failed);
        (8070, Emitted (disconnected 1006 ""));
        (8070, Emitted reconnect_failed);
        (8070, Emitted reconnect_failed)].
Proof. vm_compute. split; reflexivity. Qed.

(** The same when a refused socket emits [error] only: the counter still
    reaches its maximum after the first attempt, and attempt 3 is made after
    [reconnect_failed] was emitted. *)
Lemma reconnect_failed_before_last_attempt_error_only :
  let w := run (nobody_listens false) 100 (connection_lost connected_client) in
  agenda w = []
  /\ trace w =
       [(0, Emitted (disconnected 1006 "")); (0, Emitted (reconnecting 1 3));
        (2000, Connecting {| host := "localhost"; port := 8765 |});
        (2010, Emitted (error (Str "connect ECONNREFUSED")));
        (2010, Emitted (reconnecting 2 3));
        (2010, Emitted (reconnecting 3 3));
        (6060, Connecting {| host := "localhost"; port := 8765 |});
        (6070, Emitted (error (Str "connect ECONNREFUSED")));
        (6070, Emitted reconnect_failed);
        (6070, Emitted reconnect_failed);
        (8060, Connecting {| host := "localhost"; port := 8765 |});
        (8070, Emitted (error (Str "connect ECONNREFUSED")));
        (8070, Emitted reconnect_failed);
        (8070, Emitted reconnect_failed)].
Proof. vm_compute. split; reflexivity. Qed.

(** [_attemptReconnect] on its own does what is specified: below the
    maximum it counts the attempt and waits [reconnectDelay] times its
    number; at the maximum it emits [reconnect_failed] and sets no timer. *)
Lemma attemptReconnect_spec (c : client) :
  _attemptReconnect c =
    if maxReconnectAttempts c <=? reconnectAttempts c
    then (c, [Emit reconnect_failed])
    else (set_connection c (ws c) (connected c) (reconnectAttempts c + 1) (intentionalClose c),
          [Emit (reconnecting (reconnectAttempts c + 1) (maxReconnectAttempts c));
           SetTimeout reconnect_timer (reconnectDelay c * (reconnectAttempts c + 1))]).
Proof. reflexivity. Qed.

End EventLoopFacts.

(** ** The context manager *)
Module ContextFacts.
Import JS JSDate Context JSFacts JSDateFacts Scenarios.

Lemma last_n_app {A} (n : nat) (l r : list A) :
  last_n n (last_n n l ++ r) = last_n n (l ++ r).
Proof.
  unfold last_n. rewrite <- drop_app_le by lia.
  rewrite drop_drop. f_equal. rewrite length_drop, !length_app. lia.
Qed.

Lemma push_bounded_last_n {A} (max : nat) (l : list A) (x : A) :
  push_bounded max l x = last_n (Nat.max max (length l)) (l ++ [x]).
Proof.
  unfold push_bounded, last_n. rewrite length_app. simpl.
  destruct (Nat.ltb_spec max (length l + 1)).
  - replace (length l + 1 - Nat.max max (length l))%nat with 1%nat by lia.
    by destruct (l ++ [x])%list.
  - by replace (length l + 1 - Nat.max max (length l))%nat with 0%nat by lia.
Qed.

Lemma last_n_length {A} (n : nat) (l : list A) : (length (last_n n l) <= n)%nat.
Proof. unfold last_n. rewrite length_drop. lia. Qed.

Lemma resolve_id (m : manager) (k : string) : k <> "" -> resolve m (Some k) = Some k.
Proof.
  intros Hk. apply eqb_false_iff in Hk. unfold resolve.
  change (falsy (Some k)) with (String.eqb k ""). rewrite Hk. cbn [andb].
  change (falsy (Some k)) with (String.eqb k ""). by rewrite Hk.
Qed.

(** One update of an existing session. *)
Lemma updateContext_found (m : manager) (now : Z) (rand k : string) (c : context)
    (d : cvalue) (merge : bool) :
  k <> "" -> contexts m !! k = Some c ->
  updateContext m now rand (Some k) d merge = (update_found m now k c d merge, Some k).
Proof. intros Hk Hc. unfold updateContext. by rewrite resolve_id, Hc. Qed.

(** A sequence of updates of a session.  A history that holds more entries
    than [maxHistoryLength] is not trimmed: each update adds one entry and
    removes one. *)
Lemma run_updates_history (rand k : string) (us : list update) :
  k <> "" ->
  forall (m : manager) (c : context),
    contexts m !! k = Some c ->
    exists c',
      contexts (run_updates rand k m us) !! k = Some c'
      /\ maxHistoryLength (run_updates rand k m us) = maxHistoryLength m
      /\ history c' = last_n (Nat.max (maxHistoryLength m) (length (history c)))
                        (history c ++ snapshots (data c) us)
      /\ data c' = fold_left updated_data us (data c).
Proof.
  intros Hk. induction us as [|u us IH]; intros m c Hc.
  - exists c. simpl. rewrite app_nil_r. split; [done|]. split; [done|]. split; [|done].
    unfold last_n.
    by replace (length (history c) - Nat.max (maxHistoryLength m) (length (history c)))%nat
      with 0%nat by lia.
  - set (x := [("timestamp", VHost (Some (u_now u)));
               ("data", VObj (spread [] (VObj (data c))))] : props).
    set (c1 := Build_context (id c) (created c) (Some (u_now u)) (updated_data (data c) u)
                 (push_bounded (maxHistoryLength m) (history c) x) (steps c)).
    set (m1 := update_found m (u_now u) k c (u_data u) (u_merge u)).
    assert (apply_update rand k m u = m1) as Happ.
    { unfold apply_update. by rewrite (updateContext_found m _ rand k c). }
    unfold run_updates. cbn [fold_left]. rewrite Happ. fold (run_updates rand k m1 us).
    destruct (IH m1 c1) as (c' & Hc' & Hmax & Hhist & Hdata).
    { unfold m1, update_found. cbn [contexts set_contexts]. by rewrite lookup_insert_eq. }
    exists c'. split; [done|]. split; [done|]. split; [|done].
    rewrite Hhist. change (maxHistoryLength m1) with (maxHistoryLength m).
    cbn [history data c1 snapshots]. fold x.
    rewrite push_bounded_last_n.
    set (n := Nat.max (maxHistoryLength m) (length (history c))).
    assert (Nat.max (maxHistoryLength m) (length (last_n n (history c ++ [x]))) = n) as ->.
    { unfold last_n. rewrite length_drop, length_app. simpl. lia. }
    rewrite last_n_app. by rewrite <- app_assoc.
Qed.

Lemma snapshots_length (d : props) (us : list update) :
  length (snapshots d us) = length us.
Proof. revert d. induction us as [|u us IH]; intros d; [done|]. simpl. by rewrite IH. Qed.

(** C9 (amended).  After any sequence of [updateContext] calls a session holds the
    most recent entries of its history, the snapshots taken just before each
    update coming last: as many as [maxHistoryLength] (10 unless
    reconfigured), or as many as it held before when that was more.  So a
    history within the maximum stays within it, the oldest entries being
    evicted first, and a longer one keeps its length. *)
Theorem history_after_updates (m : manager) (rand k : string) (c : context)
    (us : list update) :
  k <> "" -> contexts m !! k = Some c ->
  exists c',
    contexts (run_updates rand k m us) !! k = Some c'
    /\ history c' = last_n (Nat.max (maxHistoryLength m) (length (history c)))
                      (history c ++ snapshots (data c) us)
    /\ ((length (history c) <= maxHistoryLength m)%nat ->
        (length (history c') <= maxHistoryLength m)%nat
        /\ history c' = last_n (maxHistoryLength m) (history c ++ snapshots (data c) us))
    /\ ((maxHistoryLength m < length (history c))%nat ->
        length (history c') = length (history c)).
Proof.
  intros Hk Hc.
  destruct (run_updates_history rand k us Hk m c Hc) as (c' & Hc' & _ & Hhist & _).
  exists c'. split; [done|]. split; [done|]. rewrite Hhist. split.
  - intros Hlen. rewrite Nat.max_l by done. split; [apply last_n_length | done].
  - intros Hlen. unfold last_n. rewrite length_drop, length_app. lia.
Qed.

Lemma history_after_updates_witness :
  exists c,
    contexts (run_updates "r4nd0m1" "s1"
                (fst (createContext new_manager 999 "r4nd0m1" (Some "s1") (VObj [])))
                fifteen_updates) !! "s1" = Some c
    /\ length (history c) = 10%nat
    /\ map (lookup_prop "data") (history c) =
         map (fun i => Some (VObj [("n", VNum i)])) (seqZ 4 10)
    /\ map (lookup_prop "timestamp") (history c) =
         map (fun i => Some (VHost (Some (1000 + i)))) (seqZ 5 10).
Proof.
  destruct (history_after_updates
              (fst (createContext new_manager 999 "r4nd0m1" (Some "s1") (VObj [])))
              "r4nd0m1" "s1"
              (Build_context "s1" (Some 999) (Some 999) [] [] [])
              fifteen_updates) as (c & Hc & Hhist & _);
    [discriminate | reflexivity |].
  exists c. split; [exact Hc|]. rewrite Hhist.
  split; [|split]; vm_compute; reflexivity.
Defined.

(** C9, as stated, fails: a session that [importContext] makes from a
    serialized history of eleven entries holds eleven entries, and still
    does after fifteen updates, with [maxHistoryLength] at 10. *)
Lemma imported_history_exceeds_maximum :
  let m := fst (importContext new_manager 999 "r4nd0m1" long_history) in
  maxHistoryLength m = 10%nat
  /\ (exists c, contexts m !! "s1" = Some c /\ length (history c) = 11%nat)
  /\ (exists c, contexts (run_updates "r4nd0m1" "s1" m fifteen_updates) !! "s1" = Some c
                /\ length (history c) = 11%nat).
Proof. vm_compute. split; [done|]. split; eexists; split; reflexivity. Qed.

(** *** Histories of the sessions built without [importContext] *)

Lemma push_bounded_length {A} (max : nat) (l : list A) (x : A) :
  (length l <= max)%nat -> (length (push_bounded max l x) <= max)%nat.
Proof.
  intros Hl. rewrite push_bounded_last_n, Nat.max_l by done. apply last_n_length.
Qed.

Lemma history_bounded_insert (m : manager) (k : string) (c : context) :
  history_bounded m -> (length (history c) <= maxHistoryLength m)%nat ->
  history_bounded (set_contexts m (<[k:=c]> (contexts m))).
Proof.
  intros Hm Hc k' c'. cbn [contexts set_contexts maxHistoryLength].
  destruct (decide (k = k')) as [<-|Hne].
  - rewrite lookup_insert_eq. by intros [= <-].
  - rewrite lookup_insert_ne by done. apply Hm.
Qed.

Lemma update_found_bounded (m : manager) (now : Z) (k : string) (c : context)
    (d : cvalue) (merge : bool) :
  history_bounded m -> contexts m !! k = Some c ->
  history_bounded (update_found m now k c d merge).
Proof.
  intros Hm Hc. unfold update_found. apply history_bounded_insert; [done|].
  cbn [history]. apply push_bounded_length. by apply (Hm k).
Qed.

Lemma createContext_bounded (m : manager) (now : Z) (rand : string)
    (cid : option string) (d : cvalue) :
  history_bounded m -> history_bounded (fst (createContext m now rand cid d)).
Proof.
  intros Hm. unfold createContext. set (k := if falsy cid then _ else _).
  destruct (contexts m !! k) as [c|] eqn:Hc; cbn [fst].
  - by apply update_found_bounded.
  - apply (history_bounded_insert m k); [done|]. cbn [history length]. lia.
Qed.

Lemma perform_bounded (m : manager) (c : call) :
  is_import c = false -> history_bounded m -> history_bounded (perform m c).
Proof.
  intros Hc Hm. destruct c as [now rand cid d|now rand cid d merge|now cid n d|now k|k|];
    [..|done]; cbn [perform].
  - by apply createContext_bounded.
  - unfold updateContext.
    pose proof (createContext_bounded m now rand cid d Hm) as Hcreate.
    destruct (resolve m cid) as [k|]; [|by destruct (createContext _ _ _ _ _)].
    destruct (contexts m !! k) as [c|] eqn:Hk; [|by destruct (createContext _ _ _ _ _)].
    by apply update_found_bounded.
  - unfold addStep. destruct (resolve m cid) as [k|]; [|done].
    destruct (contexts m !! k) as [c|] eqn:Hk; [|done]. cbn [fst].
    apply history_bounded_insert; [done|]. cbn [history]. by apply (Hm k).
  - unfold deleteContext. destruct (contexts m !! k) as [c|]; [|done].
    intros k' c'. cbn [fst contexts maxHistoryLength]. intros Hk'. apply (Hm k').
    apply lookup_delete_Some in Hk'. by destruct Hk'.
  - unfold setActiveContext. by destruct (contexts m !! k).
Qed.

(** Every session of a manager that was used without [importContext] holds
    at most [maxHistoryLength] history entries. *)
Lemma run_calls_bounded (calls : list call) (m : manager) :
  forallb (fun c => negb (is_import c)) calls = true ->
  history_bounded m -> history_bounded (run_calls m calls).
Proof.
  revert m. induction calls as [|c calls IH]; intros m; [done|].
  simpl. rewrite andb_true_iff. intros [Hc Hcalls] Hm.
  apply IH; [done|]. apply perform_bounded; [|done]. by apply negb_true_iff.
Qed.

Lemma new_manager_bounded : history_bounded new_manager.
Proof. intros k c. cbn [contexts new_manager]. by rewrite lookup_empty. Qed.

(** *** What every session of the manager satisfies *)

Lemma TimeClip_ok (t : Z) : date_ok (TimeClip t) = true.
Proof. unfold TimeClip, date_ok, in_range. by destruct (_ && _) eqn:Ht. Qed.

Lemma bind_ok {A} (x : option A) (f : A -> Date) :
  (forall a, date_ok (f a) = true) -> date_ok (x ≫= f) = true.
Proof. intros Hf. destruct x; [apply Hf | done]. Qed.

Lemma parse_ok (s : string) : date_ok (parse s) = true.
Proof.
  unfold parse.
  do 7 (apply bind_ok; intros [? ?]; apply bind_ok; intros ?).
  destruct (negb _); [done|]. destruct (negb _); [done|]. apply TimeClip_ok.
Qed.

Lemma new_Date_ok (v : cvalue) (d : Date) :
  new_Date v = Returns d -> date_ok d = true.
Proof.
  destruct v as [ | |[]| | |[t|]|l|o]; cbn [new_Date]; try by intros [= <-].
  - intros [= <-]. apply TimeClip_ok.
  - intros [= <-]. apply parse_ok.
  - intros [= <-]. apply TimeClip_ok.
  - destruct (prints _); [by intros [= <-] | done].
  - destruct (prints _); [by intros [= <-] | done].
Qed.

Section Invariant.
Variable ok : Date -> bool.
Hypothesis ok_in_range : forall t, in_range t = true -> ok (Some t) = true.

Lemma forallb_push_bounded {A} (P : A -> bool) (max : nat) (l : list A) (x : A) :
  forallb P l = true -> P x = true -> forallb P (push_bounded max l x) = true.
Proof.
  intros Hl Hx. unfold push_bounded.
  assert (forallb P (l ++ [x]) = true) as Hall.
  { rewrite forallb_app, Hl. simpl. by rewrite Hx. }
  destruct (_ <? _)%nat; [|done]. destruct (l ++ [x])%list; [done|].
  simpl in *. by apply andb_true_iff in Hall as [_ ?].
Qed.

Lemma manager_with_insert (m : manager) (k : string) (c : context) :
  manager_with ok m -> context_with ok k c = true ->
  manager_with ok (set_contexts m (<[k:=c]> (contexts m))).
Proof.
  intros Hm Hc k' c'. cbn [contexts set_contexts].
  destruct (decide (k = k')) as [<-|Hne].
  - rewrite lookup_insert_eq. by intros [= <-].
  - rewrite lookup_insert_ne by done. apply Hm.
Qed.

Lemma context_with_update_found (m : manager) (now : Z) (k : string) (c : context)
    (d : cvalue) (merge : bool) :
  in_range now = true -> context_with ok k c = true ->
  context_with ok k
    {| id := id c; created := created c; updated := Some now;
       data := if merge then spread (spread [] (VObj (data c))) d else spread [] d;
       history := push_bounded (maxHistoryLength m) (history c)
                    [("timestamp", VHost (Some now));
                     ("data", VObj (spread [] (VObj (data c))))];
       steps := steps c |} = true.
Proof.
  intros Hnow Hc. unfold context_with in *. cbn [id created updated data history steps].
  repeat (apply andb_true_iff in Hc as [Hc ?]).
  repeat (apply andb_true_iff; split); try done.
  - by apply ok_in_range.
  - destruct merge; by repeat apply spread_wf.
  - apply forallb_push_bounded; [done|].
    unfold item_with. cbn. by apply ok_in_range.
Qed.

Lemma update_found_inv (m : manager) (now : Z) (k : string) (c : context)
    (d : cvalue) (merge : bool) :
  in_range now = true -> manager_with ok m -> contexts m !! k = Some c ->
  manager_with ok (update_found m now k c d merge).
Proof.
  intros Hnow Hm Hc. unfold update_found. apply manager_with_insert; [done|].
  apply context_with_update_found; [done | by apply Hm].
Qed.

Lemma createContext_inv (m : manager) (now : Z) (rand : string) (cid : option string)
    (d : cvalue) :
  in_range now = true -> manager_with ok m ->
  manager_with ok (fst (createContext m now rand cid d)).
Proof.
  intros Hnow Hm. unfold createContext.
  set (k := if falsy cid then _ else _).
  assert (String.eqb k "" = false) as Hk.
  { unfold k. destruct cid as [s|]; [|done]. cbn [falsy].
    by destruct (String.eqb s "") eqn:Hs. }
  destruct (contexts m !! k) as [c|] eqn:Hc; cbn [fst].
  - by apply update_found_inv.
  - intros k' c'. cbn [contexts set_active set_contexts].
    destruct (decide (k = k')) as [<-|Hne].
    + rewrite lookup_insert_eq. intros [= <-]. unfold context_with.
      cbn [id created updated data history steps].
      rewrite String.eqb_refl, Hk, (ok_in_range now Hnow). cbn.
      rewrite !andb_true_r. by apply spread_wf.
    + rewrite lookup_insert_ne by done. apply Hm.
Qed.

Lemma updateContext_inv (m : manager) (now : Z) (rand : string) (cid : option string)
    (d : cvalue) (merge : bool) :
  in_range now = true -> manager_with ok m ->
  manager_with ok (fst (updateContext m now rand cid d merge)).
Proof.
  intros Hnow Hm. unfold updateContext.
  pose proof (createContext_inv m now rand cid d Hnow Hm) as Hcreate.
  destruct (resolve m cid) as [k|]; [|by destruct (createContext _ _ _ _ _)].
  destruct (contexts m !! k) as [c|] eqn:Hc; [|by destruct (createContext _ _ _ _ _)].
  by apply update_found_inv.
Qed.

Lemma addStep_inv (m : manager) (now : Z) (cid : option string) (n d : cvalue) :
  in_range now = true -> manager_with ok m ->
  manager_with ok (fst (addStep m now cid n d)).
Proof.
  intros Hnow Hm. unfold addStep.
  destruct (resolve m cid) as [k|]; [|done].
  destruct (contexts m !! k) as [c|] eqn:Hc; [|done]. cbn [fst].
  apply manager_with_insert; [done|].
  pose proof (Hm k c Hc) as Hwf. unfold context_with in *.
  cbn [id created updated data history steps].
  repeat (apply andb_true_iff in Hwf as [Hwf ?]).
  repeat (apply andb_true_iff; split); try done.
  - by apply ok_in_range.
  - rewrite forallb_app. apply andb_true_iff. split; [done|].
    unfold item_with. cbn. by rewrite (ok_in_range now Hnow).
Qed.

Lemma deleteContext_inv (m : manager) (now : Z) (k : string) :
  manager_with ok m -> manager_with ok (fst (deleteContext m now k)).
Proof.
  intros Hm. unfold deleteContext. destruct (contexts m !! k) as [c|]; [|done].
  intros k' c'. cbn [fst contexts]. intros Hk'. apply Hm.
  apply lookup_delete_Some in Hk'. by destruct Hk'.
Qed.

Lemma setActiveContext_inv (m : manager) (k : string) :
  manager_with ok m -> manager_with ok (fst (setActiveContext m k)).
Proof. intros Hm. unfold setActiveContext. by destruct (contexts m !! k). Qed.

End Invariant.

Lemma date_ok_in_range (t : Z) : in_range t = true -> date_ok (Some t) = true.
Proof. done. Qed.

Lemma valid_date_in_range (t : Z) : in_range t = true -> valid_date (Some t) = true.
Proof. done. Qed.

Lemma import_item_rep (x : cvalue) (item : props) :
  import_item x = Returns item -> rep_item item = true.
Proof.
  unfold import_item. destruct (get x "timestamp") as [ts|]; [|done].
  cbn [bind]. destruct (new_Date ts) as [d|] eqn:Hd; [|done].
  cbn [bind]. intros [= <-]. unfold rep_item, item_with.
  rewrite define_prop_wf by (by apply spread_wf).
  rewrite lookup_define_prop, String.eqb_refl. by apply (new_Date_ok ts).
Qed.

Lemma mapM_import_rep (xs : list cvalue) (items : list props) :
  mapM import_item xs = Returns items -> forallb rep_item items = true.
Proof.
  revert items. induction xs as [|x xs IH]; intros items; [by intros [= <-]|].
  cbn [mapM]. destruct (import_item x) as [item|] eqn:Hx; [|done]. cbn [bind].
  destruct (mapM import_item xs) as [rest|]; [|done]. cbn [bind]. intros [= <-].
  simpl. by rewrite (import_item_rep x item), IH.
Qed.

Lemma array_map_import_rep (what : string) (xs : cvalue) (items : list props) :
  array_map what import_item xs = Returns items -> forallb rep_item items = true.
Proof. destruct xs; try done. apply mapM_import_rep. Qed.

Lemma importContext_inv (m : manager) (now : Z) (rand : string) (ser : cvalue) :
  in_range now = true -> manager_with date_ok m ->
  manager_with date_ok (fst (importContext m now rand ser)).
Proof.
  intros Hnow Hm. unfold importContext.
  destruct ser as [ | | | | | | |o]; try done.
  destruct (lookup_prop "id" o) as [[ | | | |k| | | ]|]; try done.
  destruct (String.eqb k ""); [done|].
  pose proof (createContext_inv date_ok date_ok_in_range m now rand (Some k)
                (or_default (default VUndefined (lookup_prop "data" o)) (VObj [])) Hnow Hm)
    as Hm1.
  destruct (createContext m now rand (Some k) _) as [m1 k1]. cbn [fst] in Hm1.
  destruct (contexts m1 !! k) as [c|] eqn:Hc; [|done].
  pose proof (Hm1 k c Hc) as Hrep. unfold context_with in Hrep.
  repeat (apply andb_true_iff in Hrep as [Hrep ?]).
  assert (forall (b : bool) v d r, date_ok d = true ->
            (if b then new_Date v else Returns d) = Returns r ->
            date_ok r = true) as Hdate.
  { intros [] v d r Hd; [apply new_Date_ok | by intros [= <-]]. }
  assert (forall cr up ss hs, date_ok cr = true -> date_ok up = true ->
            forallb rep_item ss = true -> forallb rep_item hs = true ->
            context_with date_ok k
              {| id := id c; created := cr; updated := up; data := data c;
                 history := hs; steps := ss |} = true) as Hctx.
  { intros cr up ss hs Hcr Hup Hss Hhs. unfold context_with.
    cbn [id created updated data history steps].
    repeat (apply andb_true_iff; split); done. }
  destruct (if truthy _ then new_Date _ else Returns (created c)) as [cr|] eqn:Hcr;
    [|done].
  apply Hdate in Hcr; [|done].
  destruct (if truthy _ then new_Date _ else Returns (updated c)) as [up|] eqn:Hup;
    cbn [fst]; [|apply manager_with_insert; [done|]; by apply Hctx].
  apply Hdate in Hup; [|done].
  destruct (array_map "steps" import_item _) as [ss|] eqn:Hss; cbn [fst].
  - apply array_map_import_rep in Hss.
    destruct (array_map "history" import_item _) as [hs|] eqn:Hhs; cbn [fst].
    + apply array_map_import_rep in Hhs. apply manager_with_insert; [done|].
      by apply Hctx.
    + apply manager_with_insert; [done|]. by apply Hctx.
  - apply manager_with_insert; [done|]. by apply Hctx.
Qed.

Lemma perform_rep (m : manager) (c : call) :
  clock_ok c = true -> manager_with date_ok m -> manager_with date_ok (perform m c).
Proof.
  intros Hclock Hm. destruct c; cbn [perform clock_ok] in *.
  - by apply createContext_inv.
  - by apply updateContext_inv.
  - by apply addStep_inv.
  - by apply deleteContext_inv.
  - by apply setActiveContext_inv.
  - by apply importContext_inv.
Qed.


(** Every session of a manager that has served any calls is kept as
    [rep_context] says; and all its dates are valid when nothing was
    imported. *)
Lemma run_calls_rep (cs : list call) (m : manager) :
  forallb clock_ok cs = true -> manager_with date_ok m ->
  manager_with date_ok (run_calls m cs).
Proof.
  revert m. induction cs as [|c cs IH]; intros m Hcs Hm; [done|].
  simpl in Hcs. apply andb_true_iff in Hcs as [Hc Hcs].
  apply IH; [done|]. by apply perform_rep.
Qed.


Lemma new_manager_with (ok : Date -> bool) : manager_with ok new_manager.
Proof. intros k c. cbn. by rewrite lookup_empty. Qed.

(** *** Export and import *)

Lemma lookup_prop_split {H} k (o : list (string * value H)) v :
  lookup_prop k o = Some v -> exists o1 o2, o = (o1 ++ (k, v) :: o2)%list.
Proof.
  induction o as [|[k0 v0] o IH]; [done|]. rewrite lookup_prop_cons.
  destruct (String.eqb k k0) eqn:Hk.
  - apply String.eqb_eq in Hk as <-. intros [= <-]. by exists [], o.
  - intros Hv. destruct (IH Hv) as (o1 & o2 & ->). by exists ((k0, v0) :: o1), o2.
Qed.

Lemma iso_of_time_nonempty (t : Z) :
  - maxTime <= t <= maxTime -> String.eqb (iso_of_time t) "" = false.
Proof.
  intros Ht. apply eqb_false_iff. intros Hiso.
  pose proof (parse_iso_of_time t Ht) as Hparse. by rewrite Hiso in Hparse.
Qed.

Lemma valid_date_Some (d : Date) :
  valid_date d = true -> exists t, d = Some t /\ - maxTime <= t <= maxTime.
Proof.
  destruct d as [t|]; [|done]. unfold valid_date, in_range.
  rewrite andb_true_iff. intros [? ?]. exists t. split; [done|]. lia.
Qed.

(** A step or history entry is exported with its timestamp as text, and
    importing that gives the entry back. *)
Lemma item_roundtrip (item : props) :
  wf_item item = true ->
  exists x, export_item item = Returns x /\ import_item x = Returns item.
Proof.
  unfold wf_item, item_with. rewrite andb_true_iff. intros [Hwf Hts].
  destruct (lookup_prop "timestamp" item) as [[ | | | | |d| | ]|] eqn:Hl; try done.
  apply valid_date_Some in Hts as (t & -> & Ht).
  destruct (lookup_prop_split _ _ _ Hl) as (o1 & o2 & ->).
  unfold export_item, timestamp_iso. rewrite Hl. cbn [toISOString bind].
  rewrite spread_copy by done. rewrite (define_prop_replace o1 o2) by done.
  eexists. split; [done|].
  assert (wf_props (o1 ++ ("timestamp", VStr (iso_of_time t)) :: o2) = true) as Hwf'.
  { unfold wf_props, keys in *. by rewrite map_app in *. }
  unfold import_item. cbn [get bind].
  assert (lookup_prop "timestamp" (o1 ++ ("timestamp", VStr (iso_of_time t)) :: o2)
          = Some (VStr (iso_of_time t))) as ->.
  { rewrite <- (define_prop_replace o1 o2 "timestamp" (VHost (Some t))) by done.
    by rewrite lookup_define_prop. }
  cbn [default from_option Datatypes.id new_Date bind].
  rewrite parse_iso_of_time by done.
  rewrite spread_copy by done. by rewrite (define_prop_replace o1 o2).
Qed.



Lemma items_roundtrip (items : list props) :
  forallb wf_item items = true ->
  exists xs, mapM export_item items = Returns xs /\ mapM import_item xs = Returns items.
Proof.
  induction items as [|item items IH]; [by exists []|].
  simpl. rewrite andb_true_iff. intros [Hitem Hitems].
  destruct (item_roundtrip item Hitem) as (x & -> & Hx).
  destruct (IH Hitems) as (xs & -> & Hxs).
  exists (x :: xs). split; [done|]. simpl. by rewrite Hx, Hxs.
Qed.

Lemma getContext_id (m : manager) (k : string) :
  k <> "" -> getContext m (Some k) = contexts m !! k.
Proof. intros Hk. unfold getContext. by rewrite resolve_id. Qed.

(** What [createContext(id, data)] leaves under [id] when the manager has no
    such session, or has one with the same data. *)
Lemma createContext_same_data (m : manager) (now : Z) (rand k : string) (d : props) :
  k <> "" -> wf_props d = true ->
  (contexts m !! k = None
   \/ exists c', contexts m !! k = Some c' /\ id c' = k /\ data c' = d) ->
  exists c1, contexts (fst (createContext m now rand (Some k) (VObj d))) !! k = Some c1
             /\ id c1 = k /\ data c1 = d.
Proof.
  intros Hk Hwf Hm. unfold createContext.
  change (falsy (Some k)) with (String.eqb k "").
  rewrite (proj2 (eqb_false_iff k "") Hk). cbn [default from_option Datatypes.id].
  destruct Hm as [-> | (c' & -> & Hid & Hd)].
  - cbn [fst contexts set_active set_contexts]. eexists. rewrite lookup_insert_eq.
    split; [done|]. split; [done|]. cbn [data]. by apply spread_copy.
  - cbn [fst]. unfold update_found. cbn [contexts set_contexts]. eexists.
    rewrite lookup_insert_eq. split; [done|]. split; [done|]. cbn [data].
    rewrite Hd, spread_copy by done. by apply spread_self.
Qed.

(** Export, import and export again: what is written, the session the
    import leaves, and what is written of that. *)
Lemma roundtrip_through_import (m m' : manager) (now : Z) (rand k : string) (c : context) :
  contexts m !! k = Some c -> wf_context k c = true ->
  (contexts m' !! k = None
   \/ exists c', contexts m' !! k = Some c' /\ id c' = k /\ data c' = data c) ->
  exists ser tc tu ss hs,
    exportContext m (Some k) = Returns ser
    /\ created c = Some tc /\ updated c = Some tu
    /\ mapM export_item (steps c) = Returns ss
    /\ mapM export_item (history c) = Returns hs
    /\ ser = VObj [("id", VStr k); ("created", VStr (iso_of_time tc));
                   ("updated", VStr (iso_of_time tu)); ("data", VObj (data c));
                   ("steps", VArr ss); ("history", VArr hs)]
    /\ snd (importContext m' now rand ser) = Returns (VStr k)
    /\ contexts (fst (importContext m' now rand ser)) !! k = Some c
    /\ exportContext (fst (importContext m' now rand ser)) (Some k) = Returns ser.
Proof.
  intros Hc Hwf Hm'. unfold wf_context, context_with in Hwf.
  repeat (apply andb_true_iff in Hwf as [Hwf ?]).
  apply String.eqb_eq in Hwf.
  assert (k <> "") as Hk by (by apply eqb_false_iff, negb_true_iff).
  destruct (valid_date_Some (created c)) as (tc & Hcr & Htc); [done|].
  destruct (valid_date_Some (updated c)) as (tu & Hup & Htu); [done|].
  destruct (items_roundtrip (steps c)) as (ss & Hss & Hss'); [done|].
  destruct (items_roundtrip (history c)) as (hs & Hhs & Hhs'); [done|].
  destruct (createContext_same_data m' now rand k (data c)) as (c1 & Hc1 & Hid1 & Hd1);
    [done | done | done |].
  assert (forall m0, contexts m0 !! k = Some c ->
            exportContext m0 (Some k) =
              Returns (VObj [("id", VStr k); ("created", VStr (iso_of_time tc));
                             ("updated", VStr (iso_of_time tu)); ("data", VObj (data c));
                             ("steps", VArr ss); ("history", VArr hs)])) as Hexport.
  { intros m0 Hc0. unfold exportContext.
    rewrite getContext_id, Hc0 by done. rewrite Hwf, Hcr, Hup.
    cbn [date_iso toISOString bind]. by rewrite Hss, Hhs. }
  eexists _, tc, tu, ss, hs. split; [by apply (Hexport m)|].
  split; [done|]. split; [done|]. split; [done|]. split; [done|]. split; [done|].
  set (iso_c := iso_of_time tc). set (iso_u := iso_of_time tu).
  assert (truthy (VStr iso_c : cvalue) = true) as Htrc
    by (cbn [truthy]; unfold iso_c; by rewrite iso_of_time_nonempty).
  assert (truthy (VStr iso_u : cvalue) = true) as Htru
    by (cbn [truthy]; unfold iso_u; by rewrite iso_of_time_nonempty).
  unfold importContext.
  cbn [lookup_prop List.find fst snd String.eqb Ascii.eqb Bool.eqb fmap option_fmap
       option_map default from_option Datatypes.id or_default].
  rewrite (proj2 (eqb_false_iff k "") Hk).
  destruct (createContext m' now rand (Some k) (VObj (data c))) as [m1 k1] eqn:Hcreate.
  cbn [fst] in Hc1. rewrite Hc1, Htrc, Htru.
  cbn [new_Date array_map]. unfold iso_c, iso_u. rewrite !parse_iso_of_time by done.
  rewrite Hss'. cbn [array_map]. rewrite Hhs'. cbn [fst snd].
  assert (set_history (set_steps (set_meta c1 (Some tc) (Some tu)) (steps c)) (history c) = c)
    as ->.
  { unfold set_history, set_steps, set_meta. cbn [id created updated data history steps].
    destruct c; cbn in *; congruence. }
  split; [done|].
  assert (contexts (set_contexts m1 (<[k := c]> (contexts m1))) !! k = Some c) as Hk1
    by (cbn [contexts set_contexts]; by rewrite lookup_insert_eq).
  split; [done | by apply Hexport].
Qed.

Lemma export_item_wf (item : props) (x : cvalue) :
  rep_item item = true -> export_item item = Returns x -> wf_item item = true.
Proof.
  unfold rep_item, wf_item, item_with, export_item, timestamp_iso.
  rewrite !andb_true_iff. intros [Hwf Hts] Hx. split; [done|].
  destruct (lookup_prop "timestamp" item) as [[ | | | | |[t|]| | ]|]; done.
Qed.

Lemma mapM_export_wf (items : list props) (xs : list cvalue) :
  forallb rep_item items = true -> mapM export_item items = Returns xs ->
  forallb wf_item items = true.
Proof.
  revert xs. induction items as [|item items IH]; intros xs; [done|].
  simpl. rewrite andb_true_iff. intros [Hitem Hitems].
  destruct (export_item item) as [x|] eqn:Hx; [|done]. cbn [bind].
  destruct (mapM export_item items) as [rest|] eqn:Hrest; [|done]. intros _.
  by rewrite (export_item_wf item x), (IH rest).
Qed.

(** A session that [exportContext] can write has valid dates throughout. *)
Lemma exported_context_wf (m : manager) (k : string) (c : context) (ser : cvalue) :
  rep_context k c = true -> contexts m !! k = Some c ->
  exportContext m (Some k) = Returns ser -> wf_context k c = true.
Proof.
  unfold rep_context, wf_context, context_with. intros Hrep Hc.
  repeat (apply andb_true_iff in Hrep as [Hrep ?]).
  assert (k <> "") as Hk by (by apply eqb_false_iff, negb_true_iff).
  unfold exportContext. rewrite getContext_id, Hc by done.
  destruct (created c) as [tc|]; [|done]. destruct (updated c) as [tu|]; [|done].
  cbn [date_iso toISOString bind].
  destruct (mapM export_item (steps c)) as [ss|] eqn:Hss; [|done]. cbn [bind].
  destruct (mapM export_item (history c)) as [hs|] eqn:Hhs; [|done]. intros _.
  rewrite !andb_true_iff. split_and!; try done.
  - by apply (mapM_export_wf _ ss).
  - by apply (mapM_export_wf _ hs).
Qed.



(** The session of the scenario, exported. *)
Example export_sample :
  exportContext sample_manager (Some "s1") =
    Returns (VObj
      [("id", VStr "s1"); ("created", VStr "2025-05-21T00:00:00.000Z");
       ("updated", VStr "2025-05-21T00:00:04.000Z");
       ("data", VObj [("done", VBool true)]);
       ("steps",
        VArr [VObj [("name", VStr "plan"); ("timestamp", VStr "2025-05-21T00:00:02.000Z");
                    ("data", VObj [("tasks", VNum 3)]); ("index", VNum 0)];
              VObj [("name", VStr "build"); ("timestamp", VStr "2025-05-21T00:00:03.000Z");
                    ("data", VObj []); ("index", VNum 1)]]);
       ("history",
        VArr [VObj [("timestamp", VStr "2025-05-21T00:00:01.000Z");
                    ("data", VObj [("goal", VStr "ship")])];
              VObj [("timestamp", VStr "2025-05-21T00:00:04.000Z");
                    ("data", VObj [("goal", VStr "ship"); ("stage", VNum 2)])]])]).
Proof. vm_compute. reflexivity. Qed.

(** Importing it into the manager it came from changes nothing of what is
    exported. *)
Example import_into_same_manager :
  forall ser, exportContext sample_manager (Some "s1") = Returns ser ->
    exportContext (fst (importContext sample_manager 1747785700000 "r4nd0m2" ser)) (Some "s1")
    = Returns ser.
Proof.
  intros ser Hser.
  destruct (roundtrip_through_import sample_manager sample_manager 1747785700000 "r4nd0m2" "s1"
              (default {| id := ""; created := None; updated := None; data := [];
                          history := []; steps := [] |}
                 (contexts sample_manager !! "s1")))
    as (ser' & _ & _ & _ & _ & Hser' & _ & _ & _ & _ & _ & _ & _ & Hback).
  - vm_compute. reflexivity.
  - vm_compute. reflexivity.
  - right. eexists. split; [vm_compute; reflexivity|]. split; reflexivity.
  - rewrite Hser in Hser'. injection Hser' as <-. exact Hback.
Qed.

End ContextFacts.

(** ** The resource cache *)
Module ResourcesFacts.
Import JS Wire Client Resources JSFacts ClientFacts Scenarios.















End ResourcesFacts.

(** ** The context manager: queries and invariants *)
Module ContextQueriesFacts.
Import JS JSDate Context ContextQueries JSFacts JSDateFacts ContextFacts Scenarios.

(** *** The active pointer *)

Lemma live_insert (m : manager) (k : string) (c : context) :
  live m -> k <> "" -> live (set_contexts m (<[k:=c]> (contexts m))).
Proof.
  intros [Hkeys Hactive] Hk. split; cbn [contexts activeContext set_contexts].
  - intros k' c'. destruct (decide (k = k')) as [<-|Hne]; [done|].
    rewrite lookup_insert_ne by done. apply Hkeys.
  - intros a Ha. apply lookup_insert_is_Some'. right. by apply Hactive.
Qed.

Lemma created_key_nonempty (now : Z) (rand : string) (cid : option string) :
  (if falsy cid then "ctx_" +:+ pretty now +:+ "_" +:+ rand else default "" cid) <> "".
Proof.
  destruct cid as [s|]; cbn [falsy]; [|done].
  destruct (String.eqb s "") eqn:Hs; [done|]. by apply eqb_false_iff.
Qed.

Lemma live_createContext (m : manager) (now : Z) (rand : string) (cid : option string)
    (d : cvalue) :
  live m -> live (fst (createContext m now rand cid d)).
Proof.
  intros Hm. unfold createContext.
  pose proof (created_key_nonempty now rand cid) as Hk.
  set (k := if falsy cid then _ else _) in *.
  destruct (contexts m !! k) as [c|] eqn:Hc; cbn [fst].
  - by apply live_insert.
  - destruct (live_insert m k {| id := k; created := Some now; updated := Some now;
                                 data := spread [] d; history := []; steps := [] |} Hm Hk)
      as [Hkeys _].
    split; [done|]. cbn [activeContext contexts set_active set_contexts].
    intros a [= <-]. rewrite lookup_insert_eq. by eexists.
Qed.

Lemma live_updateContext (m : manager) (now : Z) (rand : string) (cid : option string)
    (d : cvalue) (merge : bool) :
  live m -> live (fst (updateContext m now rand cid d merge)).
Proof.
  intros Hm. unfold updateContext.
  pose proof (live_createContext m now rand cid d Hm) as Hcreate.
  destruct (resolve m cid) as [k|]; [|by destruct (createContext _ _ _ _ _)].
  destruct (contexts m !! k) as [c|] eqn:Hc; [|by destruct (createContext _ _ _ _ _)].
  cbn [fst]. apply live_insert; [done|]. by apply (proj1 Hm k c).
Qed.

Lemma live_importContext (m : manager) (now : Z) (rand : string) (ser : cvalue) :
  live m -> live (fst (importContext m now rand ser)).
Proof.
  intros Hm. unfold importContext.
  destruct ser as [ | | | | | | |o]; try done.
  destruct (lookup_prop "id" o) as [[ | | | |k| | | ]|]; try done.
  destruct (String.eqb k "") eqn:Hk; [done|]. apply eqb_false_iff in Hk.
  pose proof (live_createContext m now rand (Some k)
                (or_default (default VUndefined (lookup_prop "data" o)) (VObj [])) Hm) as Hm1.
  destruct (createContext m now rand (Some k) _) as [m1 k1]. cbn [fst] in Hm1.
  destruct (contexts m1 !! k) as [c|]; [|done].
  destruct (if truthy _ then new_Date _ else Returns (created c)) as [cr|]; [|done].
  destruct (if truthy _ then new_Date _ else Returns (updated c)) as [up|]; cbn [fst];
    [|by apply live_insert].
  destruct (array_map "steps" import_item _) as [ss|]; cbn [fst]; [|by apply live_insert].
  destruct (array_map "history" import_item _) as [hs|]; cbn [fst]; by apply live_insert.
Qed.

Lemma live_perform (m : manager) (c : call) : live m -> live (perform m c).
Proof.
  intros Hm. destruct c as [now rand cid d|now rand cid d merge|now cid n d|now k|k|now rand ser];
    cbn [perform].
  - by apply live_createContext.
  - by apply live_updateContext.
  - unfold addStep. destruct (resolve m cid) as [k|]; [|done].
    destruct (contexts m !! k) as [c|] eqn:Hc; [|done]. cbn [fst].
    apply live_insert; [done|]. by apply (proj1 Hm k c).
  - unfold deleteContext. destruct (contexts m !! k) as [c|] eqn:Hc; [|done].
    destruct Hm as [Hkeys Hactive]. split; cbn [fst contexts activeContext].
    + intros k' c' Hk'. apply lookup_delete_Some in Hk' as [_ Hk']. by apply (Hkeys k' c').
    + intros a. case_bool_decide as Ha; [done|]. intros Hact.
      apply lookup_delete_is_Some. split; [congruence | by apply Hactive].
  - unfold setActiveContext. destruct (contexts m !! k) as [c|] eqn:Hc; [|done].
    destruct Hm as [Hkeys Hactive]. split; [done|]. cbn [fst activeContext set_active contexts].
    intros a [= <-]. by eexists.
  - by apply live_importContext.
Qed.

Lemma live_run_calls (calls : list call) (m : manager) : live m -> live (run_calls m calls).
Proof.
  revert m. induction calls as [|c calls IH]; intros m Hm; [done|].
  apply IH. by apply live_perform.
Qed.

(** X1.  Whatever calls a manager has served, its active pointer is either
    unset or the id of a session it holds: [getActiveContext()] returns that
    session, never null for a pointer left behind by a deletion. *)
Theorem active_context_is_live (calls : list call) :
  let m := run_calls new_manager calls in
  match activeContext m with
  | Some k => k <> "" /\ exists c, contexts m !! k = Some c /\ getActiveContext m = Some c
  | None => getActiveContext m = None
  end.
Proof.
  intros m.
  assert (live m) as [Hkeys Hactive].
  { apply live_run_calls. split; [intros k c|intros k]; cbn; [by rewrite lookup_empty | done]. }
  unfold getActiveContext. destruct (activeContext m) as [k|] eqn:Hk; [|done].
  destruct (Hactive k eq_refl) as [c Hc].
  assert (k <> "") as Hne by (by apply (Hkeys k c)).
  split; [done|]. exists c. split; [done|].
  apply eqb_false_iff in Hne as Hne'. cbn [falsy]. rewrite Hne'.
  unfold getContext, resolve. rewrite Hk. cbn [falsy]. rewrite Hne'. cbn [andb]. cbn [falsy].
  by rewrite Hne'.
Qed.

(** *** The history of deleted sessions *)

Lemma createContext_frame (m : manager) (now : Z) (rand : string) (cid : option string)
    (d : cvalue) :
  maxHistoryLength (fst (createContext m now rand cid d)) = maxHistoryLength m
  /\ contextHistory (fst (createContext m now rand cid d)) = contextHistory m.
Proof. unfold createContext. by destruct (contexts m !! _). Qed.

Lemma updateContext_frame (m : manager) (now : Z) (rand : string) (cid : option string)
    (d : cvalue) (merge : bool) :
  maxHistoryLength (fst (updateContext m now rand cid d merge)) = maxHistoryLength m
  /\ contextHistory (fst (updateContext m now rand cid d merge)) = contextHistory m.
Proof.
  unfold updateContext. pose proof (createContext_frame m now rand cid d) as Hcreate.
  destruct (resolve m cid) as [k|]; [|by destruct (createContext _ _ _ _ _)].
  by destruct (contexts m !! k) as [c|]; [|destruct (createContext _ _ _ _ _)].
Qed.

Lemma importContext_frame (m : manager) (now : Z) (rand : string) (ser : cvalue) :
  maxHistoryLength (fst (importContext m now rand ser)) = maxHistoryLength m
  /\ contextHistory (fst (importContext m now rand ser)) = contextHistory m.
Proof.
  unfold importContext.
  destruct ser as [ | | | | | | |o]; try done.
  destruct (lookup_prop "id" o) as [[ | | | |k| | | ]|]; try done.
  destruct (String.eqb k ""); [done|].
  pose proof (createContext_frame m now rand (Some k)
                (or_default (default VUndefined (lookup_prop "data" o)) (VObj []))) as Hm1.
  destruct (createContext m now rand (Some k) _) as [m1 k1]. cbn [fst] in Hm1.
  destruct (contexts m1 !! k) as [c|]; [|done].
  destruct (if truthy _ then new_Date _ else Returns (created c)) as [cr|]; [|done].
  destruct (if truthy _ then new_Date _ else Returns (updated c)) as [up|]; [|done].
  destruct (array_map "steps" import_item _) as [ss|]; [|done].
  by destruct (array_map "history" import_item _) as [hs|].
Qed.

(** A call leaves the maximum alone, and the history of deleted sessions
    too unless it deletes a session. *)
Lemma perform_frame (m : manager) (c : call) :
  maxHistoryLength (perform m c) = maxHistoryLength m
  /\ (contextHistory (perform m c) = contextHistory m
      \/ exists t, contextHistory (perform m c)
                   = push_bounded (maxHistoryLength m) (contextHistory m) t).
Proof.
  destruct c as [now rand cid d|now rand cid d merge|now cid n d|now k|k|now rand ser];
    cbn [perform].
  - destruct (createContext_frame m now rand cid d). by split; [|left].
  - destruct (updateContext_frame m now rand cid d merge). by split; [|left].
  - unfold addStep. destruct (resolve m cid) as [k|]; [|by split; [|left]].
    destruct (contexts m !! k) as [c|]; by split; [|left].
  - unfold deleteContext. destruct (contexts m !! k) as [c|]; [|by split; [|left]].
    split; [done|]. right. by eexists.
  - unfold setActiveContext. destruct (contexts m !! k); by split; [|left].
  - destruct (importContext_frame m now rand ser). by split; [|left].
Qed.

Lemma run_calls_frame (calls : list call) (m : manager) :
  maxHistoryLength (run_calls m calls) = maxHistoryLength m
  /\ ((length (contextHistory m) <= maxHistoryLength m)%nat ->
      (length (contextHistory (run_calls m calls)) <= maxHistoryLength m)%nat).
Proof.
  revert m. induction calls as [|c calls IH]; intros m; [done|].
  destruct (perform_frame m c) as [Hmax Hhist]. destruct (IH (perform m c)) as [IHmax IHlen].
  cbn [run_calls fold_left] in *. fold (run_calls (perform m c) calls).
  rewrite Hmax in *. split; [done|]. intros Hlen. apply IHlen.
  destruct Hhist as [-> | [t ->]]; [done|]. by apply push_bounded_length.
Qed.

(** X2.  Whatever calls a manager has served, with however many deletions,
    the history of deleted sessions holds at most [maxHistoryLength]
    entries, and that maximum is still the constructor's 10. *)
Theorem deleted_sessions_are_bounded (calls : list call) :
  let m := run_calls new_manager calls in
  maxHistoryLength m = 10%nat /\ (length (contextHistory m) <= 10)%nat.
Proof.
  destruct (run_calls_frame calls new_manager) as [Hmax Hlen].
  split; [done|]. apply Hlen. cbn. lia.
Qed.

(** *** What every session looks like *)

(** X3.  In a manager that has served any calls, at times a [Date] can
    hold, every session is kept under its own id, which is not empty; its
    [created] and [updated] are dates, valid or invalid but never out of
    range; its data is an object whose keys are in enumeration order, none
    twice; and so is every step and every history entry, each with a date
    as its [timestamp]. *)
Theorem sessions_keep_their_shape (calls : list call) (k : string) (c : context) :
  forallb clock_ok calls = true ->
  contexts (run_calls new_manager calls) !! k = Some c ->
  id c = k /\ k <> ""
  /\ date_ok (created c) = true /\ date_ok (updated c) = true
  /\ wf_props (data c) = true
  /\ (forall item, In item (steps c ++ history c) ->
        wf_props item = true
        /\ exists d, lookup_prop "timestamp" item = Some (VHost d) /\ date_ok d = true).
Proof.
  intros Hclock Hc.
  pose proof (run_calls_rep calls new_manager Hclock (new_manager_with date_ok) k c Hc) as Hrep.
  unfold context_with in Hrep. repeat (apply andb_true_iff in Hrep as [Hrep ?]).
  apply String.eqb_eq in Hrep. split; [done|].
  split; [by apply eqb_false_iff, negb_true_iff|]. do 3 (split; [done|]).
  intros item Hitem.
  assert (item_with date_ok item = true) as Hok.
  { apply in_app_or in Hitem as [Hitem|Hitem];
      [eapply (proj1 (forallb_forall _ (steps c))) | eapply (proj1 (forallb_forall _ (history c)))];
      done. }
  unfold item_with in Hok. apply andb_true_iff in Hok as [Hwf Hts]. split; [done|].
  destruct (lookup_prop "timestamp" item) as [[ | | | | |d| | ]|]; try done. by exists d.
Qed.

Lemma sessions_keep_their_shape_witness :
  exists c, contexts sample_manager !! "s1" = Some c /\ id c = "s1"
            /\ wf_props (data c) = true /\ length (steps c ++ history c) = 4%nat.
Proof.
  destruct (contexts sample_manager !! "s1") as [c|] eqn:Hc; [|by vm_compute in Hc].
  destruct (sessions_keep_their_shape sample_calls "s1" c) as (Hid & _ & _ & _ & Hwf & _);
    [reflexivity | exact Hc |].
  exists c. split; [reflexivity|]. split; [exact Hid|]. split; [exact Hwf|].
  vm_compute in Hc. injection Hc as <-. reflexivity.
Defined.

(** X4.  In a manager that was never asked to import, no session holds
    more than 10 history entries, however many updates it has had and
    whatever else was called in between. *)
Theorem history_stays_bounded (calls : list call) (k : string) (c : context) :
  forallb (fun c => negb (is_import c)) calls = true ->
  contexts (run_calls new_manager calls) !! k = Some c ->
  (length (history c) <= 10)%nat.
Proof.
  intros Hcalls Hc.
  pose proof (run_calls_bounded calls new_manager Hcalls new_manager_bounded k c Hc) as Hlen.
  by rewrite (proj1 (run_calls_frame calls new_manager)) in Hlen.
Qed.

Lemma history_stays_bounded_witness :
  length update_calls = 17%nat
  /\ exists c, contexts (run_calls new_manager update_calls) !! "s1" = Some c
               /\ (length (history c) <= 10)%nat.
Proof.
  split; [reflexivity|].
  destruct (contexts (run_calls new_manager update_calls) !! "s1") as [c|] eqn:Hc;
    [|by vm_compute in Hc].
  exists c. split; [reflexivity|].
  exact (history_stays_bounded update_calls "s1" c eq_refl Hc).
Defined.

(** *** Steps *)

Lemma steps_change_refl (c : context) : steps_change (Some c) c.
Proof. cbn. by split; [|split; [|left]]. Qed.

Lemma steps_change_insert (m : manager) (k0 k : string) (c0' c' : context) :
  <[k0:=c0']> (contexts m) !! k = Some c' ->
  steps_change (contexts m !! k0) c0' -> steps_change (contexts m !! k) c'.
Proof.
  destruct (decide (k0 = k)) as [<-|Hne].
  - rewrite lookup_insert_eq. by intros [= <-].
  - rewrite lookup_insert_ne by done. intros -> _. apply steps_change_refl.
Qed.

Lemma steps_change_update_found (m : manager) (now : Z) (k0 k : string) (c0 c' : context)
    (d : cvalue) (merge : bool) :
  contexts m !! k0 = Some c0 ->
  contexts (update_found m now k0 c0 d merge) !! k = Some c' ->
  steps_change (contexts m !! k) c'.
Proof.
  intros Hc0 Hc'. apply (steps_change_insert m k0 k _ c' Hc').
  rewrite Hc0. cbn. by split; [|split; [|left]].
Qed.

Lemma steps_change_createContext (m : manager) (now : Z) (rand : string)
    (cid : option string) (d : cvalue) (k : string) (c' : context) :
  contexts (fst (createContext m now rand cid d)) !! k = Some c' ->
  steps_change (contexts m !! k) c'.
Proof.
  unfold createContext. set (k0 := if falsy cid then _ else _).
  destruct (contexts m !! k0) as [c0|] eqn:Hc0; cbn [fst].
  - by apply steps_change_update_found.
  - cbn [contexts set_active set_contexts]. intros Hc'.
    apply (steps_change_insert m k0 k _ c' Hc'). by rewrite Hc0.
Qed.

Lemma steps_change_perform (m : manager) (call : call) (k : string) (c' : context) :
  is_import call = false ->
  contexts (perform m call) !! k = Some c' -> steps_change (contexts m !! k) c'.
Proof.
  intros Hcall.
  destruct call as [now rand cid d|now rand cid d merge|now cid n d|now k0|k0|]; [..|done];
    cbn [perform].
  - apply steps_change_createContext.
  - unfold updateContext.
    pose proof (steps_change_createContext m now rand cid d k c') as Hcreate.
    destruct (resolve m cid) as [k0|]; [|by destruct (createContext _ _ _ _ _)].
    destruct (contexts m !! k0) as [c0|] eqn:Hc0; [|by destruct (createContext _ _ _ _ _)].
    by apply steps_change_update_found.
  - unfold addStep.
    destruct (resolve m cid) as [k0|]; [|cbn [fst]; intros ->; apply steps_change_refl].
    destruct (contexts m !! k0) as [c0|] eqn:Hc0;
      [|cbn [fst]; intros ->; apply steps_change_refl].
    cbn [fst contexts set_contexts]. intros Hc'.
    apply (steps_change_insert m k0 k _ c' Hc'). rewrite Hc0. cbn.
    split; [done|]. split; [done|]. right. by eexists.
  - unfold deleteContext. destruct (contexts m !! k0) as [c0|];
      [|cbn [fst]; intros ->; apply steps_change_refl].
    cbn [fst contexts]. intros Hc'. apply lookup_delete_Some in Hc' as [_ ->].
    apply steps_change_refl.
  - unfold setActiveContext.
    destruct (contexts m !! k0); cbn [fst set_active contexts]; intros ->;
      apply steps_change_refl.
Qed.

Lemma steps_indexed_change (before : option context) (c' : context) :
  steps_change before c' -> (forall c, before = Some c -> steps_indexed c) ->
  steps_indexed c'.
Proof.
  destruct before as [c|]; cbn.
  - intros (_ & _ & [Hsame | (s & Hs & Hindex)]) Hc i s'.
    + rewrite Hsame. by apply Hc.
    + rewrite Hs. intros Hi. apply lookup_app_Some in Hi as [Hi | [Hlen Hi]].
      * by apply (Hc c eq_refl).
      * destruct (i - length (steps c))%nat as [|j] eqn:Hj; [|done].
        injection Hi as <-. rewrite Hindex. do 2 f_equal. lia.
  - intros Hnil _ i s. by rewrite Hnil.
Qed.

(** X5.  In a manager that was never asked to import, the steps of every
    session are numbered 0, 1, 2, ... in the order they were added: the
    [index] of a step is its position. *)
Theorem steps_are_numbered (calls : list call) (k : string) (c : context) (i : nat)
    (s : props) :
  forallb (fun c => negb (is_import c)) calls = true ->
  contexts (run_calls new_manager calls) !! k = Some c ->
  steps c !! i = Some s ->
  lookup_prop "index" s = Some (VNum (Z.of_nat i)).
Proof.
  intros Hcalls Hc. revert i s. change (steps_indexed c). revert k c Hc.
  assert (forall m, (forall k c, contexts m !! k = Some c -> steps_indexed c) ->
            forall k c, contexts (run_calls m calls) !! k = Some c -> steps_indexed c) as Hrun.
  { induction calls as [|call calls IH]; intros m Hm; [done|].
    cbn [forallb] in Hcalls. apply andb_true_iff in Hcalls as [Hcall Hcalls].
    apply (IH Hcalls). intros k c Hc.
    apply (steps_indexed_change (contexts m !! k)).
    - apply (steps_change_perform m call); [by apply negb_true_iff | done].
    - intros c0. apply Hm. }
  apply Hrun. intros k c. cbn. by rewrite lookup_empty.
Qed.

Lemma steps_are_numbered_witness :
  exists c, contexts (run_calls new_manager step_calls) !! "ctx_1747785600000_r4nd0m1" = Some c
    /\ map (lookup_prop "name") (steps c)
       = [Some (VStr "plan"); Some (VStr "build"); Some (VStr "check")]
    /\ forall i s, steps c !! i = Some s -> lookup_prop "index" s = Some (VNum (Z.of_nat i)).
Proof.
  destruct (contexts (run_calls new_manager step_calls) !! "ctx_1747785600000_r4nd0m1")
    as [c|] eqn:Hc; [|by vm_compute in Hc].
  exists c. split; [reflexivity|]. split.
  - vm_compute in Hc. injection Hc as <-. reflexivity.
  - intros i s. exact (steps_are_numbered step_calls _ c i s eq_refl Hc).
Defined.

(** X6.  A call other than an import never removes or reorders the steps of
    a session it leaves in place: the steps before are the first steps
    after, and the id and the creation time stay. *)
Theorem steps_only_grow (m : manager) (call : call) (k : string) (c c' : context) :
  is_import call = false ->
  contexts m !! k = Some c -> contexts (perform m call) !! k = Some c' ->
  steps c `prefix_of` steps c' /\ created c' = created c /\ id c' = id c.
Proof.
  intros Hcall Hc Hc'. pose proof (steps_change_perform m call k c' Hcall Hc') as Hchange.
  rewrite Hc in Hchange. destruct Hchange as (Hid & Hcreated & [-> | (s & -> & _)]).
  - done.
  - split; [by apply prefix_app_r | done].
Qed.

Lemma steps_only_grow_witness :
  let m := run_calls new_manager (take 3 step_calls) in
  let call := call_addStep 1747785604000 None (VStr "check") VNull in
  exists c c', contexts m !! "ctx_1747785600000_r4nd0m1" = Some c
    /\ contexts (perform m call) !! "ctx_1747785600000_r4nd0m1" = Some c'
    /\ length (steps c) = 2%nat /\ length (steps c') = 3%nat
    /\ steps c `prefix_of` steps c'.
Proof.
  intros m call.
  destruct (contexts m !! "ctx_1747785600000_r4nd0m1") as [c|] eqn:Hc; [|by vm_compute in Hc].
  destruct (contexts (perform m call) !! "ctx_1747785600000_r4nd0m1") as [c'|] eqn:Hc';
    [|by vm_compute in Hc'].
  exists c, c'. split; [reflexivity|]. split; [reflexivity|].
  destruct (steps_only_grow m call _ c c' eq_refl Hc Hc') as (Hprefix & _).
  split; [|split; [|exact Hprefix]].
  - vm_compute in Hc. injection Hc as <-. reflexivity.
  - vm_compute in Hc'. injection Hc' as <-. reflexivity.
Defined.

Lemma resolve_active (m m' : manager) (cid : option string) :
  activeContext m' = activeContext m -> resolve m' cid = resolve m cid.
Proof. intros Ha. unfold resolve. by rewrite Ha. Qed.

(** X7.  [addStep] on a session that exists adds a step numbered with the
    count of the steps before it, stamped with the time of the call and
    holding the data given, or an empty object when the data is left out;
    the step is then the last of [getSteps], after the steps there were, and
    what [getLastStep] returns.  The call returns the step; when the name
    cannot be converted to a string for the log (an object with a
    [toString] property of its own), it throws a TypeError instead, with
    the step added all the same. *)
Theorem added_step_is_last (m : manager) (now : Z) (cid : option string)
    (n d : cvalue) (c : context) :
  getContext m cid = Some c ->
  let step : props :=
    [("name", n); ("timestamp", VHost (Some now));
     ("data", match d with VUndefined => VObj [] | _ => d end);
     ("index", VNum (Z.of_nat (length (steps c))))] in
  let m' := fst (addStep m now cid n d) in
  snd (addStep m now cid n d)
  = (if prints n then Returns (VObj step)
     else Throws "Cannot convert object to primitive value")
  /\ getSteps m' cid = (steps c ++ [step])%list
  /\ getLastStep m' cid = VObj step.
Proof.
  intros Hc step m'. unfold getContext in Hc.
  destruct (resolve m cid) as [k|] eqn:Hk; [|done]. cbn in Hc.
  assert (addStep m now cid n d =
          (set_contexts m (<[k := {| id := id c; created := created c; updated := Some now;
                                     data := data c; history := history c;
                                     steps := (steps c ++ [step])%list |}]> (contexts m)),
           if prints n then Returns (VObj step)
           else Throws "Cannot convert object to primitive value")) as Hadd.
  { unfold addStep. by rewrite Hk, Hc. }
  assert (getSteps m' cid = (steps c ++ [step])%list) as Hsteps.
  { unfold m', getSteps, getContext. rewrite Hadd. cbn [fst].
    rewrite (resolve_active m) by done. rewrite Hk. cbn [mbind option_bind contexts set_contexts].
    by rewrite lookup_insert_eq. }
  split; [by rewrite Hadd|]. split; [done|].
  unfold getLastStep. by rewrite Hsteps, last_snoc.
Qed.

Lemma added_step_is_last_witness :
  let m := run_calls new_manager (take 4 step_calls) in
  snd (addStep m 1747785604000 None (VStr "check") VUndefined)
  = Returns (VObj [("name", VStr "check"); ("timestamp", VHost (Some 1747785604000));
                   ("data", VObj []); ("index", VNum 2)])
  /\ getLastStep (fst (addStep m 1747785604000 None (VStr "check") VUndefined)) None
     = VObj [("name", VStr "check"); ("timestamp", VHost (Some 1747785604000));
             ("data", VObj []); ("index", VNum 2)].
Proof.
  intros m.
  destruct (getContext m None) as [c|] eqn:Hc; [|by vm_compute in Hc].
  destruct (added_step_is_last m 1747785604000 None (VStr "check") VUndefined c Hc)
    as (Hreturned & _ & Hlast).
  rewrite Hreturned, Hlast. vm_compute in Hc. injection Hc as <-. split; reflexivity.
Defined.

(** For an id the manager does not hold, [addStep] returns null and
    changes nothing, while [updateContext] creates the session, whatever
    [merge] is: with a copy of the data, no history, no steps, both dates
    at the time of the call, and the active pointer on it. *)
Theorem unknown_id_addStep_refuses_update_creates (m : manager) (now : Z)
    (rand k : string) (d n sd : cvalue) (merge : bool) :
  k <> "" -> contexts m !! k = None ->
  addStep m now (Some k) n sd = (m, Returns VNull)
  /\ snd (updateContext m now rand (Some k) d merge) = Some k
  /\ contexts (fst (updateContext m now rand (Some k) d merge)) !! k
     = Some {| id := k; created := Some now; updated := Some now;
               data := spread [] d; history := []; steps := [] |}
  /\ activeContext (fst (updateContext m now rand (Some k) d merge)) = Some k.
Proof.
  intros Hk Hnone. unfold addStep, updateContext. rewrite resolve_id, Hnone by done.
  split; [done|]. unfold createContext.
  change (falsy (Some k)) with (String.eqb k ""). rewrite (proj2 (eqb_false_iff k "") Hk).
  cbn [default from_option Datatypes.id]. rewrite Hnone.
  cbn [fst snd contexts activeContext set_active set_contexts].
  by rewrite lookup_insert_eq.
Qed.

Lemma unknown_id_addStep_refuses_update_creates_witness :
  addStep new_manager 5 (Some "s9") (VStr "plan") (VObj []) = (new_manager, Returns VNull)
  /\ activeContext (fst (updateContext new_manager 5 "r4nd0m1" (Some "s9")
                          (VObj [("n", VNum 1)]) false)) = Some "s9".
Proof.
  destruct (unknown_id_addStep_refuses_update_creates new_manager 5 "r4nd0m1" "s9"
              (VObj [("n", VNum 1)]) (VStr "plan") (VObj []) false)
    as (Hadd & _ & _ & Hactive); [discriminate | reflexivity |].
  split; [exact Hadd | exact Hactive].
Defined.

(** X8.  [createContext] with an id that exists does what
    [updateContext(id, data, true)] does and returns the id: the session is
    not replaced, and the active pointer stays where it was. *)
Theorem createContext_existing_updates (m : manager) (now : Z) (rand k : string)
    (d : cvalue) (c : context) :
  k <> "" -> contexts m !! k = Some c ->
  createContext m now rand (Some k) d
    = (fst (updateContext m now rand (Some k) d true), k)
  /\ activeContext (fst (createContext m now rand (Some k) d)) = activeContext m
  /\ exists c', contexts (fst (createContext m now rand (Some k) d)) !! k = Some c'
                /\ created c' = created c /\ steps c' = steps c
                /\ data c' = spread (spread [] (VObj (data c))) d.
Proof.
  intros Hk Hc. unfold updateContext, createContext. rewrite resolve_id by done.
  change (falsy (Some k)) with (String.eqb k ""). rewrite (proj2 (eqb_false_iff k "") Hk).
  cbn [default from_option Datatypes.id]. rewrite Hc. cbn [fst].
  split; [done|]. split; [done|]. unfold update_found. cbn [contexts set_contexts].
  rewrite lookup_insert_eq. by eexists.
Qed.

Lemma createContext_existing_updates_witness :
  exists c', contexts (fst (createContext sample_manager 1747785700000 "r4nd0m2" (Some "s1")
                              (VObj [("again", VBool true)]))) !! "s1" = Some c'
    /\ length (steps c') = 2%nat
    /\ created c' = Some 1747785600000
    /\ data c' = [("done", VBool true); ("again", VBool true)].
Proof.
  destruct (contexts sample_manager !! "s1") as [c|] eqn:Hc; [|by vm_compute in Hc].
  destruct (createContext_existing_updates sample_manager 1747785700000 "r4nd0m2" "s1"
              (VObj [("again", VBool true)]) c) as (_ & _ & c' & Hc' & Hcr & Hsteps & Hdata);
    [discriminate | exact Hc |].
  exists c'. split; [exact Hc'|]. rewrite Hsteps, Hcr, Hdata.
  vm_compute in Hc. injection Hc as <-. repeat split.
Defined.

(** *** Updates, deletions and imports *)

Lemma last_push_bounded {A} (max : nat) (l : list A) (x : A) :
  (0 < max)%nat -> last (push_bounded max l x) = Some x.
Proof.
  intros Hmax. unfold push_bounded. rewrite length_app. simpl.
  destruct (Nat.ltb_spec max (length l + 1)); [|apply last_snoc].
  destruct l as [|y l]; [simpl in *; lia|]. simpl. apply last_snoc.
Qed.

(** X9.  [updateContext] on a session that exists, with an object as the
    new data: with [merge] every key of the new data takes its new value and
    every other key keeps the old one; without, the data is the new data
    alone.  Either way the data as it was is the newest history entry,
    stamped with the time of the call, [updated] is that time, and the
    creation time and the steps are untouched. *)
Theorem update_merges_or_replaces (m : manager) (now : Z) (rand k : string)
    (d : props) (merge : bool) (c : context) :
  k <> "" -> contexts m !! k = Some c ->
  wf_props (data c) = true -> wf_props d = true -> (0 < maxHistoryLength m)%nat ->
  exists c',
    contexts (fst (updateContext m now rand (Some k) (VObj d) merge)) !! k = Some c'
    /\ (forall x, lookup_prop x (data c') =
                  if merge then match lookup_prop x d with
                                | Some v => Some v
                                | None => lookup_prop x (data c)
                                end
                  else lookup_prop x d)
    /\ (merge = false -> data c' = d)
    /\ last (history c')
       = Some [("timestamp", VHost (Some now)); ("data", VObj (data c))]
    /\ updated c' = Some now /\ created c' = created c /\ steps c' = steps c.
Proof.
  intros Hk Hc Hwf Hd Hmax. rewrite (updateContext_found m now rand k c) by done.
  unfold update_found. cbn [fst contexts set_contexts]. rewrite lookup_insert_eq.
  eexists. split; [done|]. cbn [data history updated created steps].
  rewrite (spread_copy (data c)) by done. split; [|split; [|split]].
  - intros x. destruct merge; [by apply lookup_spread|]. by rewrite spread_copy.
  - intros ->. by apply spread_copy.
  - by apply last_push_bounded.
  - done.
Qed.

Lemma update_merges_or_replaces_witness :
  exists c', contexts (fst (updateContext sample_manager 1747785700000 "r4nd0m2" (Some "s1")
                              (VObj [("n", VNum 1); ("done", VBool false)]) true)) !! "s1"
             = Some c'
    /\ lookup_prop "done" (data c') = Some (VBool false)
    /\ lookup_prop "n" (data c') = Some (VNum 1)
    /\ last (history c') = Some [("timestamp", VHost (Some 1747785700000));
                                 ("data", VObj [("done", VBool true)])].
Proof.
  destruct (contexts sample_manager !! "s1") as [c|] eqn:Hc; [|by vm_compute in Hc].
  destruct (update_merges_or_replaces sample_manager 1747785700000 "r4nd0m2" "s1"
              [("n", VNum 1); ("done", VBool false)] true c)
    as (c' & Hc' & Hdata & _ & Hlast & _).
  - discriminate.
  - exact Hc.
  - vm_compute in Hc. injection Hc as <-. reflexivity.
  - reflexivity.
  - vm_compute. lia.
  - exists c'. split; [exact Hc'|]. rewrite (Hdata "done"), (Hdata "n"), Hlast.
    vm_compute in Hc. injection Hc as <-. repeat split.
Defined.

(** X10.  [deleteContext] on a session that exists returns true; the id is
    then unknown to [getContext] and [exportContext], the other sessions
    are as before, the session is the newest entry of the history of deleted
    sessions, stamped with the time of the call, and an active pointer that
    named it is cleared.  Deleting the id again returns false and changes
    nothing. *)
Theorem deleted_session_is_gone (m : manager) (now now' : Z) (k : string) (c : context) :
  k <> "" -> contexts m !! k = Some c -> (0 < maxHistoryLength m)%nat ->
  let m' := fst (deleteContext m now k) in
  snd (deleteContext m now k) = true
  /\ getContext m' (Some k) = None
  /\ exportContext m' (Some k) = Returns VNull
  /\ (forall k', k' <> k -> contexts m' !! k' = contexts m !! k')
  /\ last (contextHistory m') = Some {| t_id := k; deleted := Some now; t_data := c |}
  /\ (activeContext m = Some k -> activeContext m' = None)
  /\ (activeContext m <> Some k -> activeContext m' = activeContext m)
  /\ deleteContext m' now' k = (m', false).
Proof.
  intros Hk Hc Hmax m'.
  assert (deleteContext m now k =
          ({| contexts := delete k (contexts m);
              activeContext := if bool_decide (activeContext m = Some k) then None
                               else activeContext m;
              contextHistory := push_bounded (maxHistoryLength m) (contextHistory m)
                                  {| t_id := k; deleted := Some now; t_data := c |};
              maxHistoryLength := maxHistoryLength m |}, true)) as Hdel.
  { unfold deleteContext. by rewrite Hc. }
  assert (contexts m' !! k = None) as Hgone.
  { unfold m'. rewrite Hdel. cbn [fst contexts]. apply lookup_delete_eq. }
  assert (getContext m' (Some k) = None) as Hget by (by rewrite getContext_id).
  split; [by rewrite Hdel|]. split; [done|].
  split; [unfold exportContext; by rewrite Hget|].
  unfold m'. rewrite Hdel. cbn [fst contexts contextHistory activeContext].
  split; [intros k' Hk'; by apply lookup_delete_ne|].
  split; [by apply last_push_bounded|].
  split; [intros Ha; by rewrite bool_decide_eq_true_2|].
  split; [intros Ha; by rewrite bool_decide_eq_false_2|].
  unfold deleteContext at 1. cbn [contexts]. by rewrite lookup_delete_eq.
Qed.

Lemma deleted_session_is_gone_witness :
  let m' := fst (deleteContext sample_manager 1747785700000 "s1") in
  exportContext m' (Some "s1") = Returns VNull
  /\ activeContext m' = None
  /\ deleteContext m' 1747785800000 "s1" = (m', false).
Proof.
  intros m'.
  destruct (contexts sample_manager !! "s1") as [c|] eqn:Hc; [|by vm_compute in Hc].
  destruct (deleted_session_is_gone sample_manager 1747785700000 1747785800000 "s1" c)
    as (_ & _ & Hexport & _ & _ & Hactive & _ & Hagain);
    [discriminate | exact Hc | vm_compute; lia |].
  split; [exact Hexport|]. split; [apply Hactive; reflexivity | exact Hagain].
Defined.

(** [exportContext] of an id the manager does not hold returns null;
    and [importContext] given null, or anything else without a truthy [id],
    returns null and leaves the manager as it was. *)
Theorem nothing_exported_nothing_imported (m m' : manager) (now : Z) (rand k : string)
    (ser : cvalue) :
  k <> "" -> contexts m !! k = None -> no_id ser = true ->
  exportContext m (Some k) = Returns VNull
  /\ importContext m' now rand VNull = (m', Returns VNull)
  /\ importContext m' now rand ser = (m', Returns VNull).
Proof.
  intros Hk Hnone Hser. split; [unfold exportContext; by rewrite getContext_id, Hnone|].
  split; [done|]. unfold importContext.
  destruct ser as [ | | | | | | |o]; try done. cbn [no_id] in Hser.
  destruct (lookup_prop "id" o) as [[ | | | |s| | | ]|]; try done.
  cbn [default from_option Datatypes.id truthy] in Hser.
  apply negb_true_iff, negb_false_iff in Hser. by rewrite Hser.
Qed.

Lemma nothing_exported_nothing_imported_witness :
  exportContext sample_manager (Some "s2") = Returns VNull
  /\ importContext sample_manager 1747785700000 "r4nd0m2"
       (VObj [("id", VStr ""); ("data", VObj [("n", VNum 1)])])
     = (sample_manager, Returns VNull).
Proof.
  destruct (nothing_exported_nothing_imported sample_manager sample_manager 1747785700000
              "r4nd0m2" "s2" (VObj [("id", VStr ""); ("data", VObj [("n", VNum 1)])]))
    as (Hexport & _ & Himport); [discriminate | reflexivity | reflexivity |].
  split; [exact Hexport | exact Himport].
Defined.

(** The date of a serialized field: a field that prints gives one, the
    one the session has when the field is falsy; a field that does not
    print makes [new Date] throw. *)
Lemma date_field_prints (v : cvalue) (d : Date) :
  prints v = true ->
  exists d', (if truthy v then new_Date v else Returns d) = Returns d'.
Proof.
  intros Hv. destruct (truthy v); [|by eexists].
  destruct v as [ | |[]| | |[t|]|l|o]; cbn [new_Date]; try by eexists.
  - rewrite Hv. by eexists.
  - rewrite Hv. by eexists.
Qed.

Lemma date_field_throws (v : cvalue) (d : Date) :
  prints v = false ->
  (if truthy v then new_Date v else Returns d)
  = Throws "Cannot convert object to primitive value".
Proof.
  intros Hv. destruct v as [ | |[]| | |[t|]|l|o]; try done.
  - cbn [truthy new_Date]. by rewrite Hv.
  - cbn [truthy new_Date]. by rewrite Hv.
Qed.

(** X11.  [importContext] is not all or nothing.  Given a serialized
    context whose [steps] is null, for an id the manager does not hold, it
    throws a TypeError: the one of reading [map] of null when its
    [created] and [updated] fields print, the one of [new Date] turning an
    object down when one of them does not.  By then it has created the
    session, with the serialized data and no steps or history, and made it
    the active one. *)
Theorem failed_import_leaves_session (m : manager) (now : Z) (rand k : string)
    (o : props) :
  lookup_prop "id" o = Some (VStr k) -> k <> "" ->
  lookup_prop "steps" o = Some VNull -> contexts m !! k = None ->
  let r := importContext m now rand (VObj o) in
  let dates_print :=
    prints (default VUndefined (lookup_prop "created" o))
    && prints (default VUndefined (lookup_prop "updated" o)) in
  snd r = Throws (if dates_print then "Cannot read properties of null (reading 'map')"
                  else "Cannot convert object to primitive value")
  /\ activeContext (fst r) = Some k
  /\ exists c, contexts (fst r) !! k = Some c
               /\ steps c = [] /\ history c = []
               /\ data c = spread [] (or_default (default VUndefined (lookup_prop "data" o))
                                        (VObj [])).
Proof.
  intros Hid Hk Hsteps Hnone r dates_print. unfold dates_print, r, importContext.
  rewrite Hid, Hsteps.
  rewrite (proj2 (eqb_false_iff k "") Hk). unfold createContext.
  change (falsy (Some k)) with (String.eqb k ""). rewrite (proj2 (eqb_false_iff k "") Hk).
  cbn [default from_option Datatypes.id]. rewrite Hnone.
  cbn [contexts set_active set_contexts or_default array_map]. rewrite lookup_insert_eq.
  cbn [created updated].
  destruct (prints (from_option Datatypes.id VUndefined (lookup_prop "created" o)))
    eqn:Hcreated; cbn [andb].
  - destruct (date_field_prints _ (Some now) Hcreated) as [cr ->].
    destruct (prints (from_option Datatypes.id VUndefined (lookup_prop "updated" o)))
      eqn:Hupdated.
    + destruct (date_field_prints _ (Some now) Hupdated) as [up ->].
      cbn [fst snd contexts activeContext set_contexts]. split; [done|]. split; [done|].
      rewrite lookup_insert_eq. by eexists.
    + rewrite (date_field_throws _ (Some now) Hupdated).
      cbn [fst snd contexts activeContext set_contexts]. split; [done|]. split; [done|].
      rewrite lookup_insert_eq. by eexists.
  - rewrite (date_field_throws _ (Some now) Hcreated).
    cbn [fst snd contexts activeContext set_active set_contexts].
    split; [done|]. split; [done|]. rewrite lookup_insert_eq. by eexists.
Qed.

Lemma failed_import_leaves_session_witness :
  let r := importContext new_manager 1747785700000 "r4nd0m2"
             (VObj [("id", VStr "s7"); ("data", VObj [("n", VNum 1)]); ("steps", VNull)]) in
  snd r = Throws "Cannot read properties of null (reading 'map')"
  /\ exists c, getContext (fst r) None = Some c /\ data c = [("n", VNum 1)].
Proof.
  intros r.
  destruct (failed_import_leaves_session new_manager 1747785700000 "r4nd0m2" "s7"
              [("id", VStr "s7"); ("data", VObj [("n", VNum 1)]); ("steps", VNull)])
    as (Hthrows & _ & c & Hc & _ & _ & Hdata);
    [reflexivity | discriminate | reflexivity | reflexivity |].
  split; [exact Hthrows|]. exists c. split; [|exact Hdata].
  unfold getContext. fold r. rewrite <- Hc. reflexivity.
Defined.

(** X12.  Exporting a session and importing what was exported into the
    same manager leaves the manager exactly as it was: the session, the
    other sessions, the active pointer and the history of deleted
    sessions.  The update that [createContext] makes on the way, with its
    history entry and its new [updated] time, is overwritten by the
    import. *)
Theorem import_of_export_restores (calls : list call) (now : Z) (rand k : string)
    (ser : cvalue) :
  forallb clock_ok calls = true ->
  let m := run_calls new_manager calls in
  is_Some (contexts m !! k) -> exportContext m (Some k) = Returns ser ->
  importContext m now rand ser = (m, Returns (VStr k)).
Proof.
  intros Hclock m [c Hc] Hser.
  pose proof (run_calls_rep calls new_manager Hclock (new_manager_with date_ok) k c Hc) as Hrep.
  pose proof (exported_context_wf m k c ser Hrep Hc Hser) as Hwf.
  unfold wf_context, context_with in Hwf. repeat (apply andb_true_iff in Hwf as [Hwf ?]).
  apply String.eqb_eq in Hwf.
  assert (k <> "") as Hk by (by apply eqb_false_iff, negb_true_iff).
  destruct (valid_date_Some (created c)) as (tc & Hcr & Htc); [done|].
  destruct (valid_date_Some (updated c)) as (tu & Hup & Htu); [done|].
  destruct (items_roundtrip (steps c)) as (ss & Hss & Hss'); [done|].
  destruct (items_roundtrip (history c)) as (hs & Hhs & Hhs'); [done|].
  unfold exportContext in Hser. rewrite getContext_id, Hc in Hser by done.
  rewrite Hcr, Hup, Hss, Hhs in Hser. cbn [date_iso toISOString bind] in Hser.
  injection Hser as <-.
  assert (truthy (VStr (iso_of_time tc) : cvalue) = true) as Htrc
    by (cbn [truthy]; by rewrite iso_of_time_nonempty).
  assert (truthy (VStr (iso_of_time tu) : cvalue) = true) as Htru
    by (cbn [truthy]; by rewrite iso_of_time_nonempty).
  unfold importContext.
  cbn [lookup_prop List.find fst snd String.eqb Ascii.eqb Bool.eqb fmap option_fmap
       option_map default from_option Datatypes.id or_default].
  rewrite Hwf. rewrite (proj2 (eqb_false_iff k "") Hk).
  unfold createContext. change (falsy (Some k)) with (String.eqb k "").
  rewrite (proj2 (eqb_false_iff k "") Hk). cbn [default from_option Datatypes.id].
  rewrite Hc. unfold update_found. cbn [contexts set_contexts]. rewrite lookup_insert_eq.
  rewrite Htrc, Htru. cbn [new_Date array_map]. rewrite !parse_iso_of_time by done.
  rewrite Hss'. cbn [array_map]. rewrite Hhs'.
  cbn [set_history set_steps set_meta id created updated data history steps contexts
       set_contexts].
  rewrite (spread_copy (data c)), (spread_self (data c)) by done.
  unfold set_history, set_steps, set_meta, set_contexts.
  cbn [id created updated data history steps contexts activeContext contextHistory
       maxHistoryLength].
  rewrite insert_insert_eq.
  replace {| id := id c; created := Some tc; updated := Some tu; data := data c;
             history := history c; steps := steps c |} with c
    by (destruct c; cbn in *; congruence).
  rewrite insert_id by done. by destruct m.
Qed.

Lemma import_of_export_restores_witness :
  exists ser, exportContext sample_manager (Some "s1") = Returns ser
    /\ importContext sample_manager 1747785700000 "r4nd0m2" ser
       = (sample_manager, Returns (VStr "s1")).
Proof.
  destruct (exportContext sample_manager (Some "s1")) as [ser|] eqn:Hser;
    [|by vm_compute in Hser].
  exists ser. split; [reflexivity|].
  apply (import_of_export_restores sample_calls 1747785700000 "r4nd0m2" "s1" ser);
    [reflexivity | vm_compute; by eexists | exact Hser].
Defined.

End ContextQueriesFacts.

(** ** The client: settling requests, counters and connection handling *)
Module ClientMoreFacts.
Import JS Wire Client Resources Destructuring ClientMethods.
Import JSFacts WireFacts ClientFacts Scenarios.

Lemma map_has_false {V} (k : string) (m : list (string * V)) :
  map_has k m = false <-> map_get k m = None.
Proof.
  unfold map_has. rewrite bool_decide_eq_false. split.
  - intros Hn. destruct (map_get k m); [|done]. destruct Hn. by eexists.
  - intros ->. by intros [? ?].
Qed.

(** *** A request is settled once *)

(** X13.  A request is settled at most once.  While it is pending, its
    response (matched by id) clears its timeout; the request is then
    resolved with the response when the response has no [error], or rejected
    with the error text when [error] is a text or an object whose [message]
    is a text, and in general settled whenever the Error to reject it with
    can be built; it is removed from the pending map, and its timeout
    callback does nothing afterwards.  When the Error cannot be built (the
    [error] or its [message] holds an object with a [toString] property),
    the handler emits an [error] event instead: the request stays in the
    map, unsettled, and its timeout is cleared.  A timeout that fires first
    rejects the request with [Command timed out after <ms>ms] and removes
    it, after which its response, carrying its id and no command name,
    settles nothing and is only emitted as a [message] event.  The timeout
    [ms] is a number JavaScript holds exactly. *)
Theorem request_settles_once (c : client) (k uuid : string) (ms : Z) (p : pending)
    (o : list (string * json)) :
  k <> "" -> map_get k (pendingCommands c) = Some p ->
  lookup_prop "id" o = Some (VStr k) -> lookup_prop "command" o = None ->
  truthy (default VUndefined (lookup_prop "message" o)) = false ->
  Z.abs ms < 2 ^ 53 ->
  let err := default VUndefined (lookup_prop "error" o) in
  let answered := _handleMessage c uuid (Text (VObj o)) in
  let expired := command_timed_out c k ms in
  (truthy err = false -> snd answered = [ClearTimeout (timeoutId p); Resolve k (VObj o)])
  /\ (forall text, text <> "" ->
        err = VStr text
        \/ (exists e, err = VObj e /\ lookup_prop "message" e = Some (VStr text)) ->
        snd answered = [ClearTimeout (timeoutId p); Reject k (Str text)])
  /\ (forall outcome, settlement k (VObj o) err = Returns outcome ->
        snd answered = [ClearTimeout (timeoutId p); outcome]
        /\ map_has k (pendingCommands (fst answered)) = false
        /\ command_timed_out (fst answered) k ms = (fst answered, []))
  /\ (forall m, settlement k (VObj o) err = Throws m ->
        answered
        = (c, [ClearTimeout (timeoutId p);
               Emit (error (Str ("Failed to parse server message: " +:+ m)))]))
  /\ snd expired = [Reject k (Str ("Command timed out after " +:+ pretty ms +:+ "ms"))]
  /\ map_has k (pendingCommands (fst expired)) = false
  /\ _handleMessage (fst expired) uuid (Text (VObj o))
     = (fst expired, [Emit (message (VObj o))]).
Proof.
  intros Hk Hp Hid Hcmd Hmsg _ err answered expired.
  assert (String.eqb k "" = false) as Hk' by (by apply eqb_false_iff).
  assert (answered
          = match settlement k (VObj o) err with
            | Returns outcome =>
                (set_pending c (map_delete k (pendingCommands c)),
                 [ClearTimeout (timeoutId p); outcome])
            | Throws m =>
                (c, [ClearTimeout (timeoutId p);
                     Emit (error (Str ("Failed to parse server message: " +:+ m)))])
            end) as Hanswered.
  { unfold answered. rewrite handleMessage_response by done. rewrite Hid.
    cbn [default from_option id truthy]. rewrite Hk'. cbn [negb pending_of_id].
    by rewrite Hp. }
  assert (expired = (set_pending c (map_delete k (pendingCommands c)),
                     [Reject k (Str ("Command timed out after " +:+ pretty ms +:+ "ms"))]))
    as Hexpired.
  { unfold expired, command_timed_out.
    by rewrite (proj2 (map_has_get k (pendingCommands c))) by (by eexists). }
  rewrite Hanswered, Hexpired. cbn [fst snd pendingCommands set_pending].
  split; [intros Herr; by rewrite settlement_resolves|].
  split.
  { intros text Htext [->|(e & -> & He)].
    - by rewrite settlement_text.
    - by rewrite (settlement_structured k (VObj o) e text). }
  split.
  { intros outcome ->. cbn [fst snd pendingCommands set_pending].
    split; [done|]. split; [apply map_has_delete|].
    unfold command_timed_out; cbn [pendingCommands set_pending]. by rewrite map_has_delete. }
  split; [by intros m ->|].
  split; [done|]. split; [apply map_has_delete|].
  rewrite handleMessage_response by done. rewrite Hid, Hcmd.
  cbn [default from_option id truthy]. rewrite Hk'.
  cbn [negb pending_of_id pendingCommands set_pending]. by rewrite map_get_delete.
Qed.

Lemma request_settles_once_witness :
  let response := [("id", VStr "req-1"); ("success", VBool true)] in
  let answered := _handleMessage busy_client "ctx" (Text (VObj response)) in
  let expired := command_timed_out busy_client "req-1" 30000 in
  snd answered = [ClearTimeout 1%nat; Resolve "req-1" (VObj response)]
  /\ command_timed_out (fst answered) "req-1" 30000 = (fst answered, [])
  /\ snd expired = [Reject "req-1" (Str "Command timed out after 30000ms")]
  /\ snd (_handleMessage (fst expired) "ctx" (Text (VObj response)))
     = [Emit (message (VObj response))].
Proof.
  intros response answered expired.
  destruct (request_settles_once busy_client "req-1" "ctx" 30000
              {| command := "generate-tasks"; params := VObj []; timeoutId := 1;
                 sentAt := 1000 |} response)
    as (Hresolve & _ & Hsettle & _ & Hreject & _ & Hemit);
    [discriminate | reflexivity | reflexivity | reflexivity | reflexivity | reflexivity |].
  split; [exact (Hresolve eq_refl)|].
  split; [exact (proj2 (proj2 (Hsettle _ eq_refl)))|]. split; [exact Hreject|].
  fold expired in Hemit. by rewrite Hemit.
Defined.

(** *** What the events of a client's life leave alone *)

(** The fields of a client that only [sendCommand] and a welcome write. *)
Lemma handleMessage_counters (c : client) (uuid : string) (data : payload) :
  sequenceId (fst (_handleMessage c uuid data)) = sequenceId c
  /\ (contextId (fst (_handleMessage c uuid data)) = contextId c
      \/ contextId c = None /\ contextId (fst (_handleMessage c uuid data)) = Some uuid).
Proof.
  destruct (handleMessage_cases c uuid data)
    as [[r ->]|[(k & p & o & _ & -> & _)|[(k & p & m & _ & ->)|[[r ->]|[m ->]]]]];
    try (by split; [|left]).
  destruct (contextId c) eqn:Hctx; cbn [fst]; [by rewrite Hctx; split; [|left]|].
  split; [done|]. by right.
Qed.

Lemma step_counters (c : client) (o : op) :
  sequenceId (step c o)
  = sequenceId c + (match o with op_sendCommand _ _ _ _ _ _ => 1 | _ => 0 end)
  /\ (forall x, contextId c = Some x -> contextId (step c o) = Some x).
Proof.
  destruct o as [k timer now cmd prm t|uuid data|k ms|msg|code reason|ready reason|sock
                 |outcome|uri outcome]; cbn [step].
  - done.
  - destruct (handleMessage_counters c uuid data) as [-> Hctx]. split; [lia|].
    intros x Hx. destruct Hctx as [-> | [Hnone _]]; congruence.
  - unfold command_timed_out. destruct (map_has _ _); split; cbn; (lia || done).
  - unfold _handleError, _attemptReconnect.
    destruct (intentionalClose c); [split; cbn; (lia || done)|].
    destruct (_ <=? _); split; cbn; (lia || done).
  - unfold _handleClose, _attemptReconnect. cbn [intentionalClose set_connection].
    destruct (intentionalClose c); [split; cbn; (lia || done)|].
    cbn [maxReconnectAttempts reconnectAttempts set_connection].
    destruct (_ <=? _); split; cbn; (lia || done).
  - unfold disconnect. destruct (negb _ || negb _); [split; cbn; (lia || done)|].
    rewrite reject_all_spec. split; cbn; (lia || done).
  - split; cbn; (lia || done).
  - unfold listResources_resume. destruct outcome as [response|]; [|split; cbn; (lia || done)].
    destruct (get response "success") as [s|], (get response "resources") as [r|];
      try (split; cbn; (lia || done)).
    destruct r; try (split; cbn; (lia || done)).
    destruct (truthy s); split; cbn; (lia || done).
  - unfold getResource_resume. destruct outcome as [response|]; [|split; cbn; (lia || done)].
    destruct (get response "success") as [s|], (get response "resource") as [r|],
             (get response "error") as [e|]; try (split; cbn; (lia || done)).
    destruct (truthy s && truthy r); split; cbn; (lia || done).
Qed.

(** X14.  The sequence number counts the commands sent: whatever else
    happens to a client (responses, timeouts, errors, lost and restored
    connections, listings), [sequenceId] is its start value plus the number
    of commands [sendCommand] has sent, and the commands carry consecutive
    numbers: the frame of a command sent after the events [before] holds the
    id drawn for it and, as [sequence], the start value plus the number of
    commands sent in [before]. *)
Theorem sequence_counts_commands (c : client) (ops : list op) :
  let sent (ops : list op) :=
    Z.of_nat (length (List.filter (fun o => match o with
                                            | op_sendCommand _ _ _ _ _ _ => true
                                            | _ => false
                                            end) ops)) in
  sequenceId (run c ops) = sequenceId c + sent ops
  /\ forall before k timer now cmd prm t after,
       ops = (before ++ op_sendCommand k timer now cmd prm t :: after)%list ->
       exists ms frame,
         snd (sendCommand (run c before) k timer now cmd prm t)
         = [SetTimeout (command_timeout k ms) ms; WsSend (Text (VObj frame))]
         /\ lookup_prop "id" frame = Some (VStr k)
         /\ lookup_prop "sequence" frame = Some (VNum (sequenceId c + sent before)).
Proof.
  intros sent.
  assert (forall ops c, sequenceId (run c ops) = sequenceId c + sent ops) as Hcount.
  { clear c ops. unfold sent. intros ops.
    induction ops as [|o ops IH]; intros c; [cbn; lia|].
    cbn [run fold_left]. fold (run (step c o) ops). rewrite IH.
    rewrite (proj1 (step_counters c o)).
    destruct o; cbn [List.filter length]; lia. }
  split; [apply Hcount|].
  intros before k timer now cmd prm t after _. rewrite <- (Hcount before c).
  unfold sendCommand, JSON_stringify. cbn [snd jsonify].
  eexists. destruct prm, (contextId (run c before)); cbn [defaulted];
    (eexists; split; [reflexivity|]; split; reflexivity).
Qed.

Lemma sequence_counts_commands_witness :
  exists frame,
    snd (sendCommand (run connected_client
                        [op_sendCommand "req-1" 1%nat 1000 "list-tools" VUndefined None;
                         op_message "ctx" (Text (VObj [("id", VStr "req-1")]));
                         op_sendCommand "req-2" 2%nat 2000 "list-resources" VUndefined None])
           "req-3" 3%nat 3000 "list-tools" VUndefined None)
    = [SetTimeout (command_timeout "req-3" 30000) 30000; WsSend (Text (VObj frame))]
    /\ lookup_prop "sequence" frame = Some (VNum 2)
    /\ lookup_prop "params" frame = Some (VObj []).
Proof.
  destruct (sequence_counts_commands connected_client
              [op_sendCommand "req-1" 1%nat 1000 "list-tools" VUndefined None;
               op_message "ctx" (Text (VObj [("id", VStr "req-1")]));
               op_sendCommand "req-2" 2%nat 2000 "list-resources" VUndefined None;
               op_sendCommand "req-3" 3%nat 3000 "list-tools" VUndefined None]) as [_ Hframe].
  destruct (Hframe [op_sendCommand "req-1" 1%nat 1000 "list-tools" VUndefined None;
                    op_message "ctx" (Text (VObj [("id", VStr "req-1")]));
                    op_sendCommand "req-2" 2%nat 2000 "list-resources" VUndefined None]
              "req-3" 3%nat 3000 "list-tools" VUndefined None [] eq_refl)
    as (ms & frame & Hsent & _ & Hseq).
  exists frame. vm_compute in Hsent. inversion Hsent. subst ms frame.
  split; [reflexivity|]. split; [exact Hseq | reflexivity].
Defined.

(** X15.  The context id of a client is set once, by the first welcome
    message it receives, to the uuid drawn then; nothing that happens
    afterwards changes it, a later welcome included. *)
Theorem context_id_is_set_once (c : client) (uuid : string) (o : list (string * json))
    (s : string) (ops : list op) :
  contextId c = None ->
  lookup_prop "message" o = Some (VStr s) -> includes s "Welcome" = true ->
  let c1 := fst (_handleMessage c uuid (Text (VObj o))) in
  contextId c1 = Some uuid /\ contextId (run c1 ops) = Some uuid.
Proof.
  intros Hnone Hmsg Hs c1.
  assert (contextId c1 = Some uuid) as Hc1.
  { unfold c1, _handleMessage, _handleMessage_try. cbn [JSON_parse eval get]. rewrite Hmsg.
    cbn [default from_option id truthy message_includes_Welcome].
    assert (String.eqb s "" = false) as -> by (by destruct s).
    cbn [negb eval]. by rewrite Hs, Hnone. }
  split; [done|]. clearbody c1. revert c1 Hc1.
  induction ops as [|op ops IH]; intros c1 Hc1; [done|].
  apply IH. by apply (proj2 (step_counters c1 op)).
Qed.

Lemma context_id_is_set_once_witness :
  let hello := [("message", VStr "Welcome to Tascade AI MCP Server v0.3.1");
                ("timestamp", VStr "2025-05-21T00:00:00.000Z")] in
  contextId (run (fst (_handleMessage connected_client "ctx-1" (Text (VObj hello))))
               (op_message "ctx-2" (Text (VObj hello)) :: later_events))
  = Some "ctx-1".
Proof.
  intros hello.
  destruct (context_id_is_set_once connected_client "ctx-1" hello
              "Welcome to Tascade AI MCP Server v0.3.1"
              (op_message "ctx-2" (Text (VObj hello)) :: later_events))
    as [_ Hrun]; [reflexivity | reflexivity | reflexivity |].
  exact Hrun.
Defined.

(** *** What a message can do *)

(** X16.  A message whose [message] text contains [Welcome] is taken for
    the server's greeting whatever else it holds: it is emitted as a
    [welcome] event and settles nothing, even when its [id] is that of a
    pending request, which stays pending with its timer running. *)
Theorem welcome_text_shadows_response (c : client) (uuid : string)
    (o : list (string * json)) (s : string) :
  lookup_prop "message" o = Some (VStr s) -> includes s "Welcome" = true ->
  snd (_handleMessage c uuid (Text (VObj o))) = [Emit (welcome (VObj o))]
  /\ pendingCommands (fst (_handleMessage c uuid (Text (VObj o)))) = pendingCommands c.
Proof.
  intros Hmsg Hs. unfold _handleMessage, _handleMessage_try. cbn [JSON_parse eval get].
  rewrite Hmsg. cbn [default from_option id truthy message_includes_Welcome].
  assert (String.eqb s "" = false) as -> by (by destruct s).
  cbn [negb eval]. rewrite Hs. by destruct (contextId c).
Qed.

Lemma welcome_text_shadows_response_witness :
  let response := [("id", VStr "req-1"); ("success", VBool true);
                   ("message", VStr "Welcome aboard: 3 tasks generated")] in
  snd (_handleMessage busy_client "ctx" (Text (VObj response)))
  = [Emit (welcome (VObj response))]
  /\ map_has "req-1" (pendingCommands (fst (_handleMessage busy_client "ctx"
                                              (Text (VObj response))))) = true.
Proof.
  intros response.
  destruct (welcome_text_shadows_response busy_client "ctx" response
              "Welcome aboard: 3 tasks generated") as [Heffs Hpending];
    [reflexivity | reflexivity |].
  split; [exact Heffs|]. rewrite Hpending. reflexivity.
Defined.

(** X17.  A frame never settles more than one request.  Whatever the
    frame is, malformed included, [_handleMessage] does one of three
    things: it leaves the pending requests as they are, touching no timer
    and settling nothing; or it takes exactly one request out of them,
    clears its timeout and resolves or rejects it; or, when the Error to
    reject a request with cannot be built, it clears the timeout of that
    one request, emits an [error] event and leaves the pending requests as
    they are, settling none. *)
Theorem frame_settles_at_most_one (c : client) (uuid : string) (data : payload) :
  let c' := fst (_handleMessage c uuid data) in
  let effs := snd (_handleMessage c uuid data) in
  (pendingCommands c' = pendingCommands c
   /\ forallb (fun e => negb (settles e)) effs = true)
  \/ (exists k p outcome,
        In (k, p) (pendingCommands c)
        /\ pendingCommands c' = map_delete k (pendingCommands c)
        /\ effs = [ClearTimeout (timeoutId p); outcome]
        /\ ((exists response, outcome = Resolve k response)
            \/ exists msg, outcome = Reject k msg))
  \/ (exists k p m,
        In (k, p) (pendingCommands c)
        /\ pendingCommands c' = pendingCommands c
        /\ effs = [ClearTimeout (timeoutId p);
                   Emit (error (Str ("Failed to parse server message: " +:+ m)))]).
Proof.
  cbn zeta.
  destruct (handleMessage_cases c uuid data)
    as [[r ->]|[(k & p & o & Hin & -> & Ho)|[(k & p & m & Hin & ->)|[[r ->]|[m ->]]]]].
  - left. by destruct (contextId c).
  - right; left. by exists k, p, o.
  - right; right. by exists k, p, m.
  - by left.
  - by left.
Qed.

(** A response whose [error] cannot be turned into an Error: the request
    it answers loses its timeout and stays pending. *)
Lemma unprintable_error_strands_request :
  let response := VObj [("id", VStr "req-1");
                        ("error", VObj [("message", VObj [("toString", VNum 1)])])] in
  _handleMessage busy_client "ctx" (Text response)
  = (busy_client,
     [ClearTimeout 1%nat;
      Emit (error (Str "Failed to parse server message: Cannot convert object to primitive value"))]).
Proof. reflexivity. Qed.

(** *** Connection handling *)

(** X18.  Once the connection is lost, [disconnect()] is of no use: after
    a close event, intended or not, it returns at once, so the requests
    still pending are not rejected (they wait for their timeouts) and a
    reconnection that [_handleClose] has scheduled is not called off. *)
Theorem disconnect_after_close_does_nothing (c : client) (code : Z)
    (why reason : string) (ready_open : bool) :
  let c1 := fst (_handleClose c code why) in
  disconnect c1 ready_open reason = (c1, [])
  /\ pendingCommands c1 = pendingCommands c
  /\ (intentionalClose c = false -> reconnectAttempts c < maxReconnectAttempts c ->
      snd (_handleClose c code why)
      = [Emit (disconnected code why);
         Emit (reconnecting (reconnectAttempts c + 1) (maxReconnectAttempts c));
         SetTimeout reconnect_timer (reconnectDelay c * (reconnectAttempts c + 1))]
      /\ intentionalClose c1 = false).
Proof.
  intros c1.
  assert (connected c1 = false /\ pendingCommands c1 = pendingCommands c) as [Hconn Hpend].
  { unfold c1, _handleClose, _attemptReconnect. cbn [intentionalClose set_connection].
    destruct (intentionalClose c); [done|].
    cbn [maxReconnectAttempts reconnectAttempts set_connection]. by destruct (_ <=? _). }
  split; [unfold disconnect; by rewrite Hconn|]. split; [done|].
  intros Hint Hless. unfold c1, _handleClose, _attemptReconnect.
  cbn [intentionalClose set_connection]. rewrite Hint.
  cbn [maxReconnectAttempts reconnectAttempts set_connection reconnectDelay].
  by rewrite (proj2 (Z.leb_gt _ _) Hless).
Qed.

Lemma disconnect_after_close_does_nothing_witness :
  let c1 := fst (_handleClose busy_client 1006 "") in
  disconnect c1 true "bye" = (c1, [])
  /\ map fst (pendingCommands c1) = ["req-1"; "req-2"]
  /\ snd (_handleClose busy_client 1006 "")
     = [Emit (disconnected 1006 ""); Emit (reconnecting 1 3); SetTimeout reconnect_timer 2000].
Proof.
  intros c1.
  destruct (disconnect_after_close_does_nothing busy_client 1006 "" "bye" true)
    as (Hnothing & Hpending & Hreconnect).
  split; [exact Hnothing|]. fold c1 in Hpending. rewrite Hpending.
  split; [reflexivity|]. destruct Hreconnect as [Heffs _]; [reflexivity | reflexivity |].
  exact Heffs.
Defined.

(** The constructor reads [0] as "not given": no option can set the
    command timeout, the maximum of reconnection attempts or the
    reconnection delay to zero.  A client made with
    [maxReconnectAttempts: 0] reconnects as one made without it: at its
    first unintended close it announces attempt 1 of 3. *)
Theorem zero_options_are_defaults (o : options) (sock : nat) (code : Z) (why : string) :
  timeout (constructor o) <> 0
  /\ maxReconnectAttempts (constructor o) <> 0
  /\ reconnectDelay (constructor o) <> 0
  /\ (opt_maxReconnectAttempts o = Some 0 ->
      snd (_handleClose (set_connection (constructor o) (Some sock) true 0 false) code why)
      = [Emit (disconnected code why); Emit (reconnecting 1 3);
         SetTimeout reconnect_timer (reconnectDelay (constructor o) * 1)]).
Proof.
  assert (forall n d, d <> 0 -> or_number n d <> 0) as Hor.
  { intros [x|] d Hd; cbn; [|done]. destruct (x =? 0) eqn:Hx; [done|]. by apply Z.eqb_neq. }
  split; [by apply Hor|]. split; [by apply Hor|]. split; [by apply Hor|].
  intros Hzero. unfold _handleClose, _attemptReconnect. cbn. by rewrite Hzero.
Qed.

Lemma zero_options_are_defaults_witness :
  let o := {| opt_url := None; opt_timeout := Some 0; opt_maxReconnectAttempts := Some 0;
              opt_reconnectDelay := Some 500 |} in
  timeout (constructor o) = 30000
  /\ snd (_handleClose (set_connection (constructor o) (Some 0%nat) true 0 false) 1006 "")
     = [Emit (disconnected 1006 ""); Emit (reconnecting 1 3); SetTimeout reconnect_timer 500].
Proof.
  intros o. split; [reflexivity|].
  destruct (zero_options_are_defaults o 0%nat 1006 "") as (_ & _ & _ & Hclose).
  exact (Hclose eq_refl).
Defined.

(** *** Looking for the server on another port *)

Lemma unique_spec (seen l : list (option Z)) :
  NoDup (EventLoop.unique seen l)
  /\ forall x, x ∈ EventLoop.unique seen l <-> x ∈ l /\ x ∉ seen.
Proof.
  revert seen. induction l as [|y l IH]; intros seen.
  - split; [constructor|]. intros x. cbn [EventLoop.unique]. rewrite elem_of_nil. intuition.
  - cbn [EventLoop.unique]. case_bool_decide as Hy.
    + destruct (IH seen) as [Hnd Hin]. split; [done|]. intros x.
      rewrite Hin, elem_of_cons. split; [intuition|].
      intros [[->|Hx] Hseen]; [done | by split].
    + destruct (IH (y :: seen)) as [Hnd Hin]. split.
      * apply NoDup_cons. split; [|done]. rewrite Hin, elem_of_cons. intuition.
      * intros x. rewrite !elem_of_cons, Hin, elem_of_cons. split.
        -- intros [->|[Hx Hseen]]; [by split; [left|] | split; [by right | intuition]].
        -- intros [[->|Hx] Hseen]; [by left|].
           destruct (decide (x = y)) as [->|Hne]; [by left|]. right. split; [done|].
           intros [?|?]; done.
Qed.

Lemma probe_find (e : EventLoop.environment) (u : url) (ports : list (option Z)) (n : Z) :
  fst (EventLoop.probe e u ports n)
  = match List.find (fun t => EventLoop.probe_succeeds e (port t))
            (map (EventLoop.with_port u) ports) with
    | Some t => t
    | None => u
    end.
Proof.
  revert n. induction ports as [|p ports IH]; intros n; [done|].
  cbn [EventLoop.probe List.find map].
  by destruct (EventLoop.probe_succeeds e (port (EventLoop.with_port u p))).
Qed.

Lemma unique_cons_fresh (seen r : list (option Z)) (x : option Z) :
  x ∉ seen -> EventLoop.unique seen (x :: r) = x :: EventLoop.unique (x :: seen) r.
Proof. intros Hx. cbn [EventLoop.unique]. by rewrite bool_decide_eq_false_2. Qed.

(** The candidates for a URL that names the port [c]: 8766, 8767, 8770 and
    8765 without [c], then those of [c + 1] to [c + 5] that are not among
    the four. *)
Lemma uniquePorts_explicit (c : Z) :
  EventLoop.uniquePorts (Some c)
  = map Some
      (List.filter (fun p => negb (p =? c)) [8766; 8767; 8770; 8765]
       ++ List.filter (fun p => negb (existsb (Z.eqb p) [8766; 8767; 8770; 8765]))
            [c + 1; c + 2; c + 3; c + 4; c + 5])%list.
Proof.
  destruct (decide (8760 <= c <= 8770)) as [Hnear|Hfar].
  - assert (c = 8760 \/ c = 8761 \/ c = 8762 \/ c = 8763 \/ c = 8764 \/ c = 8765
            \/ c = 8766 \/ c = 8767 \/ c = 8768 \/ c = 8769 \/ c = 8770) as Hc by lia.
    destruct Hc as [->|[->|[->|[->|[->|[->|[->|[->|[->|[->| ->]]]]]]]]]];
      vm_compute; reflexivity.
  - unfold EventLoop.uniquePorts, EventLoop.portsToTry.
    cbn [map fmap option_fmap option_map app].
    rewrite !unique_cons_fresh
      by (let H := fresh in
          intros H;
          repeat (apply elem_of_cons in H as [H|H];
                  [first [discriminate H | injection H; lia]|]);
          by apply elem_of_nil in H).
    cbn [EventLoop.unique List.filter EventLoop.differs existsb].
    rewrite !(proj2 (Z.eqb_neq _ _)) by lia. reflexivity.
Qed.

(** X19.  [_tryAlternativePorts] probes its candidates one after the
    other, no candidate twice, and returns the URL of the first on which a
    connection opens within a second; when there is none it returns the URL
    the client has.  For a URL that names a port [p] (not the default of its
    scheme, and at most 65530), the candidates are, in this order, 8766,
    8767, 8770 and 8765 without [p], then those of [p + 1] to [p + 5] that
    are not among the four.  For a URL that names no port, the current port
    reads as NaN: the candidates are 8766, 8767, 8770, 8765 and then the URL
    the client has, which is probed as it is. *)
Theorem alternative_port_is_first_that_opens (e : EventLoop.environment) (c : client) :
  let u := server_url c in
  let candidates := EventLoop.uniquePorts (EventLoop.currentPort e u) in
  let tested := map (EventLoop.with_port u) candidates in
  NoDup candidates
  /\ fst (EventLoop._tryAlternativePorts e c)
     = match List.find (fun t => EventLoop.accepts e (port t) && (EventLoop.latency e <? 1000))
               tested with
       | Some t => t
       | None => u
       end
  /\ (port u <> EventLoop.scheme_port e -> 0 <= port u -> port u + 5 <= 65535 ->
      let ports :=
        (List.filter (fun p => negb (p =? port u)) [8766; 8767; 8770; 8765]
         ++ List.filter (fun p => negb (existsb (Z.eqb p) [8766; 8767; 8770; 8765]))
              [port u + 1; port u + 2; port u + 3; port u + 4; port u + 5])%list in
      candidates = map Some ports
      /\ tested = map (fun p => {| host := host u; port := p |}) ports)
  /\ (port u = EventLoop.scheme_port e ->
      tested = [{| host := host u; port := 8766 |}; {| host := host u; port := 8767 |};
                {| host := host u; port := 8770 |}; {| host := host u; port := 8765 |}; u]).
Proof.
  intros u candidates tested.
  assert (NoDup candidates) as Hnd.
  { unfold candidates, EventLoop.uniquePorts.
    apply NoDup_ListNoDup, List.NoDup_filter, NoDup_ListNoDup, unique_spec. }
  split; [done|]. split; [apply probe_find|]. split.
  - intros Hexplicit Hlow Hhigh ports.
    assert (candidates = map Some ports) as Hports.
    { unfold candidates, EventLoop.currentPort.
      rewrite (proj2 (Z.eqb_neq _ _) Hexplicit). apply uniquePorts_explicit. }
    split; [done|]. unfold tested. rewrite Hports, map_map. apply map_ext_in.
    intros p Hp. unfold EventLoop.with_port.
    assert ((0 <=? p) && (p <=? 65535) = true) as ->; [|done].
    apply andb_true_iff. rewrite !Z.leb_le.
    apply in_app_or in Hp as [Hp|Hp]; apply filter_In in Hp as [Hp _]; cbn [In] in Hp; lia.
  - intros Hdefault. unfold tested, candidates, EventLoop.currentPort.
    rewrite Hdefault, Z.eqb_refl. by destruct u.
Qed.

Lemma alternative_port_is_first_that_opens_witness :
  let e := {| EventLoop.accepts := fun p => p =? 8770; EventLoop.latency := 10;
              EventLoop.close_follows_error := true; EventLoop.scheme_port := 80 |} in
  EventLoop.uniquePorts (EventLoop.currentPort e (server_url connected_client))
  = [Some 8766; Some 8767; Some 8770; Some 8768; Some 8769]
  /\ fst (EventLoop._tryAlternativePorts e connected_client)
     = {| host := "localhost"; port := 8770 |}
  /\ map (EventLoop.with_port {| host := "localhost"; port := 80 |})
       (EventLoop.uniquePorts (EventLoop.currentPort e {| host := "localhost"; port := 80 |}))
     = [{| host := "localhost"; port := 8766 |}; {| host := "localhost"; port := 8767 |};
        {| host := "localhost"; port := 8770 |}; {| host := "localhost"; port := 8765 |};
        {| host := "localhost"; port := 80 |}].
Proof.
  intros e.
  destruct (alternative_port_is_first_that_opens e connected_client)
    as (_ & Hfound & Hexplicit & _).
  destruct Hexplicit as [Hcandidates _]; [discriminate | discriminate | discriminate |].
  split; [exact Hcandidates|]. split; [rewrite Hfound; reflexivity|].
  destruct (alternative_port_is_first_that_opens e
              (new_client {| host := "localhost"; port := 80 |})) as (_ & _ & _ & Hdefault).
  exact (Hdefault eq_refl).
Defined.

(** *** Batches *)

(** A command that is a text is written to the log as it is. *)
Lemma text_is_logged (entries : list (list (string * json))) :
  Forall (fun e => exists name, fst (call_of e) = VStr name) entries ->
  List.filter is_logged entries = entries.
Proof.
  induction 1 as [|e entries [name He] _ IH]; [done|].
  cbn [List.filter]. unfold is_logged at 1. rewrite He. cbn [to_string]. by rewrite IH.
Qed.

(** The loop on entries that are objects, as long as it is not stopped. *)
Lemma batch_loop_runs (send : nat -> json -> json -> result json) (stop : bool)
    (entries : list (list (string * json))) :
  forall (i : nat) (sent : list (json * json)) (results : list json),
    (stop = true -> forall j e, entries !! j = Some e ->
                      exists r, attempt_command send (i + j)%nat
                                  (fst (call_of e)) (snd (call_of e)) = Returns r) ->
    batch_loop send stop i (map VObj entries) sent results
    = ((sent ++ map call_of (List.filter is_logged entries))%list,
       Returns (results ++ imap (fun j e => result_of send (i + j) e) entries)%list).
Proof.
  induction entries as [|e entries IH]; intros i sent results Hok.
  - cbn. by rewrite !app_nil_r.
  - cbn [map batch_loop destructure get]. fold (call_of e).
    change (defaulted (default VUndefined (lookup_prop "params" e)) (VObj []))
      with (snd (call_of e)).
    change (default VUndefined (lookup_prop "command" e)) with (fst (call_of e)).
    rewrite imap_cons.
    assert (result_of send (i + 0) e
            = match attempt_command send i (fst (call_of e)) (snd (call_of e)) with
              | Returns r => r
              | Throws m => VObj [("error", VStr m)]
              end) as -> by (by rewrite Nat.add_0_r).
    assert (forall sent' results',
              batch_loop send stop (S i) (map VObj entries) sent' results'
              = ((sent' ++ map call_of (List.filter is_logged entries))%list,
                 Returns (results' ++ imap (fun j e => result_of send (S i + j) e) entries)%list))
      as Hrest.
    { intros sent' results'. apply IH. intros Hstop j e' He'.
      replace (S i + j)%nat with (i + S j)%nat by lia. by apply (Hok Hstop (S j) e'). }
    assert (imap ((fun j e0 => result_of send (i + j) e0) ∘ S) entries
            = imap (fun j e0 => result_of send (S i + j) e0) entries) as ->.
    { apply imap_ext. intros j e' _. cbn. f_equal. lia. }
    cbn [List.filter]. unfold is_logged at 1.
    destruct (attempt_command send i (fst (call_of e)) (snd (call_of e))) as [r|m] eqn:Hsend.
    + rewrite Hrest. unfold attempt_command in Hsend.
      destruct (to_string (fst (call_of e))); [|done].
      cbn [map]. by rewrite <- !app_assoc.
    + destruct stop.
      * destruct (Hok eq_refl 0%nat e eq_refl) as [r Hr].
        rewrite Nat.add_0_r in Hr. congruence.
      * rewrite Hrest. destruct (to_string (fst (call_of e)));
          cbn [map]; by rewrite <- !app_assoc.
Qed.

(** X20.  A batch whose [stopOnError] option is falsy goes through every
    command, in order, and resolves with one result per command, in the
    same order: the response of the command, or [{ error: <message> }] where
    the command failed.  A command without [params] is sent with [{}].
    Every command that can be written to the log is sent, which a command
    that is a text always can; one that cannot (an object with a [toString]
    property) is not sent, and its result is the error of the conversion. *)
Theorem batch_runs_every_command (send : nat -> json -> json -> result json)
    (entries : list (list (string * json))) (opts : json) :
  stopOnError opts = Returns false ->
  exists results,
    batchCommands send (map VObj entries) opts
    = (map call_of (List.filter is_logged entries), Returns results)
    /\ (Forall (fun e => exists name, fst (call_of e) = VStr name) entries ->
        batchCommands send (map VObj entries) opts = (map call_of entries, Returns results))
    /\ length results = length entries
    /\ forall i e, entries !! i = Some e ->
         results !! i
         = Some match to_string (fst (call_of e)) with
                | Returns _ =>
                    match send i (fst (call_of e)) (snd (call_of e)) with
                    | Returns r => r
                    | Throws m => VObj [("error", VStr m)]
                    end
                | Throws m => VObj [("error", VStr m)]
                end.
Proof.
  intros Hstop. unfold batchCommands. rewrite Hstop.
  rewrite batch_loop_runs by done. cbn [app]. eexists. split; [done|].
  split; [intros Htext; by rewrite text_is_logged|].
  split; [by rewrite length_imap|].
  intros i e He. rewrite list_lookup_imap, He. cbn [fmap option_fmap option_map Nat.add].
  unfold result_of, attempt_command. by destruct (to_string (fst (call_of e))).
Qed.

Lemma batch_runs_every_command_witness :
  let send := fun (i : nat) (cmd prm : json) =>
                match cmd with
                | VStr "list-tools" => Returns (VObj [("success", VBool true)])
                | _ => Throws "Unknown command: nope"
                end in
  batchCommands send [VObj [("command", VStr "nope")]; VObj [("command", VStr "list-tools")]]
    (VObj [("stopOnError", VBool false)])
  = ([(VStr "nope", VObj []); (VStr "list-tools", VObj [])],
     Returns [VObj [("error", VStr "Unknown command: nope")];
              VObj [("success", VBool true)]]).
Proof.
  intros send.
  destruct (batch_runs_every_command send
              [[("command", VStr "nope")]; [("command", VStr "list-tools")]]
              (VObj [("stopOnError", VBool false)])) as (results & Hbatch & _ & Hlen & Hres);
    [reflexivity|].
  cbn [map] in Hbatch. rewrite Hbatch. f_equal. f_equal.
  destruct results as [|r0 [|r1 [|r2 results]]]; try discriminate Hlen.
  pose proof (Hres 0%nat _ eq_refl) as H0. pose proof (Hres 1%nat _ eq_refl) as H1.
  cbn in H0, H1. by injection H0 as ->; injection H1 as ->.
Defined.

(** A command that cannot be written to the log is not sent. *)
Lemma unlogged_command_is_not_sent :
  batchCommands (fun _ _ _ => Returns (VObj [("success", VBool true)]))
    [VObj [("command", VObj [("toString", VNull)])]; VObj [("command", VStr "list-tools")]]
    (VObj [("stopOnError", VBool false)])
  = ([(VStr "list-tools", VObj [])],
     Returns [VObj [("error", VStr "Cannot convert object to primitive value")];
              VObj [("success", VBool true)]]).
Proof. reflexivity. Qed.

(** X21.  A batch that stops on errors, as it does unless told otherwise,
    ends at the first command that fails, in the log or at the server: it
    resolves with the responses of the commands before it followed by
    [{ error: <message> }], and the commands after it are not sent. *)
Theorem batch_stops_at_first_error (send : nat -> json -> json -> result json)
    (before after : list (list (string * json))) (failing : list (string * json))
    (opts : json) (m : string) :
  stopOnError opts = Returns true ->
  (forall i e, before !! i = Some e ->
     exists r, attempt_command send i (fst (call_of e)) (snd (call_of e)) = Returns r) ->
  attempt_command send (length before) (fst (call_of failing)) (snd (call_of failing))
  = Throws m ->
  batchCommands send (map VObj (before ++ failing :: after)) opts
  = (map call_of (before ++ (if is_logged failing then [failing] else [])),
     Returns (imap (fun i e => result_of send i e) before ++ [VObj [("error", VStr m)]])%list).
Proof.
  intros Hstop Hbefore Hfail. unfold batchCommands. rewrite Hstop.
  assert (forall i sent results,
            (forall j e, before !! j = Some e ->
               exists r, attempt_command send (i + j)%nat
                           (fst (call_of e)) (snd (call_of e)) = Returns r) ->
            attempt_command send (i + length before)%nat
              (fst (call_of failing)) (snd (call_of failing)) = Throws m ->
            batch_loop send true i (map VObj (before ++ failing :: after)) sent results
            = ((sent ++ map call_of (before ++ (if is_logged failing then [failing] else [])))%list,
               Returns (results ++ imap (fun j e => result_of send (i + j) e) before
                        ++ [VObj [("error", VStr m)]])%list)) as Hloop.
  { clear Hbefore Hfail. induction before as [|e before IH]; intros i sent results Hok Hfail.
    - cbn [app map batch_loop destructure get]. fold (call_of failing).
      change (defaulted (default VUndefined (lookup_prop "params" failing)) (VObj []))
        with (snd (call_of failing)).
      change (default VUndefined (lookup_prop "command" failing)) with (fst (call_of failing)).
      cbn [length] in Hfail. rewrite Nat.add_0_r in Hfail. rewrite Hfail.
      unfold is_logged. destruct (to_string (fst (call_of failing))); cbn [map imap app];
        by rewrite ?app_nil_r.
    - cbn [app map batch_loop destructure get]. fold (call_of e).
      change (defaulted (default VUndefined (lookup_prop "params" e)) (VObj []))
        with (snd (call_of e)).
      change (default VUndefined (lookup_prop "command" e)) with (fst (call_of e)).
      destruct (Hok 0%nat e eq_refl) as [r Hr]. rewrite Nat.add_0_r in Hr. rewrite Hr.
      assert (exists text, to_string (fst (call_of e)) = Returns text) as [text ->].
      { unfold attempt_command in Hr. destruct (to_string (fst (call_of e))); [by eexists | done]. }
      rewrite IH.
      + rewrite imap_cons.
        assert (result_of send (i + 0) e = r) as ->
          by (unfold result_of; by rewrite Nat.add_0_r, Hr).
        assert (imap ((fun j e0 => result_of send (i + j) e0) ∘ S) before
                = imap (fun j e0 => result_of send (S i + j) e0) before) as ->.
        { apply imap_ext. intros j e' _. cbn. f_equal. lia. }
        by rewrite <- !app_assoc.
      + intros j e' He'. replace (S i + j)%nat with (i + S j)%nat by lia.
        by apply (Hok (S j) e').
      + cbn [length] in Hfail. by replace (S i + length before)%nat
                                    with (i + S (length before))%nat by lia. }
  rewrite (Hloop 0%nat [] []); [done | done | done].
Qed.

Lemma batch_stops_at_first_error_witness :
  let send := fun (i : nat) (cmd prm : json) =>
                match cmd with
                | VStr "list-tools" => Returns (VObj [("success", VBool true)])
                | _ => Throws "Unknown command: nope"
                end in
  batchCommands send
    [VObj [("command", VStr "list-tools")]; VObj [("command", VStr "nope")];
     VObj [("command", VStr "list-tools"); ("params", VObj [("n", VNum 1)])]]
    VUndefined
  = ([(VStr "list-tools", VObj []); (VStr "nope", VObj [])],
     Returns [VObj [("success", VBool true)];
              VObj [("error", VStr "Unknown command: nope")]]).
Proof.
  intros send.
  apply (batch_stops_at_first_error send [[("command", VStr "list-tools")]]
           [[("command", VStr "list-tools"); ("params", VObj [("n", VNum 1)])]]
           [("command", VStr "nope")] VUndefined "Unknown command: nope").
  - reflexivity.
  - intros [|i] e He; [|done]. injection He as <-. by eexists.
  - reflexivity.
Defined.

End ClientMoreFacts.

(** ** The server's registry and its default tools *)
Module RegistryFacts.
Import JS Wire Server Destructuring Registry JSFacts WireFacts ServerFacts ClientFacts.

Lemma map_get_set_ne {V} (k k' : string) (v : V) (m : list (string * V)) :
  k <> k' -> Client.map_get k (Client.map_set k' v m) = Client.map_get k m.
Proof.
  intros Hne. apply eqb_false_iff in Hne.
  induction m as [|[k0 v0] m IH]; cbn [Client.map_set].
  - by rewrite map_get_cons, Hne.
  - destruct (String.eqb k' k0) eqn:Hk; rewrite !map_get_cons; [|by rewrite IH].
    apply String.eqb_eq in Hk as <-. by rewrite Hne.
Qed.

Lemma map_set_keys {V} (k : string) (v : V) (m : list (string * V)) :
  map fst (Client.map_set k v m)
  = if bool_decide (k ∈ map fst m) then map fst m else (map fst m ++ [k])%list.
Proof.
  induction m as [|[k0 v0] m IH]; [done|]. cbn [Client.map_set].
  destruct (String.eqb k k0) eqn:Hk.
  - apply String.eqb_eq in Hk as <-. cbn [map fst]. rewrite bool_decide_eq_true_2; [done|].
    apply elem_of_cons. by left.
  - apply eqb_false_iff in Hk. cbn [map fst]. rewrite IH.
    destruct (bool_decide (k ∈ map fst m)) eqn:Hin.
    + apply bool_decide_eq_true in Hin. rewrite bool_decide_eq_true_2; [done|].
      apply elem_of_cons. by right.
    + apply bool_decide_eq_false in Hin. rewrite bool_decide_eq_false_2; [done|].
      rewrite elem_of_cons. intros [?|?]; congruence.
Qed.

Lemma map_get_Some_In {V} (k : string) (m : list (string * V)) :
  is_Some (Client.map_get k m) <-> In k (map fst m).
Proof.
  induction m as [|[k0 v0] m IH]; [split; [by intros [? ?] | done]|].
  rewrite map_get_cons. cbn [map fst In]. destruct (String.eqb k k0) eqn:Hk.
  - apply String.eqb_eq in Hk as ->. split; [by left | by eexists].
  - apply eqb_false_iff in Hk. rewrite IH. split; [by right | intros [?|?]; congruence].
Qed.

(** The dispatcher looks a command up in the registry. *)
Lemma serve_lookup (h : host) (st : mcp) (now_h : Z) (n : string) :
  tools (serve h st now_h) !! n
  = (fun e => {| name := n; handler := run_handler h st now_h (e_handler e);
                 schema := e_schema e |}) <$> Client.map_get n (tool_map st).
Proof.
  unfold serve. cbn [tools]. generalize (run_handler h st now_h). intros run.
  induction (tool_map st) as [|[k e] m IH]; [done|].
  cbn [map list_to_map foldr fst snd uncurry]. rewrite map_get_cons.
  destruct (String.eqb n k) eqn:Hk.
  - apply String.eqb_eq in Hk as ->. by rewrite lookup_insert_eq.
  - apply eqb_false_iff in Hk. rewrite lookup_insert_ne by done. apply IH.
Qed.

(** The response to a handler result of three fields, the last its own
    timestamp. *)
Lemma stamped_response (idv a b t : json) (k : string) (now : Z) :
  In k ["tools"; "resources"; "resource"] ->
  success_response idv (VObj [("success", a); (k, b); ("timestamp", t)]) now
  = [("id", idv); ("success", a); (k, b); ("timestamp", timestamp now)].
Proof.
  unfold success_response. generalize (timestamp now).
  intros t' [<-|[<-|[<-|[]]]]; reflexivity.
Qed.

Lemma error_response (idv e : json) (now : Z) :
  success_response idv (VObj [("error", e)]) now
  = [("id", idv); ("error", e); ("timestamp", timestamp now)].
Proof. unfold success_response. generalize (timestamp now). reflexivity. Qed.

(** *** [list-tools] *)

Lemma describe_listing (n : string) (sch : json) :
  sch <> VNull -> sch <> VUndefined -> describe n sch = Returns (listing_of n sch).
Proof. intros Hnull Hundef. by destruct sch. Qed.

Lemma mapM_Returns {A B} (f : A -> result B) (g : A -> B) (l : list A) :
  (forall x, In x l -> f x = Returns (g x)) -> Context.mapM f l = Returns (map g l).
Proof.
  induction l as [|x l IH]; intros Hf; [done|]. cbn [Context.mapM map].
  rewrite (Hf x) by (by left). cbn [bind]. rewrite IH; [done|].
  intros y Hy. apply Hf. by right.
Qed.

Lemma list_tools_dispatch (h : host) (st : mcp) (now_h now : Z) (client : nat)
    (o : list (string * json)) (sch : json) :
  lookup_prop "command" o = Some (VStr "list-tools") ->
  Client.map_get "list-tools" (tool_map st)
  = Some {| e_handler := list_tools; e_schema := sch |} ->
  (forall n e, In (n, e) (tool_map st) -> e_schema e <> VNull /\ e_schema e <> VUndefined) ->
  dispatch h st now_h now client (Text (VObj o))
  = [Send client
       (JSON_stringify
          (VObj [("id", default VUndefined (lookup_prop "id" o)); ("success", VBool true);
                 ("tools", VArr (map (fun kv => listing_of (fst kv) (e_schema (snd kv)))
                                     (tool_map st)));
                 ("timestamp", timestamp now)]))].
Proof.
  intros Hcmd Htool Hschemas. unfold dispatch.
  rewrite (handleMessage_command _ now client o "list-tools"
             {| name := "list-tools"; handler := run_handler h st now_h list_tools;
                schema := sch |}); [|done|done|by rewrite serve_lookup, Htool].
  cbn [handler run_handler]. unfold list_tools_handler.
  rewrite (mapM_Returns _ (fun kv => listing_of (fst kv) (e_schema (snd kv)))).
  - cbn [bind]. by rewrite stamped_response by (by left).
  - intros [n e] Hin. destruct (Hschemas n e Hin). by apply describe_listing.
Qed.

(** X22.  [list-tools] lists the registry.  As long as it is registered as
    the default tool and no schema is null, a [list-tools] request is
    answered with one entry per registered tool, in the order the names were
    first registered, each with its name, its description (or the empty
    string) and its parameters (or [{}]); and a name is in that listing
    exactly when the dispatcher has a tool for a command of that name. *)
Theorem list_tools_lists_the_commands (h : host) (st : mcp) (now_h now : Z) (client : nat)
    (o : list (string * json)) (sch : json) :
  lookup_prop "command" o = Some (VStr "list-tools") ->
  Client.map_get "list-tools" (tool_map st)
  = Some {| e_handler := list_tools; e_schema := sch |} ->
  (forall n e, In (n, e) (tool_map st) -> e_schema e <> VNull /\ e_schema e <> VUndefined) ->
  dispatch h st now_h now client (Text (VObj o))
  = [Send client
       (JSON_stringify
          (VObj [("id", default VUndefined (lookup_prop "id" o)); ("success", VBool true);
                 ("tools", VArr (map (fun kv => listing_of (fst kv) (e_schema (snd kv)))
                                     (tool_map st)));
                 ("timestamp", timestamp now)]))]
  /\ forall n, In n (map fst (tool_map st)) <-> is_Some (find_tool (serve h st now_h) (VStr n)).
Proof.
  intros Hcmd Htool Hschemas. split; [by apply (list_tools_dispatch h st now_h now client o sch)|].
  intros n. cbn [find_tool]. rewrite serve_lookup, fmap_is_Some.
  symmetry. apply map_get_Some_In.
Qed.

Lemma list_tools_lists_the_commands_witness :
  exists listed,
    dispatch no_host docs_server 1747785600000 1747785600123 7
      (Text (VObj [("id", VStr "req-1"); ("command", VStr "list-tools")]))
    = [Send 7%nat (Text (VObj [("id", VStr "req-1"); ("success", VBool true);
                               ("tools", VArr listed);
                               ("timestamp", VStr "2025-05-21T00:00:00.123Z")]))]
    /\ map (fun t => get t "name") listed
       = map (fun n => Returns (VStr n))
           ["generate-tasks"; "list-tools"; "list-resources"; "get-resource"].
Proof.
  destruct (list_tools_lists_the_commands no_host docs_server 1747785600000 1747785600123 7
              [("id", VStr "req-1"); ("command", VStr "list-tools")]
              (VObj [("description", VStr "List available tools"); ("parameters", VObj [])]))
    as [Hsend _].
  - reflexivity.
  - reflexivity.
  - intros n e Hin. cbn in Hin.
    destruct Hin as [He|[He|[He|[He|[]]]]]; injection He as <- <-; by split.
  - eexists. split; [rewrite Hsend; vm_compute; reflexivity|]. reflexivity.
Defined.

(** *** Resources *)

Lemma addResource_find (st : mcp) (uri uri' : string) (content : json) :
  find_resource (addResource st uri' content) (VStr uri)
  = if String.eqb uri uri' then Some content else find_resource st (VStr uri).
Proof.
  cbn [find_resource addResource resource_map]. destruct (String.eqb uri uri') eqn:Hu.
  - apply String.eqb_eq in Hu as ->. apply map_get_set.
  - apply eqb_false_iff in Hu. by apply map_get_set_ne.
Qed.

Lemma addResources_frame (st : mcp) (more : list (string * json)) :
  tool_map (fold_left (fun s kv => addResource s (fst kv) (snd kv)) more st) = tool_map st.
Proof. revert st. induction more as [|kv more IH]; intros st; [done|]. cbn. by rewrite IH. Qed.

Lemma addResources_find (st : mcp) (more : list (string * json)) (uri : string) :
  Forall (fun kv => fst kv <> uri) more ->
  find_resource (fold_left (fun s kv => addResource s (fst kv) (snd kv)) more st) (VStr uri)
  = find_resource st (VStr uri).
Proof.
  revert st. induction more as [|kv more IH]; intros st Hmore; [done|].
  apply Forall_cons in Hmore as [Hkv Hmore]. cbn [fold_left]. rewrite IH by done.
  rewrite addResource_find. by rewrite (proj2 (eqb_false_iff uri (fst kv))).
Qed.

Lemma addResources_keys (st : mcp) (more : list (string * json)) :
  NoDup (map fst (resource_map st)) ->
  NoDup (map fst (resource_map
                    (fold_left (fun s kv => addResource s (fst kv) (snd kv)) more st)))
  /\ forall u, u ∈ map fst (resource_map st) ->
       u ∈ map fst (resource_map
                      (fold_left (fun s kv => addResource s (fst kv) (snd kv)) more st)).
Proof.
  revert st. induction more as [|kv more IH]; intros st Hnd; [done|]. cbn [fold_left].
  assert (NoDup (map fst (resource_map (addResource st (fst kv) (snd kv))))
          /\ forall u, u ∈ map fst (resource_map st) ->
               u ∈ map fst (resource_map (addResource st (fst kv) (snd kv)))) as [Hnd' Hin'].
  { cbn [addResource resource_map]. rewrite map_set_keys. case_bool_decide as Hk; [done|].
    split; [|intros u Hu; apply elem_of_app; by left].
    apply NoDup_app. split; [done|]. split; [|apply NoDup_singleton].
    intros x Hx Hx'. apply list_elem_of_singleton in Hx' as ->. done. }
  destruct (IH _ Hnd') as [Hnd'' Hin'']. split; [done|]. intros u Hu. by apply Hin'', Hin'.
Qed.

(** X23.  A resource added with [addResource(uri, content)] is what
    [get-resource] serves for that URI from then on, whatever other URIs are
    added later: the request is answered with the request id,
    [success: true], the content and the dispatcher's timestamp.  And
    [list-resources] names the URI, every URI once. *)
Theorem added_resource_is_served (h : host) (st : mcp) (now_h now : Z) (client : nat)
    (o prm : list (string * json)) (uri : string) (content sch : json)
    (more : list (string * json)) :
  uri <> "" ->
  lookup_prop "command" o = Some (VStr "get-resource") ->
  lookup_prop "params" o = Some (VObj prm) -> lookup_prop "uri" prm = Some (VStr uri) ->
  Client.map_get "get-resource" (tool_map st)
  = Some {| e_handler := get_resource; e_schema := sch |} ->
  Forall (fun kv => fst kv <> uri) more ->
  NoDup (map fst (resource_map st)) ->
  let st' := fold_left (fun s kv => addResource s (fst kv) (snd kv)) more
               (addResource st uri content) in
  dispatch h st' now_h now client (Text (VObj o))
  = [Send client
       (JSON_stringify
          (VObj [("id", default VUndefined (lookup_prop "id" o)); ("success", VBool true);
                 ("resource", content); ("timestamp", timestamp now)]))]
  /\ exists uris,
       list_resources_handler st' now_h
       = Returns (VObj [("success", VBool true); ("resources", VArr (map VStr uris));
                        ("timestamp", timestamp now_h)])
       /\ NoDup uris /\ uri ∈ uris.
Proof.
  intros Huri Hcmd Hprm Hu Htool Hmore Hnd st'. split.
  - unfold dispatch.
    rewrite (handleMessage_command _ now client o "get-resource"
               {| name := "get-resource"; handler := run_handler h st' now_h get_resource;
                  schema := sch |}); [|done|done|].
    + rewrite Hprm. cbn [handler run_handler default from_option id or_else truthy].
      unfold get_resource_handler. cbn [destructure get bind]. rewrite Hu.
      cbn [default from_option id truthy]. rewrite (proj2 (eqb_false_iff uri "") Huri).
      cbn [negb]. unfold st'. rewrite addResources_find, addResource_find by done.
      rewrite String.eqb_refl. by rewrite stamped_response by (right; right; by left).
    + rewrite serve_lookup. unfold st'. rewrite addResources_frame. cbn [addResource tool_map].
      by rewrite Htool.
  - exists (map fst (resource_map st')). unfold list_resources_handler.
    rewrite map_map. split; [done|].
    destruct (addResources_keys (addResource st uri content) more) as [Hnd' Hin'].
    + cbn [addResource resource_map]. rewrite map_set_keys. case_bool_decide; [done|].
      apply NoDup_app. split; [done|]. split; [|apply NoDup_singleton].
      intros x Hx Hx'. by apply list_elem_of_singleton in Hx' as ->.
    + split; [done|]. apply Hin'. cbn [addResource resource_map]. rewrite map_set_keys.
      case_bool_decide; [done|]. apply elem_of_app. right. by apply list_elem_of_singleton.
Qed.

Lemma added_resource_is_served_witness :
  dispatch no_host
    (addResource (addResource docs_server "docs://api" (VObj [("version", VNum 3)]))
       "docs://faq" (VStr "?"))
    1747785600000 1747785600123 7
    (Text (VObj [("id", VStr "req-2"); ("command", VStr "get-resource");
                 ("params", VObj [("uri", VStr "docs://api")])]))
  = [Send 7%nat (Text (VObj [("id", VStr "req-2"); ("success", VBool true);
                             ("resource", VObj [("version", VNum 3)]);
                             ("timestamp", VStr "2025-05-21T00:00:00.123Z")]))].
Proof.
  destruct (added_resource_is_served no_host docs_server 1747785600000 1747785600123 7
              [("id", VStr "req-2"); ("command", VStr "get-resource");
               ("params", VObj [("uri", VStr "docs://api")])]
              [("uri", VStr "docs://api")] "docs://api" (VObj [("version", VNum 3)])
              (VObj [("description", VStr "Get a resource");
                     ("parameters", VObj [("uri", parameter "string" "Resource URI")])])
              [("docs://faq", VStr "?")]) as [Hsend _].
  - discriminate.
  - reflexivity.
  - reflexivity.
  - reflexivity.
  - reflexivity.
  - apply Forall_cons. split; [discriminate | apply Forall_nil_2].
  - vm_compute. apply NoDup_singleton.
  - cbn [fold_left fst snd] in Hsend. rewrite Hsend. vm_compute. reflexivity.
Defined.

End RegistryFacts.

(** ** Client and server together: the default tools *)
Module EndToEndMore.
Import JS Wire Destructuring ClientMethods JSFacts WireFacts ClientFacts.

(** A command sent by [sendCommand] to a server that has a tool for it,
    whose handler returns an object: the frame the client writes is answered
    with one response, and the response settles the request. *)
Lemma request_round_trip (srv : Server.server) (now : Z) (sock : nat) (c : Client.client)
    (k uuid : string) (timer : nat) (sent : Z) (cmd : string) (prm : json)
    (option_timeout : option Z) (t : Server.tool) (r resp : list (string * json)) :
  k <> "" -> cmd <> "" -> is_json prm = true ->
  Server.tools srv !! cmd = Some t ->
  Server.handler t (or_else prm (VObj [])) sock = Returns (VObj r) ->
  Server.success_response (VStr k) (VObj r) now = resp ->
  is_json (VObj resp) = true ->
  lookup_prop "id" resp = Some (VStr k) ->
  truthy (default VUndefined (lookup_prop "message" resp)) = false ->
  let c1 := fst (Client.sendCommand c k timer sent cmd prm option_timeout) in
  (exists frame ms,
     snd (Client.sendCommand c k timer sent cmd prm option_timeout)
     = [Client.SetTimeout (Client.command_timeout k ms) ms; Client.WsSend frame]
     /\ Server.handleMessage srv now sock frame = [Server.Send sock (Text (VObj resp))])
  /\ Client._handleMessage c1 uuid (Text (VObj resp))
     = match Client.settlement k (VObj resp)
               (default VUndefined (lookup_prop "error" resp)) with
       | Returns outcome =>
           (Client.set_pending c1 (Client.map_delete k (Client.pendingCommands c1)),
            [Client.ClearTimeout timer; outcome])
       | Throws m =>
           (c1, [Client.ClearTimeout timer;
                 Client.Emit (Client.error
                   (Client.Str ("Failed to parse server message: " +:+ m)))])
       end.
Proof.
  intros Hk Hcmd Hprm Htool Hhandler Hresp Hjson Hid Hmsg c1.
  assert (String.eqb k "" = false) as Hk' by (by apply eqb_false_iff).
  split.
  - eexists _, _. split; [reflexivity|]. rewrite (defaulted_json prm) by done.
    rewrite JSON_stringify_json.
    + rewrite (ServerFacts.handleMessage_command srv now sock _ cmd t); [| reflexivity | done | done].
      cbn [lookup_prop List.find fst snd String.eqb Ascii.eqb Bool.eqb fmap option_fmap
           option_map default from_option id].
      rewrite Hhandler, Hresp. by rewrite JSON_stringify_json.
    + cbn. rewrite Hprm. by destruct (Client.contextId c).
  - rewrite handleMessage_response by done. rewrite Hid.
    cbn [default from_option id truthy]. rewrite Hk'. cbn [negb Client.pending_of_id].
    unfold c1. cbn [Client.sendCommand fst Client.pendingCommands Client.set_pending].
    by rewrite map_get_set.
Qed.

(** *** Fetching a resource *)

(** A [getResource(uri)] call that goes to a server which has the
    resource: the request, its answer and the settling of [sendCommand]. *)
Lemma get_resource_round_trip (h : Registry.host) (st : Registry.mcp) (now_h now : Z)
    (sock : nat) (c : Client.client) (k uuid uri : string) (timer : nat) (sent : Z)
    (content sch : json) (option_timeout : option Z) :
  uri <> "" -> k <> "" ->
  Client.map_get "get-resource" (Registry.tool_map st)
  = Some {| Registry.e_handler := Registry.get_resource; Registry.e_schema := sch |} ->
  Registry.find_resource st (VStr uri) = Some content -> is_json content = true ->
  let response := [("id", VStr k); ("success", VBool true); ("resource", content);
                   ("timestamp", Server.timestamp now)] in
  let c1 := fst (Client.sendCommand c k timer sent "get-resource" (VObj [("uri", VStr uri)])
                   option_timeout) in
  (exists frame ms,
     snd (Client.sendCommand c k timer sent "get-resource" (VObj [("uri", VStr uri)])
            option_timeout)
     = [Client.SetTimeout (Client.command_timeout k ms) ms; Client.WsSend frame]
     /\ Registry.dispatch h st now_h now sock frame
        = [Server.Send sock (Text (VObj response))])
  /\ Client._handleMessage c1 uuid (Text (VObj response))
     = (Client.set_pending c1 (Client.map_delete k (Client.pendingCommands c1)),
        [Client.ClearTimeout timer; Client.Resolve k (VObj response)]).
Proof.
  intros Huri Hk Htool Hfind Hjson response c1.
  destruct (request_round_trip (Registry.serve h st now_h) now sock c k uuid timer sent
              "get-resource" (VObj [("uri", VStr uri)]) option_timeout
              {| Server.name := "get-resource";
                 Server.handler := Registry.run_handler h st now_h Registry.get_resource;
                 Server.schema := sch |}
              [("success", VBool true); ("resource", content);
               ("timestamp", Server.timestamp now_h)] response) as [Hsend Hsettle];
    try done.
  - by rewrite RegistryFacts.serve_lookup, Htool.
  - cbn [Server.handler Registry.run_handler or_else truthy].
    unfold Registry.get_resource_handler.
    cbn [destructure get bind lookup_prop List.find fst snd String.eqb Ascii.eqb Bool.eqb
         fmap option_fmap option_map default from_option id truthy].
    rewrite (proj2 (eqb_false_iff uri "") Huri). cbn [negb]. by rewrite Hfind.
  - cbn. by rewrite Hjson.
Qed.

(** X24.  A resource the client has not cached, and the server has with a
    truthy content, is fetched by [getResource(uri)] in one request: the
    method sends [get-resource] with the URI, the server answers with the
    content, the response resolves the request, and the method caches the
    content, emits [resource_retrieved] and returns it; asked again, it
    returns the cached content at once. *)
Theorem resource_is_fetched_and_cached (h : Registry.host) (st : Registry.mcp)
    (now_h now : Z) (sock : nat) (c : Client.client) (k uuid uri : string) (timer : nat)
    (sent : Z) (content sch : json) (option_timeout : option Z) :
  uri <> "" -> k <> "" ->
  Client.map_get "get-resource" (Registry.tool_map st)
  = Some {| Registry.e_handler := Registry.get_resource; Registry.e_schema := sch |} ->
  Registry.find_resource st (VStr uri) = Some content ->
  is_json content = true -> truthy content = true ->
  Resources.getResource c uri = Resources.Await "get-resource" (VObj [("uri", VStr uri)]) ->
  let response := [("id", VStr k); ("success", VBool true); ("resource", content);
                   ("timestamp", Server.timestamp now)] in
  let c1 := fst (Client.sendCommand c k timer sent "get-resource" (VObj [("uri", VStr uri)])
                   option_timeout) in
  let c2 := fst (Client._handleMessage c1 uuid (Text (VObj response))) in
  let c3 := fst (fst (Resources.getResource_resume c2 uri (Returns (VObj response)))) in
  (exists frame ms,
     snd (Client.sendCommand c k timer sent "get-resource" (VObj [("uri", VStr uri)])
            option_timeout)
     = [Client.SetTimeout (Client.command_timeout k ms) ms; Client.WsSend frame]
     /\ Registry.dispatch h st now_h now sock frame
        = [Server.Send sock (Text (VObj response))])
  /\ snd (Client._handleMessage c1 uuid (Text (VObj response)))
     = [Client.ClearTimeout timer; Client.Resolve k (VObj response)]
  /\ Resources.getResource_resume c2 uri (Returns (VObj response))
     = (c3, [Client.Emit (Client.resource_retrieved uri content)], Returns content)
  /\ Resources.getResource c3 uri = Resources.Return content.
Proof.
  intros Huri Hk Htool Hfind Hjson Htruthy Hmiss response c1 c2 c3.
  destruct (get_resource_round_trip h st now_h now sock c k uuid uri timer sent content sch
              option_timeout) as [Hsend Hsettle]; try done.
  subst c3 c2 c1 response. split; [done|]. rewrite Hsettle. cbn [fst snd].
  split; [done|]. set (c2 := Client.set_pending _ _).
  assert (Resources.getResource_resume c2 uri
            (Returns (VObj [("id", VStr k); ("success", VBool true); ("resource", content);
                            ("timestamp", Server.timestamp now)]))
          = (Client.set_resources c2 (<[uri := content]> (Client.availableResources c2)),
             [Client.Emit (Client.resource_retrieved uri content)], Returns content))
    as Hresume.
  { unfold Resources.getResource_resume. cbn [get lookup_prop List.find fst snd
      String.eqb Ascii.eqb Bool.eqb fmap option_fmap option_map default from_option id truthy].
    by rewrite Htruthy. }
  rewrite Hresume. cbn [fst]. split; [done|]. unfold Resources.getResource.
  cbn [Client.availableResources Client.set_resources]. rewrite lookup_insert_eq.
  by destruct content.
Qed.

Lemma resource_is_fetched_and_cached_witness :
  let response := [("id", VStr "req-1"); ("success", VBool true);
                   ("resource", VStr "# Tascade AI");
                   ("timestamp", VStr "2025-05-21T00:00:00.123Z")] in
  let c1 := fst (Client.sendCommand Scenarios.connected_client "req-1" 1%nat 1000
                   "get-resource" (VObj [("uri", VStr "docs://readme")]) None) in
  let c2 := fst (Client._handleMessage c1 "ctx" (Text (VObj response))) in
  let c3 := fst (fst (Resources.getResource_resume c2 "docs://readme"
                        (Returns (VObj response)))) in
  Resources.getResource c3 "docs://readme" = Resources.Return (VStr "# Tascade AI").
Proof.
  intros response c1 c2 c3.
  destruct (resource_is_fetched_and_cached Registry.no_host Registry.docs_server
              1747785600000 1747785600123 7 Scenarios.connected_client "req-1" "ctx"
              "docs://readme" 1%nat 1000 (VStr "# Tascade AI")
              (VObj [("description", VStr "Get a resource");
                     ("parameters",
                      VObj [("uri", Registry.parameter "string" "Resource URI")])]) None)
    as (_ & _ & _ & Hcached);
    [discriminate | discriminate | reflexivity | reflexivity | reflexivity | reflexivity
     | reflexivity |].
  exact Hcached.
Defined.

(** X25.  A resource whose content is falsy (null, false, 0 or the empty
    string) cannot be fetched with [getResource]: the server has it and
    answers [success: true] with the content, the response resolves the
    request, and the method then throws [Failed to get resource] and caches
    nothing. *)
Theorem falsy_resource_cannot_be_fetched (h : Registry.host) (st : Registry.mcp)
    (now_h now : Z) (sock : nat) (c : Client.client) (k uuid uri : string) (timer : nat)
    (sent : Z) (content sch : json) (option_timeout : option Z) :
  uri <> "" -> k <> "" ->
  Client.map_get "get-resource" (Registry.tool_map st)
  = Some {| Registry.e_handler := Registry.get_resource; Registry.e_schema := sch |} ->
  Registry.find_resource st (VStr uri) = Some content ->
  is_json content = true -> truthy content = false ->
  let response := [("id", VStr k); ("success", VBool true); ("resource", content);
                   ("timestamp", Server.timestamp now)] in
  let c1 := fst (Client.sendCommand c k timer sent "get-resource" (VObj [("uri", VStr uri)])
                   option_timeout) in
  let c2 := fst (Client._handleMessage c1 uuid (Text (VObj response))) in
  (exists frame ms,
     snd (Client.sendCommand c k timer sent "get-resource" (VObj [("uri", VStr uri)])
            option_timeout)
     = [Client.SetTimeout (Client.command_timeout k ms) ms; Client.WsSend frame]
     /\ Registry.dispatch h st now_h now sock frame
        = [Server.Send sock (Text (VObj response))])
  /\ snd (Client._handleMessage c1 uuid (Text (VObj response)))
     = [Client.ClearTimeout timer; Client.Resolve k (VObj response)]
  /\ Resources.getResource_resume c2 uri (Returns (VObj response))
     = (c2, [], Throws "Failed to get resource")
  /\ Client.availableResources c2 = Client.availableResources c.
Proof.
  intros Huri Hk Htool Hfind Hjson Hfalsy response c1 c2.
  destruct (get_resource_round_trip h st now_h now sock c k uuid uri timer sent content sch
              option_timeout) as [Hsend Hsettle]; try done.
  subst c2 c1 response. split; [done|]. rewrite Hsettle. cbn [fst snd].
  split; [done|]. split; [|done].
  unfold Resources.getResource_resume. cbn [get lookup_prop List.find fst snd
    String.eqb Ascii.eqb Bool.eqb fmap option_fmap option_map default from_option id truthy].
  by rewrite Hfalsy.
Qed.

Lemma falsy_resource_cannot_be_fetched_witness :
  let st := Registry.addResource Registry.docs_server "docs://empty" (VStr "") in
  let response := [("id", VStr "req-1"); ("success", VBool true); ("resource", VStr "");
                   ("timestamp", VStr "2025-05-21T00:00:00.123Z")] in
  let c1 := fst (Client.sendCommand Scenarios.connected_client "req-1" 1%nat 1000
                   "get-resource" (VObj [("uri", VStr "docs://empty")]) None) in
  let c2 := fst (Client._handleMessage c1 "ctx" (Text (VObj response))) in
  Registry.dispatch Registry.no_host st 1747785600000 1747785600123 7
    (Text (VObj [("id", VStr "req-1"); ("command", VStr "get-resource");
                 ("params", VObj [("uri", VStr "docs://empty")]); ("context", VNull);
                 ("sequence", VNum 0)]))
  = [Server.Send 7%nat (Text (VObj response))]
  /\ snd (Resources.getResource_resume c2 "docs://empty" (Returns (VObj response)))
     = Throws "Failed to get resource".
Proof.
  intros st response c1 c2.
  destruct (falsy_resource_cannot_be_fetched Registry.no_host st
              1747785600000 1747785600123 7 Scenarios.connected_client "req-1" "ctx"
              "docs://empty" 1%nat 1000 (VStr "")
              (VObj [("description", VStr "Get a resource");
                     ("parameters",
                      VObj [("uri", Registry.parameter "string" "Resource URI")])]) None)
    as (_ & _ & Hthrows & _);
    [discriminate | discriminate | reflexivity | reflexivity | reflexivity | reflexivity |].
  split; [vm_compute; reflexivity|]. exact (f_equal snd Hthrows).
Defined.

(** *** Failures of a handler *)

Lemma nonempty_append (a b : string) : a <> "" -> String.eqb (a +:+ b) "" = false.
Proof. by destruct a. Qed.

(** The frame [sendCommand] writes, and what the response to it does. *)
Lemma sent_frame (c : Client.client) (k : string) (timer : nat) (sent : Z) (cmd : string)
    (prm : json) (option_timeout : option Z) :
  is_json prm = true ->
  exists ms,
    snd (Client.sendCommand c k timer sent cmd prm option_timeout)
    = [Client.SetTimeout (Client.command_timeout k ms) ms;
       Client.WsSend
         (Text (VObj [("id", VStr k); ("command", VStr cmd); ("params", prm);
                      ("context", match Client.contextId c with
                                  | Some x => VStr x
                                  | None => VNull
                                  end);
                      ("sequence", VNum (Client.sequenceId c))]))].
Proof.
  intros Hprm. eexists. cbn [Client.sendCommand snd]. rewrite (defaulted_json prm) by done.
  rewrite JSON_stringify_json; [done|].
  cbn. rewrite Hprm. by destruct (Client.contextId c).
Qed.

Lemma response_settles (c : Client.client) (k uuid : string) (timer : nat) (sent : Z)
    (cmd : string) (prm : json) (option_timeout : option Z) (resp : list (string * json)) :
  k <> "" -> lookup_prop "id" resp = Some (VStr k) ->
  truthy (default VUndefined (lookup_prop "message" resp)) = false ->
  let c1 := fst (Client.sendCommand c k timer sent cmd prm option_timeout) in
  Client._handleMessage c1 uuid (Text (VObj resp))
  = match Client.settlement k (VObj resp)
            (default VUndefined (lookup_prop "error" resp)) with
    | Returns outcome =>
        (Client.set_pending c1 (Client.map_delete k (Client.pendingCommands c1)),
         [Client.ClearTimeout timer; outcome])
    | Throws m =>
        (c1, [Client.ClearTimeout timer;
              Client.Emit (Client.error
                (Client.Str ("Failed to parse server message: " +:+ m)))])
    end.
Proof.
  intros Hk Hid Hmsg c1. rewrite handleMessage_response by done. rewrite Hid.
  cbn [default from_option id truthy]. rewrite (proj2 (eqb_false_iff k "") Hk).
  cbn [negb Client.pending_of_id].
  unfold c1. cbn [Client.sendCommand fst Client.pendingCommands Client.set_pending].
  by rewrite map_get_set.
Qed.

(** X26.  A failure of a handler reaches the caller as a rejection.  When
    the handler of a command throws, the dispatcher answers with the request
    id and [Error executing command: <message>] and the client rejects the
    request with that text; when the handler returns [{ error: <text> }], as
    the default tools do for a bad request, the client rejects the request
    with the text.  Either way the request leaves the pending map with its
    timeout cleared. *)
Theorem handler_failure_rejects_the_request (srv : Server.server) (now : Z) (sock : nat)
    (c : Client.client) (k uuid : string) (timer : nat) (sent : Z) (cmd : string)
    (prm : json) (option_timeout : option Z) (t : Server.tool) (m : string) :
  k <> "" -> cmd <> "" -> is_json prm = true -> m <> "" ->
  Server.tools srv !! cmd = Some t ->
  let c1 := fst (Client.sendCommand c k timer sent cmd prm option_timeout) in
  let request := [("id", VStr k); ("command", VStr cmd); ("params", prm);
                  ("context", match Client.contextId c with
                              | Some x => VStr x
                              | None => VNull
                              end);
                  ("sequence", VNum (Client.sequenceId c))] in
  let answer (text : string) :=
    [("id", VStr k); ("error", VStr text); ("timestamp", Server.timestamp now)] in
  let rejected (text : string) :=
    (Client.set_pending c1 (Client.map_delete k (Client.pendingCommands c1)),
     [Client.ClearTimeout timer; Client.Reject k (Client.Str text)]) in
  (exists ms,
     snd (Client.sendCommand c k timer sent cmd prm option_timeout)
     = [Client.SetTimeout (Client.command_timeout k ms) ms;
        Client.WsSend (Text (VObj request))])
  /\ (Server.handler t (or_else prm (VObj [])) sock = Throws m ->
      Server.handleMessage srv now sock (Text (VObj request))
      = [Server.Send sock (Text (VObj (answer ("Error executing command: " +:+ m))))]
      /\ Client._handleMessage c1 uuid
           (Text (VObj (answer ("Error executing command: " +:+ m))))
         = rejected ("Error executing command: " +:+ m))
  /\ (Server.handler t (or_else prm (VObj [])) sock = Returns (VObj [("error", VStr m)]) ->
      Server.handleMessage srv now sock (Text (VObj request))
      = [Server.Send sock (Text (VObj (answer m)))]
      /\ Client._handleMessage c1 uuid (Text (VObj (answer m))) = rejected m).
Proof.
  intros Hk Hcmd Hprm Hm Htool c1 request answer rejected.
  assert (forall text, text <> "" ->
            Client._handleMessage c1 uuid (Text (VObj (answer text))) = rejected text)
    as Hreject.
  { intros text Htext. unfold c1. rewrite response_settles; [|done|done|done].
    unfold rejected, answer.
    cbn [lookup_prop List.find fst snd String.eqb Ascii.eqb Bool.eqb fmap option_fmap
         option_map default from_option id].
    by rewrite settlement_text. }
  assert (Server.handleMessage srv now sock (Text (VObj request))
          = match Server.handler t (or_else prm (VObj [])) sock with
            | Returns result =>
                [Server.Send sock
                   (JSON_stringify (VObj (Server.success_response (VStr k) result now)))]
            | Throws e =>
                [Server.Send sock
                   (JSON_stringify (VObj (answer ("Error executing command: " +:+ e))))]
            end) as Hserver.
  { by rewrite (ServerFacts.handleMessage_command srv now sock request cmd t). }
  split; [by apply sent_frame|]. split.
  - intros Hthrows. rewrite Hserver, Hthrows. split; [by rewrite JSON_stringify_json|].
    apply Hreject. apply eqb_false_iff. by apply nonempty_append.
  - intros Hreturns. rewrite Hserver, Hreturns. rewrite RegistryFacts.error_response.
    split; [by rewrite JSON_stringify_json|]. by apply Hreject.
Qed.

Lemma handler_failure_rejects_the_request_witness :
  let request := [("id", VStr "req-1"); ("command", VStr "get-resource");
                  ("params", VObj [("uri", VStr "docs://none")]); ("context", VNull);
                  ("sequence", VNum 0)] in
  let answer := [("id", VStr "req-1"); ("error", VStr "Resource not found: docs://none");
                 ("timestamp", VStr "2025-05-21T00:00:00.123Z")] in
  Registry.dispatch Registry.no_host Registry.docs_server 1747785600000 1747785600123 7
    (Text (VObj request))
  = [Server.Send 7%nat (Text (VObj answer))]
  /\ snd (Client._handleMessage
            (fst (Client.sendCommand Scenarios.connected_client "req-1" 1%nat 1000
                    "get-resource" (VObj [("uri", VStr "docs://none")]) None))
            "ctx" (Text (VObj answer)))
     = [Client.ClearTimeout 1%nat;
        Client.Reject "req-1" (Client.Str "Resource not found: docs://none")].
Proof.
  intros request answer.
  destruct (handler_failure_rejects_the_request
              (Registry.serve Registry.no_host Registry.docs_server 1747785600000)
              1747785600123 7 Scenarios.connected_client "req-1" "ctx" 1%nat 1000
              "get-resource" (VObj [("uri", VStr "docs://none")]) None
              {| Server.name := "get-resource";
                 Server.handler := Registry.run_handler Registry.no_host Registry.docs_server
                                     1747785600000 Registry.get_resource;
                 Server.schema :=
                   VObj [("description", VStr "Get a resource");
                         ("parameters",
                          VObj [("uri", Registry.parameter "string" "Resource URI")])] |}
              "Resource not found: docs://none") as (_ & _ & Hreturned);
    [discriminate | discriminate | reflexivity | discriminate | reflexivity |].
  destruct Hreturned as [Hsend Hreject]; [reflexivity|].
  split; [exact Hsend | exact (f_equal snd Hreject)].
Defined.

(** *** The greeting *)

Lemma includes_prefix (s t : string) : Client.includes (s +:+ t) s = true.
Proof.
  assert (String.prefix s (s +:+ t) = true) as Hprefix.
  { induction s as [|a s IH]; [by destruct t|].
    change (String a s +:+ t) with (String a (s +:+ t)). cbn [String.prefix].
    by destruct (ascii_dec a a). }
  unfold Client.includes. destruct (s +:+ t); by rewrite Hprefix.
Qed.

(** X27.  The greeting [handleConnection] sends is what the client takes
    for a welcome, whatever the name and the version of the server: the
    socket joins the server's clients and is sent the greeting; the client
    emits it as a [welcome] event and draws its context id if it has none;
    and when the connection closes the socket leaves the server's
    clients. *)
Theorem greeting_is_a_welcome (st : Registry.mcp) (now : Z) (ws : nat)
    (c : Client.client) (uuid : string) :
  let st' := fst (Registry.handleConnection st now ws) in
  let greeting := Registry.welcome_message st now in
  snd (Registry.handleConnection st now ws) = [Server.Send ws (Text greeting)]
  /\ ws ∈ Registry.clients st'
  /\ Client._handleMessage c uuid (Text greeting)
     = (match Client.contextId c with
        | Some _ => c
        | None => Client.set_context c (Some uuid) (Client.sequenceId c)
        end, [Client.Emit (Client.welcome greeting)])
  /\ ws ∉ Registry.clients (Registry.connection_closed st' ws).
Proof.
  intros st' greeting. split; [|split; [|split]].
  - cbn [Registry.handleConnection snd]. by rewrite JSON_stringify_json.
  - unfold st'. cbn [Registry.handleConnection fst Registry.clients].
    case_bool_decide; [done|]. apply elem_of_app. right. by apply list_elem_of_singleton.
  - unfold Client._handleMessage, Client._handleMessage_try, greeting,
      Registry.welcome_message.
    cbn [JSON_parse Client.eval get lookup_prop List.find fst snd String.eqb Ascii.eqb
         Bool.eqb fmap option_fmap option_map default from_option id truthy
         Client.message_includes_Welcome].
    set (rest := Registry.options_name st +:+ " v" +:+ Registry.options_version st).
    change ("Welcome to " +:+ rest) with ("Welcome" +:+ (" to " +:+ rest)).
    rewrite includes_prefix. by rewrite nonempty_append.
  - cbn [Registry.connection_closed Registry.clients]. rewrite list_elem_of_In, filter_In.
    intros [_ Hws]. by rewrite bool_decide_eq_true_2 in Hws.
Qed.

(** *** Discovering the tools *)

Lemma is_json_listing (n : string) (sch : json) :
  is_json sch = true -> is_json (Registry.listing_of n sch) = true.
Proof.
  intros Hsch. unfold Registry.listing_of.
  assert (forall k, is_json (or_else (match get sch k with
                                      | Returns x => x
                                      | Throws _ => VUndefined
                                      end) (VStr "")) = true
                    /\ is_json (or_else (match get sch k with
                                         | Returns x => x
                                         | Throws _ => VUndefined
                                         end) (VObj [])) = true) as Hprop.
  { intros k. destruct sch as [ | | | | |[]| |o]; try done. cbn [get].
    destruct (lookup_prop k o) as [v|] eqn:Hv; [|done].
    pose proof (is_json_lookup o k v Hsch Hv) as Hjson.
    unfold or_else. cbn. by destruct (truthy v). }
  cbn. destruct (Hprop "description") as [-> _]. by destruct (Hprop "parameters") as [_ ->].
Qed.

Lemma tools_set_new (k v : json) (m : list (json * json)) :
  (forall kv, In kv m -> same_key k (fst kv) = false) -> tools_set k v m = (m ++ [(k, v)])%list.
Proof.
  induction m as [|[k' v'] m IH]; intros Hm; [done|]. cbn [tools_set].
  pose proof (Hm (k', v') (or_introl eq_refl)) as Hk. cbn [fst] in Hk. rewrite Hk.
  cbn [app]. rewrite IH; [done|]. intros kv Hkv. apply Hm. by right.
Qed.

Lemma add_tools_listing (entries : list (string * Registry.entry)) :
  NoDup (map fst entries) ->
  forall m : list (json * json),
    (forall n e kv, In (n, e) entries -> In kv m -> same_key (VStr n) (fst kv) = false) ->
    add_tools (map (fun kv => Registry.listing_of (fst kv) (Registry.e_schema (snd kv))) entries) m
    = ((m ++ map (fun kv => (VStr (fst kv),
                             Registry.listing_of (fst kv) (Registry.e_schema (snd kv))))
               entries)%list, None).
Proof.
  induction entries as [|[n e] entries IH]; intros Hnd m Hm.
  - cbn. by rewrite app_nil_r.
  - apply NoDup_cons in Hnd as [Hn Hnd]. cbn [map add_tools fst snd].
    cbn [Registry.listing_of get lookup_prop List.find fst snd String.eqb Ascii.eqb Bool.eqb
         fmap option_fmap option_map default from_option id].
    rewrite tools_set_new by (intros kv Hkv; apply (Hm n e kv); [by left | done]).
    rewrite IH; [by rewrite <- app_assoc | done |].
    intros n' e' kv Hin Hkv. apply in_app_or in Hkv as [Hkv|[<-|[]]].
    + apply (Hm n' e' kv); [by right | done].
    + cbn. apply eqb_false_iff. intros ->. apply Hn. apply list_elem_of_In.
      apply (in_map fst) in Hin. exact Hin.
Qed.

(** X28.  [discoverTools] against the server finds the registry: the
    [list-tools] request is answered with the registered tools, and the
    method, given that response, replaces whatever tools it knew by one
    entry per registered name, in the order of the registry, each with the
    name, the description and the parameters the server lists; it sets
    [toolsDiscovered], emits the entries with [tools_discovered] and
    resolves with the map. *)
Theorem discovered_tools_are_the_registry (h : Registry.host) (st : Registry.mcp)
    (now_h now : Z) (sock : nat) (d : discovery) (k : string) (sch : json)
    (o : list (string * json)) :
  lookup_prop "command" o = Some (VStr "list-tools") ->
  lookup_prop "id" o = Some (VStr k) ->
  Client.map_get "list-tools" (Registry.tool_map st)
  = Some {| Registry.e_handler := Registry.list_tools; Registry.e_schema := sch |} ->
  (forall n e, In (n, e) (Registry.tool_map st) ->
     Registry.e_schema e <> VNull /\ is_json (Registry.e_schema e) = true) ->
  NoDup (map fst (Registry.tool_map st)) ->
  let listed := map (fun kv => Registry.listing_of (fst kv) (Registry.e_schema (snd kv)))
                  (Registry.tool_map st) in
  let found := map (fun kv => (VStr (fst kv),
                               Registry.listing_of (fst kv) (Registry.e_schema (snd kv))))
                 (Registry.tool_map st) in
  let response := [("id", VStr k); ("success", VBool true); ("tools", VArr listed);
                   ("timestamp", Server.timestamp now)] in
  Registry.dispatch h st now_h now sock (Text (VObj o))
  = [Server.Send sock (Text (VObj response))]
  /\ discoverTools_resume d (Returns (VObj response))
     = ({| availableTools := found; toolsDiscovered := true |}, Some listed, Returns found).
Proof.
  intros Hcmd Hid Htool Hschemas Hnd listed found response. split.
  - rewrite (RegistryFacts.list_tools_dispatch h st now_h now sock o sch); [|done|done|].
    + rewrite Hid. cbn [default from_option id]. rewrite JSON_stringify_json; [done|].
      cbn. rewrite andb_true_r. apply forallb_forall. intros x Hx.
      apply in_map_iff in Hx as ([n e] & <- & Hin). apply is_json_listing.
      by apply (Hschemas n e).
    + intros n e Hin. destruct (Hschemas n e Hin) as [Hnull Hjson].
      split; [done|]. by intros Hundef; rewrite Hundef in Hjson.
  - unfold discoverTools_resume, response.
    cbn [get lookup_prop List.find fst snd String.eqb Ascii.eqb Bool.eqb fmap option_fmap
         option_map default from_option id truthy].
    unfold listed. rewrite add_tools_listing; [|done|done]. cbn [app].
    fold found. fold listed.
    assert (map snd found = listed) as ->; [|done].
    unfold found, listed. rewrite map_map. by apply map_ext.
Qed.

Lemma discovered_tools_are_the_registry_witness :
  exists response found,
    Registry.dispatch Registry.no_host Registry.docs_server 1747785600000 1747785600123 7
      (Text (VObj [("id", VStr "req-1"); ("command", VStr "list-tools");
                   ("params", VObj [])]))
    = [Server.Send 7%nat (Text (VObj response))]
    /\ discoverTools_resume
         {| availableTools := [(VStr "old-tool", VObj [])]; toolsDiscovered := false |}
         (Returns (VObj response))
       = ({| availableTools := found; toolsDiscovered := true |}, Some (map snd found),
          Returns found)
    /\ map fst found = [VStr "generate-tasks"; VStr "list-tools"; VStr "list-resources";
                        VStr "get-resource"].
Proof.
  destruct (discovered_tools_are_the_registry Registry.no_host Registry.docs_server
              1747785600000 1747785600123 7
              {| availableTools := [(VStr "old-tool", VObj [])]; toolsDiscovered := false |}
              "req-1"
              (VObj [("description", VStr "List available tools"); ("parameters", VObj [])])
              [("id", VStr "req-1"); ("command", VStr "list-tools"); ("params", VObj [])])
    as [Hsend Hfound].
  - reflexivity.
  - reflexivity.
  - reflexivity.
  - intros n e Hin. cbn in Hin.
    destruct Hin as [He|[He|[He|[He|[]]]]]; injection He as <- <-; by split.
  - by apply (bool_decide_unpack _).
  - exists [("id", VStr "req-1"); ("success", VBool true);
            ("tools",
             VArr (map (fun kv => Registry.listing_of (fst kv) (Registry.e_schema (snd kv)))
                       (Registry.tool_map Registry.docs_server)));
            ("timestamp", Server.timestamp 1747785600123)],
           (map (fun kv => (VStr (fst kv),
                            Registry.listing_of (fst kv) (Registry.e_schema (snd kv))))
                (Registry.tool_map Registry.docs_server)).
    split; [exact Hsend|]. split; [|reflexivity]. rewrite Hfound. by rewrite map_map.
Defined.

(** *** Generating tasks *)

(** X29.  The defaults of [generateTasks] are those of the tool.  Called
    with an input and an output file and nothing else, the method sends
    [generate-tasks] with 5 tasks, the provider [perplexity], the priority
    [medium] and no force; and the handler, given those params, runs the
    CLI with exactly the arguments it would use for a request that names
    the two files only: [--num-tasks 5 --provider perplexity --priority
    medium], without [--force].  A call without an input or an output file
    is rejected by the method and nothing is sent. *)
Theorem generateTasks_defaults_reach_the_cli (h : Registry.host) (now : Z)
    (o : list (string * json)) (input output : string) :
  lookup_prop "inputFile" o = Some (VStr input) -> input <> "" ->
  lookup_prop "outputFile" o = Some (VStr output) -> output <> "" ->
  lookup_prop "numTasks" o = None -> lookup_prop "provider" o = None ->
  lookup_prop "priority" o = None -> lookup_prop "force" o = None ->
  let prm := VObj [("input_file", VStr input); ("output_file", VStr output);
                   ("num_tasks", VNum 5); ("provider", VStr "perplexity");
                   ("priority", VStr "medium"); ("force", VBool false)] in
  let ran := Registry.runCommand h
               [VStr (Registry.script h); VStr "generate"; VStr "--input"; VStr input;
                VStr "--output"; VStr output; VStr "--num-tasks"; VStr "5";
                VStr "--provider"; VStr "perplexity"; VStr "--priority"; VStr "medium"] in
  generateTasks (VObj o) = Returns (Sent "generate-tasks" prm)
  /\ is_json prm = true
  /\ Registry.generate_tasks_handler h now prm
     = Returns (Registry.after_run h now (VStr output) ran)
  /\ Registry.generate_tasks_handler h now
       (VObj [("input_file", VStr input); ("output_file", VStr output)])
     = Returns (Registry.after_run h now (VStr output) ran)
  /\ generateTasks (VObj [("outputFile", VStr output)])
     = Returns (Rejected "Input file is required")
  /\ generateTasks (VObj [("inputFile", VStr input)])
     = Returns (Rejected "Output file is required").
Proof.
  intros Hin Hinput Hout Houtput Hnum Hprovider Hpriority Hforce prm ran.
  apply eqb_false_iff in Hinput, Houtput.
  split; [|split; [done|split; [|split; [|split]]]].
  - unfold generateTasks. cbn [destructure get bind].
    rewrite Hin, Hout, Hnum, Hprovider, Hpriority, Hforce.
    cbn [default from_option Datatypes.id truthy defaulted]. by rewrite Hinput, Houtput.
  - unfold Registry.generate_tasks_handler, prm.
    cbn [destructure get bind lookup_prop List.find fst snd String.eqb Ascii.eqb Bool.eqb
         fmap option_fmap option_map default from_option Datatypes.id truthy defaulted].
    by rewrite Hinput, Houtput.
  - unfold Registry.generate_tasks_handler.
    cbn [destructure get bind lookup_prop List.find fst snd String.eqb Ascii.eqb Bool.eqb
         fmap option_fmap option_map default from_option Datatypes.id truthy defaulted].
    by rewrite Hinput, Houtput.
  - done.
  - unfold generateTasks.
    cbn [destructure get bind lookup_prop List.find fst snd String.eqb Ascii.eqb Bool.eqb
         fmap option_fmap option_map default from_option Datatypes.id truthy defaulted].
    by rewrite Hinput.
Qed.

Lemma generateTasks_defaults_reach_the_cli_witness :
  generateTasks (VObj [("inputFile", VStr "prd.md"); ("outputFile", VStr "tasks.json")])
  = Returns (Sent "generate-tasks"
               (VObj [("input_file", VStr "prd.md"); ("output_file", VStr "tasks.json");
                      ("num_tasks", VNum 5); ("provider", VStr "perplexity");
                      ("priority", VStr "medium"); ("force", VBool false)]))
  /\ Registry.generate_tasks_handler Registry.no_host 1747785600123
       (VObj [("input_file", VStr "prd.md"); ("output_file", VStr "tasks.json")])
     = Returns (VObj [("error", VStr "Failed to run command: spawn node ENOENT");
                      ("command", VStr "generate-tasks");
                      ("timestamp", VStr "2025-05-21T00:00:00.123Z")]).
Proof.
  destruct (generateTasks_defaults_reach_the_cli Registry.no_host 1747785600123
              [("inputFile", VStr "prd.md"); ("outputFile", VStr "tasks.json")]
              "prd.md" "tasks.json") as (Hsent & _ & _ & Hrun & _);
    [reflexivity | discriminate | reflexivity | discriminate | reflexivity | reflexivity
     | reflexivity | reflexivity |].
  split; [exact Hsent|]. rewrite Hrun. vm_compute. reflexivity.
Defined.

(** *** Listing the resources *)

Lemma add_placeholders_uris (uris : list string) (m : gmap string json) (u : string) :
  Resources.add_placeholders (map VStr uris) m !! u
  = match m !! u with
    | Some v => Some v
    | None => if bool_decide (u ∈ uris) then Some VNull else None
    end.
Proof.
  unfold Resources.add_placeholders. revert m.
  induction uris as [|x uris IH]; intros m.
  { cbn. destruct (m !! u); [done|]. by rewrite bool_decide_eq_false_2 by apply not_elem_of_nil. }
  cbn [map fold_left]. rewrite IH. destruct (decide (u = x)) as [->|Hne].
  - destruct (m !! x) as [v|] eqn:Hx; [by rewrite Hx|].
    rewrite lookup_insert_eq. rewrite bool_decide_eq_true_2; [done|]. apply elem_of_cons. by left.
  - assert (match m !! x with Some _ => m | None => <[x:=VNull]> m end !! u = m !! u) as ->.
    { destruct (m !! x); [done|]. by rewrite lookup_insert_ne. }
    destruct (m !! u); [done|].
    rewrite (bool_decide_ext (u ∈ x :: uris) (u ∈ uris)); [done|].
    rewrite elem_of_cons. intuition.
Qed.

(** X30.  [listResources] against the server: the [list-resources] request
    is answered with the URIs of the server's resources, in the order they
    were first added, and the method, given that response, emits and
    returns them, gives every listed URI it has no entry for a null
    placeholder, and leaves every entry it has, a cached content included,
    as it is. *)
Theorem listed_resources_become_placeholders (h : Registry.host) (st : Registry.mcp)
    (now_h now : Z) (sock : nat) (c : Client.client) (k : string) (sch : json)
    (o : list (string * json)) :
  lookup_prop "command" o = Some (VStr "list-resources") ->
  lookup_prop "id" o = Some (VStr k) ->
  Client.map_get "list-resources" (Registry.tool_map st)
  = Some {| Registry.e_handler := Registry.list_resources; Registry.e_schema := sch |} ->
  let uris := map fst (Registry.resource_map st) in
  let response := [("id", VStr k); ("success", VBool true);
                   ("resources", VArr (map VStr uris));
                   ("timestamp", Server.timestamp now)] in
  let c' := fst (fst (Resources.listResources_resume c (Returns (VObj response)))) in
  Registry.dispatch h st now_h now sock (Text (VObj o))
  = [Server.Send sock (Text (VObj response))]
  /\ Resources.listResources_resume c (Returns (VObj response))
     = (c', [Client.Emit (Client.resources_listed (VArr (map VStr uris)))],
        Returns (VArr (map VStr uris)))
  /\ forall u, Client.availableResources c' !! u
               = match Client.availableResources c !! u with
                 | Some v => Some v
                 | None => if bool_decide (u ∈ uris) then Some VNull else None
                 end.
Proof.
  intros Hcmd Hid Htool uris response c'.
  assert (Resources.listResources_resume c (Returns (VObj response))
          = (Client.set_resources c
               (Resources.add_placeholders (map VStr uris) (Client.availableResources c)),
             [Client.Emit (Client.resources_listed (VArr (map VStr uris)))],
             Returns (VArr (map VStr uris)))) as Hresume by done.
  split; [|split].
  - unfold Registry.dispatch.
    rewrite (ServerFacts.handleMessage_command _ now sock o "list-resources"
               {| Server.name := "list-resources";
                  Server.handler := Registry.run_handler h st now_h Registry.list_resources;
                  Server.schema := sch |});
      [|done|done|by rewrite RegistryFacts.serve_lookup, Htool].
    cbn [Server.handler Registry.run_handler]. unfold Registry.list_resources_handler.
    rewrite RegistryFacts.stamped_response by (right; by left).
    rewrite Hid. cbn [default from_option Datatypes.id]. rewrite JSON_stringify_json.
    + unfold response, uris. by rewrite map_map.
    + cbn. rewrite andb_true_r. apply forallb_forall. intros x Hx.
      by apply in_map_iff in Hx as (kv & <- & _).
  - unfold c'. by rewrite Hresume.
  - intros u. unfold c'. rewrite Hresume. cbn [fst Client.availableResources Client.set_resources].
    apply add_placeholders_uris.
Qed.

Lemma listed_resources_become_placeholders_witness :
  let st := Registry.addResource Registry.docs_server "docs://api" (VNum 3) in
  let c := fst (fst (Resources.getResource_resume Scenarios.connected_client "docs://readme"
                       (Returns Scenarios.readme_response))) in
  let response := [("id", VStr "req-2"); ("success", VBool true);
                   ("resources", VArr [VStr "docs://readme"; VStr "docs://api"]);
                   ("timestamp", VStr "2025-05-21T00:00:00.123Z")] in
  let c' := fst (fst (Resources.listResources_resume c (Returns (VObj response)))) in
  Registry.dispatch Registry.no_host st 1747785600000 1747785600123 7
    (Text (VObj [("id", VStr "req-2"); ("command", VStr "list-resources")]))
  = [Server.Send 7%nat (Text (VObj response))]
  /\ Client.availableResources c' !! "docs://readme" = Some (VStr "# Tascade AI")
  /\ Client.availableResources c' !! "docs://api" = Some VNull.
Proof.
  intros st c response c'.
  destruct (listed_resources_become_placeholders Registry.no_host st 1747785600000
              1747785600123 7 c "req-2"
              (VObj [("description", VStr "List available resources");
                     ("parameters", VObj [])])
              [("id", VStr "req-2"); ("command", VStr "list-resources")])
    as (Hsend & _ & Hcache); [reflexivity | reflexivity | reflexivity |].
  split; [exact Hsend|]. split; [exact (Hcache "docs://readme") | exact (Hcache "docs://api")].
Defined.

End EndToEndMore.
